(** * Code-metrics checkers of beatbox-trainer

    A shallow embedding of the two line-counting / function-extraction
    scripts of the repository,

      - [src/tools/check_code_metrics.py]  (class [CodeMetrics]), and
      - [src/scripts/verify_metrics.py]    (class [MetricsAnalyzer]),

    together with the properties of the line classifier, the function
    extractors, the threshold checks and the report rankings.

    Conventions of the embedding:
      - a Python [str] is a Rocq [string]; a character is a code point
        below 256, so the tables for whitespace and word characters are
        the ones Python uses on that range;
      - Python's unbounded [int] is [nat] for counters that only grow and
        [Z] for the brace counter, which can become negative;
      - a [for] loop over a list is a [fold_left] of its body; a [while]
        loop over an index is a fixpoint on a fuel argument, called with
        the number of lines still ahead, which the loop cannot exceed;
      - reading a file either fails (any exception of [open]/[read], which
        the scripts catch with [except Exception]) or yields its text;
      - [print] appends an event to an output log. *)

From Stdlib Require Import List String Ascii Bool Arith ZArith NArith Lia.
From Stdlib Require Import Sorting.Sorted Sorting.Permutation.
Import ListNotations.

Local Open Scope string_scope.
Local Open Scope list_scope.

(* ===================================================================== *)
(** * Python string primitives used by the scripts *)
(* ===================================================================== *)

Module Text.

(** [str.isspace] on one character (also what [\s] matches): code points
    9-13, 28-32, 133 and 160. *)
Definition is_space (c : ascii) : bool :=
  let n := nat_of_ascii c in
  (((9 <=? n) && (n <=? 13)) || ((28 <=? n) && (n <=? 32))
   || (n =? 133) || (n =? 160))%nat.

Definition is_empty (s : string) : bool :=
  match s with EmptyString => true | String _ _ => false end.

Fixpoint lstrip (s : string) : string :=
  match s with
  | EmptyString => EmptyString
  | String c s' => if is_space c then lstrip s' else s
  end.

Fixpoint rstrip (s : string) : string :=
  match s with
  | EmptyString => EmptyString
  | String c s' =>
      let r := rstrip s' in
      if is_empty r && is_space c then EmptyString else String c r
  end.

(** [s.strip()] *)
Definition strip (s : string) : string := rstrip (lstrip s).

(** [s.startswith(p)] *)
Definition startswith (p s : string) : bool := String.prefix p s.

(** [sub in s] *)
Fixpoint contains (sub s : string) : bool :=
  String.prefix sub s ||
  match s with
  | EmptyString => false
  | String _ s' => contains sub s'
  end.

(** [s.count(c)] for a one-character [c]; a [Z] because the callers
    subtract two such counts. *)
Fixpoint count_char (c : ascii) (s : string) : Z :=
  match s with
  | EmptyString => 0%Z
  | String d s' => ((if Ascii.eqb c d then 1 else 0) + count_char c s')%Z
  end.

(** [line.count('{') - line.count('}')] *)
Definition net_braces (line : string) : Z :=
  (count_char "{"%char line - count_char "}"%char line)%Z.

(** [lines[a:b]] for non-negative [a] and [b]. *)
Definition slice {A} (l : list A) (a b : nat) : list A :=
  firstn (b - a) (skipn a l).

End Text.

Import Text.

(* ===================================================================== *)
(** * The fragment of Python's [re] used by the signature patterns *)
(* ===================================================================== *)

Module Regex.

(** Patterns are abstract syntax; every pattern of the scripts starts with
    the anchor [^] and is applied with [re.match] or with [search] without
    the MULTILINE flag, so a match can only start at position 0. *)
Inductive re : Type :=
| Eps : re                        (* the empty pattern *)
| Chr : (ascii -> bool) -> re     (* one character of a class *)
| Cat : re -> re -> re            (* r1 r2 *)
| Alt : re -> re -> re            (* r1|r2, r1 tried first *)
| Star : re -> re                 (* greedy r* *)
| LazyStar : re -> re             (* r*? *)
| Grp : re -> re.                 (* the capture group read by group(1) *)

Declare Scope re_scope.
Delimit Scope re_scope with re.
Bind Scope re_scope with re.
Infix "+>" := Cat (right associativity, at level 60) : re_scope.
Infix "</>" := Alt (right associativity, at level 65) : re_scope.

(** r+ and r? (both greedy) *)
Definition Plus (r : re) : re := Cat r (Star r).
Definition Opt (r : re) : re := Alt r Eps.

(** a literal run of characters *)
Fixpoint Lit (s : string) : re :=
  match s with
  | EmptyString => Eps
  | String c s' => Cat (Chr (Ascii.eqb c)) (Lit s')
  end.

(** Backtracking matcher in continuation-passing style: [run r s g k]
    matches [r] at the head of [s] in every way Python would try, in
    Python's order, and hands the rest of the input and the capture to
    [k]; the first success wins.  An iteration of a star must consume a
    character, so [String.length s] iterations are never exceeded. *)
Fixpoint run {A} (r : re) (s : string) (g : option string)
         (k : string -> option string -> option A) {struct r} : option A :=
  match r with
  | Eps => k s g
  | Chr p =>
      match s with
      | String c s' => if p c then k s' g else None
      | EmptyString => None
      end
  | Cat r1 r2 => run r1 s g (fun s' g' => run r2 s' g' k)
  | Alt r1 r2 =>
      match run r1 s g k with
      | Some a => Some a
      | None => run r2 s g k
      end
  | Star r1 =>
      (fix iter (n : nat) (s : string) (g : option string) {struct n}
         : option A :=
         match n with
         | O => k s g
         | S n' =>
             match run r1 s g
                     (fun s' g' =>
                        if (String.length s' <? String.length s)%nat
                        then iter n' s' g' else None) with
             | Some a => Some a
             | None => k s g
             end
         end) (String.length s) s g
  | LazyStar r1 =>
      (fix iter (n : nat) (s : string) (g : option string) {struct n}
         : option A :=
         match n with
         | O => k s g
         | S n' =>
             match k s g with
             | Some a => Some a
             | None =>
                 run r1 s g
                   (fun s' g' =>
                      if (String.length s' <? String.length s)%nat
                      then iter n' s' g' else None)
             end
         end) (String.length s) s g
  | Grp r1 =>
      run r1 s g
        (fun s' _ =>
           k s' (Some (substring 0 (String.length s - String.length s') s)))
  end.

(** [pattern.match(s)]: [None] when there is no match, otherwise the text
    of group 1 ([None] inside when the pattern has no such group). *)
Definition re_match (r : re) (s : string) : option (option string) :=
  run r s None (fun _ g => Some g).

Definition matches (r : re) (s : string) : bool :=
  match re_match r s with Some _ => true | None => false end.

(** Character classes. *)
Definition in_range (lo hi : nat) (c : ascii) : bool :=
  let n := nat_of_ascii c in ((lo <=? n) && (n <=? hi))%nat.

(** [[A-Za-z_]] *)
Definition ident_start (c : ascii) : bool :=
  in_range 65 90 c || in_range 97 122 c || Ascii.eqb c "_".

(** [\w] on str patterns: letters, digits and the underscore, where
    letters and digits are the Unicode ones (below 256: the ASCII ones and
    170, 178, 179, 181, 185, 186, 188-190, 192-214, 216-246, 248-255). *)
Definition is_word (c : ascii) : bool :=
  ident_start c || in_range 48 57 c
  || in_range 170 170 c || in_range 178 179 c || in_range 181 181 c
  || in_range 185 186 c || in_range 188 190 c || in_range 192 214 c
  || in_range 216 246 c || in_range 248 255 c.

Definition ws : re := Chr is_space.          (* \s *)
Definition word : re := Chr is_word.         (* \w *)
Definition dot : re := Chr (fun c => negb (Ascii.eqb c "010")).  (* . *)
Definition not_chr (c : ascii) : re := Chr (fun d => negb (Ascii.eqb c d)).

End Regex.

Import Regex.

(* ===================================================================== *)
(** * Files as the scripts see them *)
(* ===================================================================== *)

Module Files.

(** The attributes of a [pathlib.Path] that the scripts read. *)
Record Path : Type := mkPath {
  path_str : string;      (* str(path) *)
  path_suffix : string;   (* path.suffix *)
  path_name : string;     (* path.name *)
  path_rel : string       (* str(path.relative_to(project_root)) *)
}.

(** What [open(path, 'r', encoding='utf-8')] followed by a read gives:
    an exception (permission, decoding, ...) with its message, or the
    decoded text, newlines already translated to the line feed. *)
Inductive Content : Type :=
| Unreadable (e : string)
| Readable (text : string).

Record File : Type := mkFile {
  location : Path;
  content : Content
}.

Definition newline : ascii := "010"%char.

(** [f.readlines()]: the lines of the text, each with its line feed. *)
Fixpoint readlines (text : string) : list string :=
  match text with
  | EmptyString => []
  | String c text' =>
      if Ascii.eqb c newline then String c EmptyString :: readlines text'
      else match readlines text' with
           | [] => [String c EmptyString]
           | l :: ls => String c l :: ls
           end
  end.

(** [f.read().split('\n')] *)
Fixpoint split_lines (text : string) : list string :=
  match text with
  | EmptyString => [EmptyString]
  | String c text' =>
      if Ascii.eqb c newline then EmptyString :: split_lines text'
      else match split_lines text' with
           | [] => [String c EmptyString]
           | l :: ls => String c l :: ls
           end
  end.

(** Lines printed by the [except] branches. *)
Inductive Event : Type :=
| ErrorChecking (p : Path) (e : string)            (* check_file_size *)
| ErrorCheckingFunctions (p : Path) (e : string)   (* check_function_sizes *)
| ErrorReading (p : Path) (e : string).            (* verify_metrics *)

(** [enumerate(l, start)] and [enumerate(l)] *)
Definition enumerate_from {A} (start : nat) (l : list A) : list (nat * A) :=
  combine (seq start (List.length l)) l.

Definition enumerate {A} (l : list A) : list (nat * A) := enumerate_from 0 l.

(** a list is falsy exactly when it is empty *)
Definition is_nil {A} (l : list A) : bool :=
  match l with [] => true | _ :: _ => false end.

End Files.

Import Files.

(* ===================================================================== *)
(** * src/tools/check_code_metrics.py *)
(* ===================================================================== *)

Module CheckCodeMetrics.

Definition MAX_FILE_LINES : nat := 500.
Definition MAX_FUNCTION_LINES : nat := 50.

Definition DART_EXTENSIONS : list string := [".dart"].
Definition RUST_EXTENSIONS : list string := [".rs"].
Definition EXCLUDE_DIRS : list string :=
  ["build"; "target"; ".dart_tool"; "generated"; "ios"; "android";
   "windows"; "linux"; "macos"; "web"].
Definition EXCLUDE_FILES : list string := ["_test.dart"; ".g.dart"; ".freezed.dart"].

(** The entries appended to [self.violations]; [at_line] is the pair
    interpolated into the text path:start of the key location. *)
Inductive Violation : Type :=
| file_size (file : string) (lines limit : nat)
| function_size (file : string) (function : string) (lines limit : nat)
                (at_line : string * nat).

(** The dictionary [self.stats]; its key set never changes. *)
Record Stats : Type := mkStats {
  total_files : nat;
  total_functions : nat;
  oversized_files : nat;
  oversized_functions : nat;
  max_file_size : nat;
  max_function_size : nat
}.

Record CodeMetrics : Type := mkCodeMetrics {
  violations : list Violation;
  stats : Stats
}.

(** [CodeMetrics.__init__]: every attribute of [self] is assigned, so the
    result does not depend on what the object held before. *)
Definition init (self : option CodeMetrics) : CodeMetrics :=
  {| violations := [];
     stats := {| total_files := 0; total_functions := 0;
                 oversized_files := 0; oversized_functions := 0;
                 max_file_size := 0; max_function_size := 0 |} |}.

(** One iteration of the loop of [count_code_lines]; the state is
    [(count, in_block_comment)]. *)
Definition count_code_step (st : nat * bool) (line : string) : nat * bool :=
  let '(count, in_block_comment) := st in
  let stripped := strip line in
  if is_empty stripped then (count, in_block_comment)
  else
    let in_block_comment :=
      if contains "/*" stripped then true else in_block_comment in
    if contains "*/" stripped then (count, false)
    else if in_block_comment then (count, in_block_comment)
    else if startswith "//" stripped || startswith "#" stripped
         then (count, in_block_comment)
    else (count + 1, in_block_comment).

Definition count_code_run (lines : list string) (st : nat * bool) : nat * bool :=
  fold_left count_code_step lines st.

(** [CodeMetrics.count_code_lines] *)
Definition count_code_lines (lines : list string) : nat :=
  fst (count_code_run lines (0, false)).

(** [CodeMetrics.check_file_size]; the result is the returned boolean,
    the object after the call and the output printed so far. *)
Definition check_file_size (self : CodeMetrics) (out : list Event) (f : File)
  : bool * CodeMetrics * list Event :=
  match content f with
  | Unreadable e => (true, self, out ++ [ErrorChecking (location f) e])
  | Readable text =>
      let lines := readlines text in
      let code_lines := count_code_lines lines in
      let st := stats self in
      let st1 :=
        {| total_files := total_files st + 1;
           total_functions := total_functions st;
           oversized_files := oversized_files st;
           oversized_functions := oversized_functions st;
           max_file_size := Nat.max (max_file_size st) code_lines;
           max_function_size := max_function_size st |} in
      if (MAX_FILE_LINES <? code_lines)%nat then
        (false,
         {| violations :=
              violations self ++
              [file_size (path_str (location f)) code_lines MAX_FILE_LINES];
            stats :=
              {| total_files := total_files st1;
                 total_functions := total_functions st1;
                 oversized_files := oversized_files st1 + 1;
                 oversized_functions := oversized_functions st1;
                 max_file_size := max_file_size st1;
                 max_function_size := max_function_size st1 |} |},
         out)
      else (true, {| violations := violations self; stats := st1 |}, out)
  end.

(** The pattern of [find_dart_functions]: leading blanks, a return type
    (Future<..>, Stream<..>, void, bool, int, double, String or a run of
    word characters and angle brackets), blanks, a name, blanks, an
    opening parenthesis. *)
Definition dart_pattern : re :=
  (Star ws +>
   (Lit "Future<" +> LazyStar dot +> Lit ">"
    </> Lit "Stream<" +> LazyStar dot +> Lit ">"
    </> Lit "void" </> Lit "bool" </> Lit "int" </> Lit "double"
    </> Lit "String"
    </> Plus (Chr (fun c => is_word c || Ascii.eqb c "<" || Ascii.eqb c ">"))) +>
   Plus ws +> Plus word +> Star ws +> Lit "(")%re.

(** The pattern of [find_rust_functions]: leading blanks, optional pub,
    optional async, fn, blanks, a name. *)
Definition rust_pattern : re :=
  (Star ws +> Opt (Lit "pub" +> Plus ws) +> Opt (Lit "async" +> Plus ws) +>
   Lit "fn" +> Plus ws +> Plus word)%re.

(** A found function: (stripped signature line, start line, end line),
    lines counted from 1.  While it is open, [current_function] holds the
    tuple with 0 for the end. *)
Definition Function : Type := string * nat * nat.

Record FindState : Type := mkFindState {
  functions : list Function;
  current_function : option Function;
  brace_count : Z
}.

Definition is_none {A} (o : option A) : bool :=
  match o with None => true | Some _ => false end.

(** The loop body shared, word for word, by [find_dart_functions] and
    [find_rust_functions]; only the pattern differs. *)
Definition find_step (pattern : re) (st : FindState) (il : nat * string)
  : FindState :=
  let '(i, line) := il in
  let stripped := strip line in
  (* Match function declarations *)
  let st1 :=
    if matches pattern line then
      if contains "{" line && is_none (current_function st) then
        {| functions := functions st;
           current_function := Some (stripped, i + 1, 0);
           brace_count := net_braces line |}
      else st
    else st in
  (* Track braces *)
  match current_function st1 with
  | Some cf =>
      let bc := (brace_count st1 + net_braces line)%Z in
      if (bc =? 0)%Z then
        {| functions := functions st1 ++ [(fst (fst cf), snd (fst cf), i + 1)];
           current_function := None;
           brace_count := bc |}
      else
        {| functions := functions st1;
           current_function := Some cf;
           brace_count := bc |}
  | None => st1
  end.

Definition find_init : FindState :=
  {| functions := []; current_function := None; brace_count := 0%Z |}.

Definition find_run (pattern : re) (ils : list (nat * string)) (st : FindState)
  : FindState :=
  fold_left (find_step pattern) ils st.

Definition find_functions (pattern : re) (lines : list string) : list Function :=
  functions (find_run pattern (enumerate lines) find_init).

(** [CodeMetrics.find_dart_functions] *)
Definition find_dart_functions (lines : list string) : list Function :=
  find_functions dart_pattern lines.

(** [CodeMetrics.find_rust_functions] *)
Definition find_rust_functions (lines : list string) : list Function :=
  find_functions rust_pattern lines.

(** [x in l] for a list of strings *)
Definition mem (x : string) (l : list string) : bool :=
  existsb (String.eqb x) l.

(** One iteration of the loop over the found functions in
    [check_function_sizes]; the state is [(all_pass, self)]. *)
Definition check_function_step (p : Path) (lines : list string)
           (st : bool * CodeMetrics) (fn : Function) : bool * CodeMetrics :=
  let '(all_pass, self) := st in
  let '(func_name, start, end_) := fn in
  let function_lines := slice lines (start - 1) end_ in
  let code_lines := count_code_lines function_lines in
  let s0 := stats self in
  let s1 :=
    {| total_files := total_files s0;
       total_functions := total_functions s0 + 1;
       oversized_files := oversized_files s0;
       oversized_functions := oversized_functions s0;
       max_file_size := max_file_size s0;
       max_function_size := Nat.max (max_function_size s0) code_lines |} in
  if (MAX_FUNCTION_LINES <? code_lines)%nat then
    (false,
     {| violations :=
          violations self ++
          [function_size (path_str p) (substring 0 60 func_name) code_lines
             MAX_FUNCTION_LINES (path_str p, start)];
        stats :=
          {| total_files := total_files s1;
             total_functions := total_functions s1;
             oversized_files := oversized_files s1;
             oversized_functions := oversized_functions s1 + 1;
             max_file_size := max_file_size s1;
             max_function_size := max_function_size s1 |} |})
  else (all_pass, {| violations := violations self; stats := s1 |}).

(** [CodeMetrics.check_function_sizes] *)
Definition check_function_sizes (self : CodeMetrics) (out : list Event)
           (f : File) : bool * CodeMetrics * list Event :=
  match content f with
  | Unreadable e => (true, self, out ++ [ErrorCheckingFunctions (location f) e])
  | Readable text =>
      let lines := readlines text in
      let found :=
        if mem (path_suffix (location f)) DART_EXTENSIONS
        then Some (find_dart_functions lines)
        else if mem (path_suffix (location f)) RUST_EXTENSIONS
        then Some (find_rust_functions lines)
        else None in
      match found with
      | None => (true, self, out)
      | Some fns =>
          let '(all_pass, self') :=
            fold_left (check_function_step (location f) lines) fns (true, self) in
          (all_pass, self', out)
      end
  end.

(** [CodeMetrics.should_skip] *)
Definition should_skip (p : Path) : bool :=
  existsb (fun exclude_dir =>
             contains ("/" ++ exclude_dir ++ "/")%string (path_str p)
             || startswith exclude_dir (path_str p)) EXCLUDE_DIRS
  || existsb (fun exclude_file => contains exclude_file (path_name p)) EXCLUDE_FILES.

(** One iteration of the inner loop of [scan_directory]. *)
Definition scan_file (st : CodeMetrics * list Event) (f : File)
  : CodeMetrics * list Event :=
  let '(self, out) := st in
  if should_skip (location f) then (self, out)
  else
    let '(_, self1, out1) := check_file_size self out f in
    let '(_, self2, out2) := check_function_sizes self1 out1 f in
    (self2, out2).

(** [CodeMetrics.scan_directory]; [rglob pattern] is the list of files
    that [root_dir.rglob(pattern)] yields, in the order it yields them. *)
Definition scan_directory (self : CodeMetrics) (out : list Event)
           (rglob : string -> list File) : CodeMetrics * list Event :=
  fold_left
    (fun st ext => fold_left scan_file (rglob ("*" ++ ext)%string) st)
    (DART_EXTENSIONS ++ RUST_EXTENSIONS) (self, out).

(** The dictionary returned by [generate_report]. *)
Record Report : Type := mkReport {
  compliance : bool;
  statistics : Stats;
  report_violations : list Violation;
  total_violations : nat;
  file_violations : nat;
  function_violations : nat
}.

(** [CodeMetrics.generate_report] *)
Definition generate_report (self : CodeMetrics) : Report :=
  {| compliance := (List.length (violations self) =? 0)%nat;
     statistics := stats self;
     report_violations := violations self;
     total_violations := List.length (violations self);
     file_violations := oversized_files (stats self);
     function_violations := oversized_functions (stats self) |}.

(** The scanning part of [main]: a new object, one scan, the report. *)
Definition run (rglob : string -> list File) : Report * list Event :=
  let metrics := init None in
  let '(metrics', out) := scan_directory metrics [] rglob in
  (generate_report metrics', out).

End CheckCodeMetrics.


(* ===================================================================== *)
(** * Python's sorted with a key and reverse=True *)
(* ===================================================================== *)

Module PySort.

Section Sorted.
Context {A : Type} (key : A -> nat).

(** [x] goes in front of the first element whose key is not larger, so
    it stays ahead of the equal-keyed elements that came after it. *)
Fixpoint insert_desc (x : A) (l : list A) : list A :=
  match l with
  | [] => [x]
  | y :: ys => if (key y <=? key x)%nat then x :: l else y :: insert_desc x ys
  end.

(** [sorted(l, key=key, reverse=True)]: Python's sort is stable and
    [reverse=True] keeps equal elements in their original order. *)
Definition sorted_reverse (l : list A) : list A :=
  fold_right insert_desc [] l.

End Sorted.

End PySort.

Import PySort.

(* ===================================================================== *)
(** * src/scripts/verify_metrics.py *)
(* ===================================================================== *)

Module VerifyMetrics.

Definition MAX_FILE_LINES : nat := 500.
Definition MAX_FUNCTION_LINES : nat := 50.

(** The two messages appended to a file's [violations], by the values
    they interpolate. *)
Inductive ViolationMsg : Type :=
| FileExceeds (limit code : nat)
| FunctionExceeds (func_name : string) (line limit code : nat).

Record FileMetrics : Type := mkFileMetrics {
  path : string;
  total_lines : nat;
  code_lines : nat;
  comment_lines : nat;
  blank_lines : nat;
  violations : list ViolationMsg
}.

(** [func_code_lines] is the field [code_lines] of the source. *)
Record FunctionMetrics : Type := mkFunctionMetrics {
  name : string;
  file_path : string;
  line_number : nat;
  func_code_lines : nat
}.

Record MetricsAnalyzer : Type := mkMetricsAnalyzer {
  project_root : string;
  file_metrics : list FileMetrics;
  function_metrics : list FunctionMetrics
}.

(** [MetricsAnalyzer.__init__]: assigns every attribute of [self]. *)
Definition init (self : option MetricsAnalyzer) (root : string) : MetricsAnalyzer :=
  {| project_root := root; file_metrics := []; function_metrics := [] |}.

(** [is_comment_line] *)
Definition is_comment_line (line lang : string) : bool :=
  let stripped := strip line in
  if String.eqb lang "dart" then
    startswith "//" stripped || startswith "/*" stripped || startswith "*" stripped
  else if String.eqb lang "rust" then
    startswith "//" stripped || startswith "/*" stripped || startswith "*" stripped
  else false.

(** [is_blank_line] *)
Definition is_blank_line (line : string) : bool :=
  (String.length (strip line) =? 0)%nat.

(** The counters of the loop of [count_file_lines]. *)
Record Counts : Type := mkCounts {
  n_code : nat;
  n_comment : nat;
  n_blank : nat;
  in_block_comment : bool
}.

Definition count_file_step (lang : string) (st : Counts) (line : string) : Counts :=
  let stripped := strip line in
  if is_blank_line line then
    {| n_code := n_code st; n_comment := n_comment st;
       n_blank := n_blank st + 1; in_block_comment := in_block_comment st |}
  else if contains "/*" stripped then
    {| n_code := n_code st; n_comment := n_comment st + 1;
       n_blank := n_blank st;
       in_block_comment := if contains "*/" stripped then false else true |}
  else if in_block_comment st then
    {| n_code := n_code st; n_comment := n_comment st + 1;
       n_blank := n_blank st;
       in_block_comment := if contains "*/" stripped then false else true |}
  else if is_comment_line line lang then
    {| n_code := n_code st; n_comment := n_comment st + 1;
       n_blank := n_blank st; in_block_comment := in_block_comment st |}
  else
    {| n_code := n_code st + 1; n_comment := n_comment st;
       n_blank := n_blank st; in_block_comment := in_block_comment st |}.

Definition counts_init : Counts :=
  {| n_code := 0; n_comment := 0; n_blank := 0; in_block_comment := false |}.

(** [count_file_lines]: (total_lines, code_lines, comment_lines,
    blank_lines), and the output printed so far. *)
Definition count_file_lines (out : list Event) (f : File) (lang : string)
  : (nat * nat * nat * nat) * list Event :=
  match content f with
  | Unreadable e => ((0, 0, 0, 0), out ++ [ErrorReading (location f) e])
  | Readable text =>
      let lines := readlines text in
      let total := List.length lines in
      let st := fold_left (count_file_step lang) lines counts_init in
      ((total, n_code st, n_comment st, n_blank st), out)
  end.

(** The code-line count of the collected [func_lines], written out twice
    in the source (with 'dart' and with 'rust'); the state is
    [(code_lines, in_block_comment)]. *)
Definition func_code_step (lang : string) (st : nat * bool) (func_line : string)
  : nat * bool :=
  let '(code, in_block) := st in
  let stripped := strip func_line in
  if is_blank_line func_line then (code, in_block)
  else if contains "/*" stripped then
    (code, if contains "*/" stripped then false else true)
  else if in_block then
    (code, if contains "*/" stripped then false else true)
  else if is_comment_line func_line lang then (code, in_block)
  else (code + 1, in_block).

Definition count_func_code (lang : string) (func_lines : list string) : nat :=
  fst (fold_left (func_code_step lang) func_lines (0, false)).

(** [lines[i]] for an index the loops have checked to be in range. *)
Definition at_ (lines : list string) (i : nat) : string := nth i lines EmptyString.

(** while i < len(lines) and ';' not in lines[i]: append, i += 1 *)
Fixpoint arrow_while (fuel : nat) (lines : list string) (i : nat)
         (func_lines : list string) : list string * nat :=
  match fuel with
  | O => (func_lines, i)
  | S fuel' =>
      if (i <? List.length lines)%nat && negb (contains ";" (at_ lines i))
      then arrow_while fuel' lines (i + 1) (func_lines ++ [at_ lines i])
      else (func_lines, i)
  end.

(** while i < len(lines) and brace_count > 0: append, count, i += 1 *)
Fixpoint brace_while (fuel : nat) (lines : list string) (i : nat)
         (func_lines : list string) (brace_count : Z)
  : list string * Z * nat :=
  match fuel with
  | O => (func_lines, brace_count, i)
  | S fuel' =>
      if (i <? List.length lines)%nat && (0 <? brace_count)%Z
      then brace_while fuel' lines (i + 1) (func_lines ++ [at_ lines i])
             (brace_count + net_braces (at_ lines i))%Z
      else (func_lines, brace_count, i)
  end.

(** while i < len(lines) and '{' not in lines[i]: append, i += 1 *)
Fixpoint open_while (fuel : nat) (lines : list string) (i : nat)
         (func_lines : list string) : list string * nat :=
  match fuel with
  | O => (func_lines, i)
  | S fuel' =>
      if (i <? List.length lines)%nat && negb (contains "{" (at_ lines i))
      then open_while fuel' lines (i + 1) (func_lines ++ [at_ lines i])
      else (func_lines, i)
  end.

(** The pattern of [extract_dart_functions]: blanks, annotations, optional
    static, final, const, a return type (Future<..>, Stream<..> or an
    identifier with optional <..>), blanks, the captured name, a
    parenthesised parameter list, optional async, then the arrow or an
    opening brace. *)
Definition dart_function_pattern : re :=
  (Star ws +> Star (Lit "@" +> Plus word +> Plus ws) +>
   Opt (Lit "static" +> Plus ws) +> Opt (Lit "final" +> Plus ws) +>
   Opt (Lit "const" +> Plus ws) +>
   (Lit "Future<" +> Plus (not_chr ">") +> Lit ">"
    </> Lit "Stream<" +> Plus (not_chr ">") +> Lit ">"
    </> Chr ident_start +> Star word +>
        Opt (Lit "<" +> Plus (not_chr ">") +> Lit ">")) +>
   Plus ws +> Grp (Chr ident_start +> Star word) +> Star ws +>
   Lit "(" +> Star (not_chr ")") +> Lit ")" +> Star ws +>
   Opt (Lit "async" +> Star ws) +> (Lit "=>" </> Lit "{"))%re.

(** The pattern of [extract_rust_functions]: blanks, attributes, optional
    visibility, async, unsafe, then fn, blanks, the captured name. *)
Definition rust_function_pattern : re :=
  (Star ws +> Star (Lit "#[" +> Plus (not_chr "]") +> Lit "]" +> Star ws) +>
   Opt (Lit "pub" +> Opt (Lit "(" +> Plus (not_chr ")") +> Lit ")") +> Plus ws) +>
   Opt (Lit "async" +> Plus ws) +> Opt (Lit "unsafe" +> Plus ws) +>
   Lit "fn" +> Plus ws +> Grp (Chr ident_start +> Star word) +> Star ws)%re.

(** [match.group(1)] *)
Definition group1 (g : option string) : string :=
  match g with Some x => x | None => EmptyString end.

(** The lines a Dart function match at index [i] collects, and the index
    at which the scan goes on. *)
Definition dart_func_lines (lines : list string) (i : nat) : list string * nat :=
  let line := at_ lines i in
  let is_arrow_function := contains "=>" line in
  if is_arrow_function then
    (* Arrow function - ends at semicolon *)
    let func_lines := [at_ lines i] in
    let i1 := i + 1 in
    let '(func_lines, i2) :=
      arrow_while (List.length lines - i1) lines i1 func_lines in
    if (i2 <? List.length lines)%nat
    then (func_lines ++ [at_ lines i2], i2)
    else (func_lines, i2)
  else
    (* Regular function with braces *)
    let brace_count := net_braces line in
    let func_lines := [at_ lines i] in
    let i1 := i + 1 in
    let '(func_lines, _, i2) :=
      brace_while (List.length lines - i1) lines i1 func_lines brace_count in
    (func_lines, i2).

(** One pass of the body of the outer [while] of [extract_dart_functions]
    at index [i]: the record appended, if the line matches, and the next
    index. *)
Definition dart_at (fp : string) (lines : list string) (i : nat)
  : option FunctionMetrics * nat :=
  let line := at_ lines i in
  match re_match dart_function_pattern line with
  | Some g =>
      let func_name := group1 g in
      let start_line := i in
      let '(func_lines, i') := dart_func_lines lines i in
      (Some {| name := func_name; file_path := fp;
               line_number := start_line + 1;
               func_code_lines := count_func_code "dart" func_lines |}, i')
  | None => (None, i + 1)
  end.

Fixpoint dart_loop (fuel : nat) (fp : string) (lines : list string) (i : nat)
         (functions : list FunctionMetrics) : list FunctionMetrics :=
  match fuel with
  | O => functions
  | S fuel' =>
      if (i <? List.length lines)%nat then
        match dart_at fp lines i with
        | (Some fm, i') => dart_loop fuel' fp lines i' (functions ++ [fm])
        | (None, i') => dart_loop fuel' fp lines i' functions
        end
      else functions
  end.

(** [extract_dart_functions] *)
Definition extract_dart_functions (out : list Event) (f : File)
  : list FunctionMetrics * list Event :=
  match content f with
  | Unreadable e => ([], out ++ [ErrorReading (location f) e])
  | Readable text =>
      let lines := split_lines text in
      (dart_loop (List.length lines) (path_str (location f)) lines 0 [], out)
  end.

(** What one pass of the outer [while] of [extract_rust_functions] does
    at index [i]. *)
Inductive RustPass : Type :=
| NoMatch (next : nat)                        (* i += 1 *)
| Break                                       (* no opening brace: break *)
| Extracted (fm : FunctionMetrics) (next : nat).

(** The lines a Rust function match at index [i] collects and the next
    index; [None] when the end of the file comes before an opening brace. *)
Definition rust_func_lines (lines : list string) (i : nat)
  : option (list string * nat) :=
  (* Find opening brace *)
  let '(func_lines, i1) := open_while (List.length lines - i) lines i [] in
  if (List.length lines <=? i1)%nat then None
  else
    (* Count braces *)
    let brace_count := net_braces (at_ lines i1) in
    let func_lines := func_lines ++ [at_ lines i1] in
    let i2 := i1 + 1 in
    let '(func_lines, _, i3) :=
      brace_while (List.length lines - i2) lines i2 func_lines brace_count in
    Some (func_lines, i3).

Definition rust_at (fp : string) (lines : list string) (i : nat) : RustPass :=
  let line := at_ lines i in
  match re_match rust_function_pattern line with
  | Some g =>
      let func_name := group1 g in
      let start_line := i in
      match rust_func_lines lines i with
      | None => Break
      | Some (func_lines, i') =>
          Extracted {| name := func_name; file_path := fp;
                       line_number := start_line + 1;
                       func_code_lines := count_func_code "rust" func_lines |} i'
      end
  | None => NoMatch (i + 1)
  end.

Fixpoint rust_loop (fuel : nat) (fp : string) (lines : list string) (i : nat)
         (functions : list FunctionMetrics) : list FunctionMetrics :=
  match fuel with
  | O => functions
  | S fuel' =>
      if (i <? List.length lines)%nat then
        match rust_at fp lines i with
        | Extracted fm i' => rust_loop fuel' fp lines i' (functions ++ [fm])
        | Break => functions
        | NoMatch i' => rust_loop fuel' fp lines i' functions
        end
      else functions
  end.

(** [extract_rust_functions] *)
Definition extract_rust_functions (out : list Event) (f : File)
  : list FunctionMetrics * list Event :=
  match content f with
  | Unreadable e => ([], out ++ [ErrorReading (location f) e])
  | Readable text =>
      let lines := split_lines text in
      (rust_loop (List.length lines) (path_str (location f)) lines 0 [], out)
  end.

(** One iteration of the loop over the extracted functions in
    [analyze_file]; the state is [(violations, self.function_metrics)]. *)
Definition analyze_func_step (st : list ViolationMsg * list FunctionMetrics)
           (func : FunctionMetrics) : list ViolationMsg * list FunctionMetrics :=
  let '(viols, fms) := st in
  let viols' :=
    if (MAX_FUNCTION_LINES <? func_code_lines func)%nat
    then viols ++ [FunctionExceeds (name func) (line_number func)
                     MAX_FUNCTION_LINES (func_code_lines func)]
    else viols in
  (viols', fms ++ [func]).

(** [analyze_file] *)
Definition analyze_file (self : MetricsAnalyzer) (out : list Event) (f : File)
           (lang : string) : FileMetrics * MetricsAnalyzer * list Event :=
  let '((total, code, comments, blanks), out1) := count_file_lines out f lang in
  let viols0 :=
    if (MAX_FILE_LINES <? code)%nat then [FileExceeds MAX_FILE_LINES code] else [] in
  (* Extract function metrics *)
  let '(functions, out2) :=
    if String.eqb lang "dart" then extract_dart_functions out1 f
    else if String.eqb lang "rust" then extract_rust_functions out1 f
    else ([], out1) in
  (* Check function length violations *)
  let '(viols, fms) :=
    fold_left analyze_func_step functions (viols0, function_metrics self) in
  ({| path := path_rel (location f); total_lines := total; code_lines := code;
      comment_lines := comments; blank_lines := blanks; violations := viols |},
   {| project_root := project_root self; file_metrics := file_metrics self;
      function_metrics := fms |},
   out2).

(** The markers of generated files and build artifacts. *)
Definition SKIP_MARKERS : list string :=
  ["/build/"; "/.dart_tool/"; "/target/"; ".g.dart"; ".freezed.dart"; "generated"].

(** One iteration of the loop of [scan_directory]. *)
Definition scan_file (lang : string) (st : MetricsAnalyzer * list Event) (f : File)
  : MetricsAnalyzer * list Event :=
  let '(self, out) := st in
  let path_str := path_str (location f) in
  if existsb (fun x => contains x path_str) SKIP_MARKERS then (self, out)
  else
    let '(metrics, self1, out1) := analyze_file self out f lang in
    ({| project_root := project_root self1;
        file_metrics := file_metrics self1 ++ [metrics];
        function_metrics := function_metrics self1 |}, out1).

(** [scan_directory]; [found] is what [directory.rglob(pattern)] yields,
    in the order it yields it. *)
Definition scan_directory (self : MetricsAnalyzer) (out : list Event)
           (found : list File) (lang : string) : MetricsAnalyzer * list Event :=
  fold_left (scan_file lang) found (self, out).

(** [Path(s).name] of a file path: the text after its last slash. *)
Fixpoint basename (s : string) : string :=
  match s with
  | EmptyString => EmptyString
  | String c s' => if contains "/" s' then basename s' else
                   if Ascii.eqb c "/" then s' else s
  end.

(** The report, by the values its lines interpolate: a row of a table is
    (rank, passes, label, code lines), a function row also carries the
    file name and line of the function. *)
Record Report : Type := mkReport {
  standards : nat * nat;
  summary_total_files : nat;
  summary_total_code_lines : nat;
  summary_files_with_violations : nat;
  summary_total_violations : nat;
  violation_listing : option (list (string * nat * list ViolationMsg));
  largest_files_rows : list (nat * bool * string * nat);
  largest_functions_rows : list (nat * bool * string * nat * (string * nat))
}.

(** The ranking tables of [generate_report]. *)
Definition largest_files (self : MetricsAnalyzer) : list FileMetrics :=
  firstn 10 (sorted_reverse code_lines (file_metrics self)).

Definition largest_functions (self : MetricsAnalyzer) : list FunctionMetrics :=
  firstn 10 (sorted_reverse func_code_lines (function_metrics self)).

(** [enumerate(l, 1)] *)
Definition enumerate1 {A} (l : list A) : list (nat * A) := enumerate_from 1 l.

(** [generate_report] *)
Definition generate_report (self : MetricsAnalyzer) : Report :=
  let total_files := List.length (file_metrics self) in
  let total_code_lines := list_sum (map code_lines (file_metrics self)) in
  let total_violations :=
    list_sum (map (fun f => List.length (violations f)) (file_metrics self)) in
  let files_with_violations :=
    List.length (filter (fun f => negb (is_nil (violations f))) (file_metrics self)) in
  {| standards := (MAX_FILE_LINES, MAX_FUNCTION_LINES);
     summary_total_files := total_files;
     summary_total_code_lines := total_code_lines;
     summary_files_with_violations := files_with_violations;
     summary_total_violations := total_violations;
     violation_listing :=
       if (0 <? total_violations)%nat then
         Some (map (fun m => (path m, code_lines m, violations m))
                 (filter (fun m => negb (is_nil (violations m)))
                    (sorted_reverse (fun x => List.length (violations x))
                       (file_metrics self))))
       else None;
     largest_files_rows :=
       map (fun im : nat * FileMetrics =>
              let '(i, metrics) := im in
              (i, (code_lines metrics <=? MAX_FILE_LINES)%nat,
               path metrics, code_lines metrics))
           (enumerate1 (largest_files self));
     largest_functions_rows :=
       map (fun im : nat * FunctionMetrics =>
              let '(i, func) := im in
              (i, (func_code_lines func <=? MAX_FUNCTION_LINES)%nat,
               name func, func_code_lines func,
               (basename (file_path func), line_number func)))
           (enumerate1 (largest_functions self)) |}.

(** The scanning part of [main]: a new analyzer, the three scans, the
    report; [lib], [test] and [rust_src] are the files the three [rglob]
    calls yield. *)
Definition run (root : string) (lib test rust_src : list File)
  : Report * list Event :=
  let analyzer := init None root in
  let '(a1, o1) := scan_directory analyzer [] lib "dart" in
  let '(a2, o2) := scan_directory a1 o1 test "dart" in
  let '(a3, o3) := scan_directory a2 o2 rust_src "rust" in
  (generate_report a3, o3).

End VerifyMetrics.


(* ===================================================================== *)
(** * Notions used to state the properties *)
(* ===================================================================== *)

Module Notions.

(** The line spans of a list of found functions follow one another:
    every function starts after line [lo] and after the end of the one
    before it, and does not end before it starts. *)
Fixpoint spans_from (lo : nat) (l : list CheckCodeMetrics.Function) : Prop :=
  match l with
  | [] => True
  | (_, s, e) :: l' => lo < s /\ s <= e /\ spans_from e l'
  end.

(** The end line of the last function of the list, [lo] if there is none. *)
Fixpoint last_end (lo : nat) (l : list CheckCodeMetrics.Function) : nat :=
  match l with
  | [] => lo
  | (_, _, e) :: l' => last_end e l'
  end.

(** The value of the brace counter of verify_metrics.py after line
    [j + n], for an extraction whose counting starts on line [j]: the sum
    of the net brace counts of the lines [j .. j + n]. *)
Fixpoint depth (lines : list string) (j n : nat) : Z :=
  match n with
  | O => net_braces (VerifyMetrics.at_ lines j)
  | S n' => (depth lines j n' + net_braces (VerifyMetrics.at_ lines (j + n)))%Z
  end.

(** What holds of the state of [find_dart_functions] and
    [find_rust_functions] before the line with index [i] is read: the
    found functions follow one another and end at or before line [i], and
    an open function starts after them, at or before line [i]. *)
Definition find_inv (i : nat) (st : CheckCodeMetrics.FindState) : Prop :=
  spans_from 0 (CheckCodeMetrics.functions st) /\
  match CheckCodeMetrics.current_function st with
  | None => last_end 0 (CheckCodeMetrics.functions st) <= i
  | Some (_, s, _) => last_end 0 (CheckCodeMetrics.functions st) < s /\ s <= i
  end.

(** [top] is a ranking of the [n] largest entries of [l] by [key]: it is
    in descending key order, it holds the first [n] entries of a
    rearrangement of [l] whose other entries have keys no larger, and the
    entries of any one key appear in [top] in the order they have in [l],
    earliest first. *)
Definition stable_top {A} (n : nat) (key : A -> nat) (l top : list A) : Prop :=
  StronglySorted (fun a b => key b <= key a) top /\
  (exists rest, Permutation (top ++ rest) l /\
                forall a b, In a top -> In b rest -> key b <= key a) /\
  (forall k, exists rest,
      filter (fun x => (key x =? k)%nat) l =
      filter (fun x => (key x =? k)%nat) top ++ rest) /\
  List.length top = Nat.min n (List.length l).

(** An analyzer that holds what [self] held followed by what [added]
    holds. *)
Definition extend (self added : VerifyMetrics.MetricsAnalyzer)
  : VerifyMetrics.MetricsAnalyzer :=
  {| VerifyMetrics.project_root := VerifyMetrics.project_root self;
     VerifyMetrics.file_metrics :=
       VerifyMetrics.file_metrics self ++ VerifyMetrics.file_metrics added;
     VerifyMetrics.function_metrics :=
       VerifyMetrics.function_metrics self ++ VerifyMetrics.function_metrics added |}.

(** The test of [scan_directory] of verify_metrics.py that skips a file. *)
Definition skipped (f : File) : bool :=
  existsb (fun x => contains x (path_str (location f))) VerifyMetrics.SKIP_MARKERS.

(** The record of a file without metrics. *)
Definition zero_metrics (f : File) : VerifyMetrics.FileMetrics :=
  {| VerifyMetrics.path := path_rel (location f);
     VerifyMetrics.total_lines := 0; VerifyMetrics.code_lines := 0;
     VerifyMetrics.comment_lines := 0; VerifyMetrics.blank_lines := 0;
     VerifyMetrics.violations := [] |}.

(** The text of [n] copies of [line], each ended by a line feed. *)
Fixpoint text_of (n : nat) (line : string) : string :=
  match n with
  | O => EmptyString
  | S n' => (line ++ String newline (text_of n' line))%string
  end.

(** The number of lines the loop of [count_file_lines] has labelled. *)
Definition labelled (st : VerifyMetrics.Counts) : nat :=
  VerifyMetrics.n_blank st + VerifyMetrics.n_comment st + VerifyMetrics.n_code st.

(** What [check_function_sizes] appends to the violations for one found
    function of the file at [p] with lines [lines]. *)
Definition function_violation (p : Path) (lines : list string)
           (fn : CheckCodeMetrics.Function) : list CheckCodeMetrics.Violation :=
  let '(func_name, start, end_) := fn in
  let code_lines := CheckCodeMetrics.count_code_lines (slice lines (start - 1) end_) in
  if (CheckCodeMetrics.MAX_FUNCTION_LINES <? code_lines)%nat
  then [CheckCodeMetrics.function_size (path_str p) (substring 0 60 func_name)
          code_lines CheckCodeMetrics.MAX_FUNCTION_LINES (path_str p, start)]
  else [].

(** The functions [check_function_sizes] looks for in a file, by suffix. *)
Definition found_functions (p : Path) (lines : list string)
  : list CheckCodeMetrics.Function :=
  if CheckCodeMetrics.mem (path_suffix p) CheckCodeMetrics.DART_EXTENSIONS
  then CheckCodeMetrics.find_dart_functions lines
  else if CheckCodeMetrics.mem (path_suffix p) CheckCodeMetrics.RUST_EXTENSIONS
  then CheckCodeMetrics.find_rust_functions lines
  else [].

(** A line that [count_code_lines] skips as blank. *)
Definition blank (line : string) : bool := is_empty (strip line).

(** The state of the loop of [count_file_lines] after the given lines. *)
Definition classify (lang : string) (lines : list string) : VerifyMetrics.Counts :=
  fold_left (VerifyMetrics.count_file_step lang) lines VerifyMetrics.counts_init.

(** What the two checks of check_code_metrics.py append to the violations
    for one file: the file violation, if any, then the function
    violations in the order of the found functions. *)
Definition violations_of_file (f : File) : list CheckCodeMetrics.Violation :=
  match content f with
  | Unreadable _ => []
  | Readable text =>
      let lines := readlines text in
      let n := CheckCodeMetrics.count_code_lines lines in
      (if (CheckCodeMetrics.MAX_FILE_LINES <? n)%nat
       then [CheckCodeMetrics.file_size (path_str (location f)) n
               CheckCodeMetrics.MAX_FILE_LINES]
       else []) ++
      flat_map (function_violation (location f) lines)
        (found_functions (location f) lines)
  end.

(** The files [CodeMetrics.scan_directory] checks, in the order it checks
    them: the Dart files, then the Rust files, without the skipped ones. *)
Definition checked_files (rglob : string -> list File) : list File :=
  filter (fun f => negb (CheckCodeMetrics.should_skip (location f)))
    (rglob "*.dart" ++ rglob "*.rs").

Definition is_file_size (v : CheckCodeMetrics.Violation) : bool :=
  match v with
  | CheckCodeMetrics.file_size _ _ _ => true
  | CheckCodeMetrics.function_size _ _ _ _ _ => false
  end.

(** A violation records a count above its limit and at most the maximum
    that the statistics hold. *)
Definition violation_ok (st : CheckCodeMetrics.Stats)
           (v : CheckCodeMetrics.Violation) : Prop :=
  match v with
  | CheckCodeMetrics.file_size _ n l =>
      l = 500 /\ 500 < n /\ n <= CheckCodeMetrics.max_file_size st
  | CheckCodeMetrics.function_size _ _ n l _ =>
      l = 50 /\ 50 < n /\ n <= CheckCodeMetrics.max_function_size st
  end.

(** The statistics of a [CodeMetrics] object are in step with its list
    of violations. *)
Definition stats_inv (self : CheckCodeMetrics.CodeMetrics) : Prop :=
  let st := CheckCodeMetrics.stats self in
  let vs := CheckCodeMetrics.violations self in
  List.length (filter is_file_size vs) = CheckCodeMetrics.oversized_files st /\
  List.length (filter (fun v => negb (is_file_size v)) vs) =
    CheckCodeMetrics.oversized_functions st /\
  CheckCodeMetrics.oversized_files st <= CheckCodeMetrics.total_files st /\
  CheckCodeMetrics.oversized_functions st <= CheckCodeMetrics.total_functions st /\
  Forall (violation_ok st) vs /\
  (CheckCodeMetrics.oversized_files st = 0 <->
   CheckCodeMetrics.max_file_size st <= 500) /\
  (CheckCodeMetrics.oversized_functions st = 0 <->
   CheckCodeMetrics.max_function_size st <= 50).

(** The value [main] of check_code_metrics.py returns for a report. *)
Definition check_exit_code (r : CheckCodeMetrics.Report) : nat :=
  if CheckCodeMetrics.compliance r then 0 else 1.

(** The brace counter of [find_dart_functions] and [find_rust_functions]
    after the line with index [i + k], for a function started on the
    line with index [i]: the net brace count of the signature line is
    added twice (once when the function is started, once when the braces
    of that same line are tracked), that of each later line once. *)
Fixpoint dcount (lines : list string) (i k : nat) : Z :=
  match k with
  | O => (2 * net_braces (nth i lines EmptyString))%Z
  | S k' => (dcount lines i k' + net_braces (nth (i + k) lines EmptyString))%Z
  end.

(** A found function lies in the file, starts on a line that matches the
    pattern and holds an opening brace, is named by that line stripped,
    and ends on the first line at which the counter is zero. *)
Definition found_ok (pattern : re) (lines : list string)
           (fn : CheckCodeMetrics.Function) : Prop :=
  let '(nm, s, e) := fn in
  1 <= s /\ s <= e /\ e <= List.length lines /\
  matches pattern (nth (s - 1) lines EmptyString) = true /\
  contains "{" (nth (s - 1) lines EmptyString) = true /\
  nm = strip (nth (s - 1) lines EmptyString) /\
  dcount lines (s - 1) (e - s) = 0%Z /\
  (forall k, k < e - s -> dcount lines (s - 1) k <> 0%Z).

(** The open function, if any, after all of [lines] have been read. *)
Definition open_ok (pattern : re) (lines : list string)
           (st : CheckCodeMetrics.FindState) : Prop :=
  match CheckCodeMetrics.current_function st with
  | None => True
  | Some (nm, s, _) =>
      1 <= s /\ s <= List.length lines /\
      matches pattern (nth (s - 1) lines EmptyString) = true /\
      contains "{" (nth (s - 1) lines EmptyString) = true /\
      nm = strip (nth (s - 1) lines EmptyString) /\
      CheckCodeMetrics.brace_count st =
        dcount lines (s - 1) (List.length lines - s) /\
      (forall k, k <= List.length lines - s -> dcount lines (s - 1) k <> 0%Z)
  end.

(** The sum of the net brace counts of some lines. *)
Definition net_sum (ls : list string) : Z :=
  fold_right (fun l acc => (net_braces l + acc)%Z) 0%Z ls.

(** The records of an extractor of verify_metrics.py come in increasing
    line order, all after line [lo]. *)
Fixpoint lines_from (lo : nat) (l : list VerifyMetrics.FunctionMetrics) : Prop :=
  match l with
  | [] => True
  | g :: l' =>
      lo < VerifyMetrics.line_number g /\
      lines_from (VerifyMetrics.line_number g) l'
  end.

(** A record of verify_metrics.py starts in the file and counts no more
    code lines than there are lines from its start to the end of the
    file. *)
Definition record_in_file (len : nat) (g : VerifyMetrics.FunctionMetrics) : Prop :=
  VerifyMetrics.line_number g <= len /\
  VerifyMetrics.func_code_lines g + VerifyMetrics.line_number g <= len + 1.

(** A violation message of verify_metrics.py holds a count above its
    limit; a file message holds the code-line count of its file. *)
Definition message_ok (code : nat) (v : VerifyMetrics.ViolationMsg) : Prop :=
  match v with
  | VerifyMetrics.FileExceeds l c => l = 500 /\ c = code /\ 500 < c
  | VerifyMetrics.FunctionExceeds _ _ l c => l = 50 /\ 50 < c
  end.

(** A file record is sound: its three counts add up to its total, its
    messages are justified, and an oversized file has its message. *)
Definition file_ok (m : VerifyMetrics.FileMetrics) : Prop :=
  VerifyMetrics.blank_lines m + VerifyMetrics.comment_lines m +
    VerifyMetrics.code_lines m = VerifyMetrics.total_lines m /\
  Forall (message_ok (VerifyMetrics.code_lines m)) (VerifyMetrics.violations m) /\
  (500 < VerifyMetrics.code_lines m <->
   In (VerifyMetrics.FileExceeds 500 (VerifyMetrics.code_lines m))
      (VerifyMetrics.violations m)).

(** The message [analyze_file] appends for an extracted function. *)
Definition function_message (func : VerifyMetrics.FunctionMetrics)
  : list VerifyMetrics.ViolationMsg :=
  if (VerifyMetrics.MAX_FUNCTION_LINES <? VerifyMetrics.func_code_lines func)%nat
  then [VerifyMetrics.FunctionExceeds (VerifyMetrics.name func)
          (VerifyMetrics.line_number func) VerifyMetrics.MAX_FUNCTION_LINES
          (VerifyMetrics.func_code_lines func)]
  else [].

(** A file record that has violations. *)
Definition has_violations (m : VerifyMetrics.FileMetrics) : bool :=
  negb (is_nil (VerifyMetrics.violations m)).

(** The value [main] of verify_metrics.py returns: 1 when the file
    records hold a violation, 0 otherwise. *)
Definition verify_exit_code (analyzer : VerifyMetrics.MetricsAnalyzer) : nat :=
  let total_violations :=
    list_sum (map (fun f => List.length (VerifyMetrics.violations f))
                (VerifyMetrics.file_metrics analyzer)) in
  if (0 <? total_violations)%nat then 1 else 0.

(** The scan of [extract_dart_functions] reaches the line with index [i]:
    the outer loop starts a pass there.  It does so at index 0 and at the
    index at which the pass at a reached line leaves off; the lines that an
    extraction consumes in between are not reached. *)
Inductive dart_reached (fp : string) (lines : list string) : nat -> Prop :=
| dart_reached_start : dart_reached fp lines 0
| dart_reached_next i :
    dart_reached fp lines i -> i < List.length lines ->
    dart_reached fp lines (snd (VerifyMetrics.dart_at fp lines i)).

(** The same for [extract_rust_functions], whose scan also stops for good
    at a signature that no opening brace follows. *)
Inductive rust_reached (fp : string) (lines : list string) : nat -> Prop :=
| rust_reached_start : rust_reached fp lines 0
| rust_reached_skip i j :
    rust_reached fp lines i -> i < List.length lines ->
    VerifyMetrics.rust_at fp lines i = VerifyMetrics.NoMatch j ->
    rust_reached fp lines j
| rust_reached_after i fm j :
    rust_reached fp lines i -> i < List.length lines ->
    VerifyMetrics.rust_at fp lines i = VerifyMetrics.Extracted fm j ->
    rust_reached fp lines j.

End Notions.

Import Notions.

(* ===================================================================== *)
(** * Facts about the string primitives *)
(* ===================================================================== *)

Section TextFacts.

Lemma contains_nonempty sub s :
  is_empty sub = false -> contains sub s = true -> is_empty s = false.
Proof.
  destruct s as [|c s]; simpl; [|reflexivity].
  destruct sub; simpl; intros; discriminate.
Qed.

Lemma slice_length {A} (l : list A) a b :
  b <= List.length l -> List.length (slice l a b) = b - a.
Proof.
  intros Hb. unfold slice.
  rewrite length_firstn, length_skipn. lia.
Qed.

Lemma is_empty_length s : is_empty s = (String.length s =? 0)%nat.
Proof. destruct s; reflexivity. Qed.

Lemma skipn_nth_cons {A} (d : A) (l : list A) : forall m,
  m < List.length l -> skipn m l = nth m l d :: skipn (S m) l.
Proof.
  induction l as [|x l IH]; intros m Hm; simpl in Hm; [lia|].
  destruct m as [|m]; [reflexivity|].
  cbn [skipn nth]. apply IH. lia.
Qed.

Lemma slice_nil {A} (l : list A) a : slice l a a = [].
Proof. unfold slice. rewrite Nat.sub_diag. reflexivity. Qed.

Lemma slice_cons {A} (d : A) (l : list A) m b :
  m < b -> m < List.length l ->
  slice l m b = nth m l d :: slice l (S m) b.
Proof.
  intros Hb Hm. unfold slice.
  replace (b - m) with (S (b - S m)) by lia.
  rewrite (skipn_nth_cons d) by assumption. reflexivity.
Qed.

Lemma slice_app {A} (l : list A) b c : forall a,
  a <= b -> b <= c -> b <= List.length l ->
  slice l a b ++ slice l b c = slice l a c.
Proof.
  intros a Hab Hbc Hb.
  remember (b - a) as n eqn:En. revert a Hab En.
  induction n as [|n IH]; intros a Hab En.
  - assert (a = b) by lia. subst a. rewrite slice_nil. reflexivity.
  - destruct l as [|d l']; [simpl in Hb; lia|].
    rewrite (slice_cons d (d :: l') a b) by lia.
    rewrite (slice_cons d (d :: l') a c) by lia.
    cbn [app]. rewrite (IH (S a)) by lia. reflexivity.
Qed.

Lemma slice_snoc {A} (d : A) (l : list A) : forall a b,
  a <= b -> b < List.length l ->
  slice l a (S b) = slice l a b ++ [nth b l d].
Proof.
  intros a b Hab Hb.
  remember (b - a) as n eqn:En. revert a Hab En.
  induction n as [|n IH]; intros a Hab En.
  - assert (a = b) by lia. subst a.
    rewrite slice_nil, (slice_cons d) by lia. rewrite slice_nil. reflexivity.
  - rewrite (slice_cons d l a (S b)) by lia.
    rewrite (slice_cons d l a b) by lia.
    rewrite (IH (S a)) by lia. reflexivity.
Qed.

End TextFacts.

(* ===================================================================== *)
(** * The line counter of check_code_metrics.py *)
(* ===================================================================== *)

Section CountCodeLines.
Import CheckCodeMetrics.

Lemma count_code_run_app l1 l2 st :
  count_code_run (l1 ++ l2) st = count_code_run l2 (count_code_run l1 st).
Proof. apply fold_left_app. Qed.

(** The counter only grows, by at most one per line, and what a run adds
    does not depend on the count it starts from. *)
Lemma count_code_step_shift n b line :
  count_code_step (n, b) line =
  (n + fst (count_code_step (0, b) line), snd (count_code_step (0, b) line)).
Proof.
  unfold count_code_step.
  destruct (is_empty (strip line)); simpl; [f_equal; lia|].
  destruct (contains "*/" (strip line)); simpl; [f_equal; lia|].
  destruct (contains "/*" (strip line)); simpl; [f_equal; lia|].
  destruct b; simpl; [f_equal; lia|].
  destruct (startswith "//" (strip line) || startswith "#" (strip line));
    simpl; f_equal; lia.
Qed.

Lemma count_code_run_shift lines : forall n b,
  count_code_run lines (n, b) =
  (n + fst (count_code_run lines (0, b)), snd (count_code_run lines (0, b))).
Proof.
  unfold count_code_run.
  induction lines as [|l ls IH]; intros n b; cbn [fold_left].
  - simpl. f_equal; lia.
  - rewrite count_code_step_shift.
    destruct (count_code_step (0, b) l) as [m b'] eqn:E. cbn [fst snd].
    rewrite (IH (n + m) b'), (IH m b'). cbn [fst snd]. f_equal. lia.
Qed.

Lemma count_code_step_le n b line :
  fst (count_code_step (n, b) line) <= n + 1.
Proof.
  unfold count_code_step.
  repeat match goal with
         | |- context [if ?c then _ else _] => destruct c; simpl
         end; lia.
Qed.

Lemma count_code_run_le lines : forall n b,
  fst (count_code_run lines (n, b)) <= n + List.length lines.
Proof.
  unfold count_code_run.
  induction lines as [|l ls IH]; intros n b; cbn [fold_left List.length];
    [simpl; lia|].
  pose proof (count_code_step_le n b l) as H.
  destruct (count_code_step (n, b) l) as [m b'] eqn:E.
  specialize (IH m b'). cbn [fst] in H. lia.
Qed.

Lemma count_code_lines_le lines :
  count_code_lines lines <= List.length lines.
Proof. unfold count_code_lines. apply (count_code_run_le lines 0 false). Qed.

(** C10. In [count_code_lines] of check_code_metrics.py a line whose
    stripped text contains the block-close marker is never counted and
    leaves the block-comment flag cleared, whatever the flag was before
    (so also when no block comment is open); hence such a line splits a
    file into two parts that are counted independently, and the code line
    [int x = a */ b;] counts as zero lines. *)
Theorem close_marker_line_not_counted (line : string) :
  contains "*/" (strip line) = true ->
  (forall count in_block,
      count_code_step (count, in_block) line = (count, false)) /\
  (forall before after,
      count_code_lines (before ++ line :: after) =
      count_code_lines before + count_code_lines after).
Proof.
  intros H.
  assert (Hstep : forall count in_block,
             count_code_step (count, in_block) line = (count, false)).
  { intros count in_block. unfold count_code_step.
    rewrite (contains_nonempty "*/" _ eq_refl H), H. reflexivity. }
  split; [exact Hstep|].
  intros before after. unfold count_code_lines.
  rewrite count_code_run_app.
  destruct (count_code_run before (0, false)) as [n b] eqn:E.
  unfold count_code_run at 1. cbn [fold_left].
  rewrite Hstep. fold (count_code_run after (n, false)).
  rewrite count_code_run_shift. reflexivity.
Qed.

Lemma close_marker_line_not_counted_witness :
  contains "*/" (strip "int x = a */ b;") = true /\
  count_code_step (0, false) "int x = a */ b;" = (0, false) /\
  count_code_lines (["int a = 1;"] ++ "int x = a */ b;" :: ["int b = 2;"]) = 2.
Proof.
  split; [reflexivity|].
  destruct (close_marker_line_not_counted "int x = a */ b;" eq_refl) as [H1 H2].
  split; [apply H1 | rewrite H2; reflexivity].
Defined.

End CountCodeLines.

(* ===================================================================== *)
(** * The line classifier of verify_metrics.py *)
(* ===================================================================== *)

Section CountFileLines.
Import VerifyMetrics.

Lemma count_file_step_cases lang st line :
  let st' := count_file_step lang st line in
  (n_blank st' = n_blank st + 1 /\ n_comment st' = n_comment st
   /\ n_code st' = n_code st) \/
  (n_blank st' = n_blank st /\ n_comment st' = n_comment st + 1
   /\ n_code st' = n_code st) \/
  (n_blank st' = n_blank st /\ n_comment st' = n_comment st
   /\ n_code st' = n_code st + 1).
Proof.
  unfold count_file_step.
  destruct (is_blank_line line); [left; simpl; auto|].
  destruct (contains "/*" (strip line)); [right; left; simpl; auto|].
  destruct (in_block_comment st); [right; left; simpl; auto|].
  destruct (is_comment_line line lang); [right; left | right; right];
    simpl; auto.
Qed.

Lemma count_file_step_labelled lang st line :
  labelled (count_file_step lang st line) = labelled st + 1.
Proof.
  unfold labelled.
  destruct (count_file_step_cases lang st line) as [H|[H|H]];
    cbv zeta in H; lia.
Qed.

Lemma count_file_fold_labelled lang lines : forall st,
  labelled (fold_left (count_file_step lang) lines st) =
  labelled st + List.length lines.
Proof.
  induction lines as [|l ls IH]; intros st; cbn [fold_left List.length].
  - lia.
  - rewrite IH, count_file_step_labelled. lia.
Qed.

(** C1. The loop of [count_file_lines] gives every line exactly one of
    the three labels (one counter goes up by one, the other two stay),
    so the blank, comment and code counts it returns add up to the total
    it returns, which is the number of lines read (0 for a file that
    cannot be read). *)
Theorem count_file_lines_partition (out : list Event) (f : File) (lang : string) :
  (forall st line,
      let st' := count_file_step lang st line in
      (n_blank st' = n_blank st + 1 /\ n_comment st' = n_comment st
       /\ n_code st' = n_code st) \/
      (n_blank st' = n_blank st /\ n_comment st' = n_comment st + 1
       /\ n_code st' = n_code st) \/
      (n_blank st' = n_blank st /\ n_comment st' = n_comment st
       /\ n_code st' = n_code st + 1)) /\
  let '((total, code, comment, blank), _) := count_file_lines out f lang in
  blank + comment + code = total /\
  total = match content f with
          | Readable text => List.length (readlines text)
          | Unreadable _ => 0
          end.
Proof.
  split; [intros st line; apply count_file_step_cases|].
  unfold count_file_lines.
  destruct (content f) as [e|text]; [split; reflexivity|].
  split; [|reflexivity].
  apply (count_file_fold_labelled lang (readlines text) counts_init).
Qed.

End CountFileLines.

(* ===================================================================== *)
(** * The threshold checks of check_code_metrics.py *)
(* ===================================================================== *)

Section Thresholds.
Import CheckCodeMetrics.

Lemma check_function_step_violations p lines all_pass self fn :
  violations (snd (check_function_step p lines (all_pass, self) fn)) =
  violations self ++ function_violation p lines fn.
Proof.
  destruct fn as [[nm s] e]. unfold check_function_step, function_violation.
  destruct (MAX_FUNCTION_LINES <? count_code_lines (slice lines (s - 1) e))%nat;
    cbn [snd violations]; [|rewrite app_nil_r]; reflexivity.
Qed.

Lemma check_function_fold_violations p lines fns : forall all_pass self,
  violations (snd (fold_left (check_function_step p lines) fns (all_pass, self))) =
  violations self ++ flat_map (function_violation p lines) fns.
Proof.
  induction fns as [|fn fns IH]; intros all_pass self;
    cbn [fold_left flat_map].
  - rewrite app_nil_r. reflexivity.
  - pose proof (check_function_step_violations p lines all_pass self fn) as H.
    destruct (check_function_step p lines (all_pass, self) fn) as [b self1].
    cbn [snd] in H. rewrite IH, H, <- app_assoc. reflexivity.
Qed.

(** C2. [check_file_size] appends a file_size violation exactly when the
    code-line count of the file is strictly above 500, and then exactly
    one; [check_function_sizes] appends, for each found function in turn,
    one function_size violation exactly when the code-line count of its
    lines is strictly above 50.  A count equal to the limit adds nothing,
    a count of the limit plus one adds one violation. *)
Theorem violation_iff_over_limit (self : CodeMetrics) (out : list Event) (f : File) :
  MAX_FILE_LINES = 500 /\ MAX_FUNCTION_LINES = 50 /\
  (let '(_, self', _) := check_file_size self out f in
   violations self' =
   violations self ++
   match content f with
   | Unreadable _ => []
   | Readable text =>
       let n := count_code_lines (readlines text) in
       if (MAX_FILE_LINES <? n)%nat
       then [file_size (path_str (location f)) n MAX_FILE_LINES] else []
   end) /\
  (let '(_, self', _) := check_function_sizes self out f in
   violations self' =
   violations self ++
   match content f with
   | Unreadable _ => []
   | Readable text =>
       flat_map (function_violation (location f) (readlines text))
         (found_functions (location f) (readlines text))
   end) /\
  (forall p lines nm s e,
      function_violation p lines (nm, s, e) <> [] <->
      MAX_FUNCTION_LINES < count_code_lines (slice lines (s - 1) e)).
Proof.
  split; [reflexivity|]. split; [reflexivity|]. split; [|split].
  - unfold check_file_size.
    destruct (content f) as [e|text]; cbn [violations].
    + rewrite app_nil_r. reflexivity.
    + cbv zeta.
      destruct (MAX_FILE_LINES <? count_code_lines (readlines text))%nat;
        cbn [violations]; [|rewrite app_nil_r]; reflexivity.
  - unfold check_function_sizes, found_functions.
    destruct (content f) as [e|text].
    + rewrite app_nil_r. reflexivity.
    + cbv zeta.
      destruct (mem (path_suffix (location f)) DART_EXTENSIONS).
      { pose proof (check_function_fold_violations (location f) (readlines text)
                      (find_dart_functions (readlines text)) true self) as H.
        destruct (fold_left _ _ _) as [ap s']. exact H. }
      destruct (mem (path_suffix (location f)) RUST_EXTENSIONS).
      { pose proof (check_function_fold_violations (location f) (readlines text)
                      (find_rust_functions (readlines text)) true self) as H.
        destruct (fold_left _ _ _) as [ap s']. exact H. }
      rewrite app_nil_r. reflexivity.
  - intros p lines nm s e. unfold function_violation.
    destruct (MAX_FUNCTION_LINES <? count_code_lines (slice lines (s - 1) e))%nat
      eqn:E.
    + apply Nat.ltb_lt in E. split; [intros _; exact E | intros _; discriminate].
    + apply Nat.ltb_ge in E. split; [intros H; now elim H | intros H; lia].
Qed.

(** A file of 500 code lines adds no violation, one of 501 adds one. *)
Lemma violation_iff_over_limit_witness :
  let p := mkPath "lib/a.dart" ".dart" "a.dart" "lib/a.dart" in
  let at500 := mkFile p (Readable (text_of 500 "x = 1;")) in
  let at501 := mkFile p (Readable (text_of 501 "x = 1;")) in
  violations (snd (fst (check_file_size (init None) [] at500))) = [] /\
  violations (snd (fst (check_file_size (init None) [] at501))) =
    [file_size "lib/a.dart" 501 500].
Proof.
  cbv zeta. split.
  - pose proof (violation_iff_over_limit (init None) []
        (mkFile (mkPath "lib/a.dart" ".dart" "a.dart" "lib/a.dart")
                (Readable (text_of 500 "x = 1;")))) as (_ & _ & H & _).
    destruct (check_file_size _ _ _) as [[ok self'] out'].
    cbn [fst snd]. rewrite H. vm_compute. reflexivity.
  - pose proof (violation_iff_over_limit (init None) []
        (mkFile (mkPath "lib/a.dart" ".dart" "a.dart" "lib/a.dart")
                (Readable (text_of 501 "x = 1;")))) as (_ & _ & H & _).
    destruct (check_file_size _ _ _) as [[ok self'] out'].
    cbn [fst snd]. rewrite H. vm_compute. reflexivity.
Defined.

End Thresholds.

(* ===================================================================== *)
(** * The function finder of check_code_metrics.py *)
(* ===================================================================== *)

Section FindFunctions.
Import CheckCodeMetrics.

Lemma enumerate_from_cons {A} n (x : A) l :
  enumerate_from n (x :: l) = (n, x) :: enumerate_from (S n) l.
Proof. reflexivity. Qed.

Lemma enumerate_from_app {A} (l1 l2 : list A) : forall n,
  enumerate_from n (l1 ++ l2) =
  enumerate_from n l1 ++ enumerate_from (n + List.length l1) l2.
Proof.
  induction l1 as [|x l1 IH]; intros n.
  - simpl. rewrite Nat.add_0_r. reflexivity.
  - cbn [app]. rewrite !enumerate_from_cons, IH. cbn [app List.length].
    rewrite Nat.add_succ_r. reflexivity.
Qed.

Lemma last_end_app l : forall lo nm s e,
  last_end lo (l ++ [(nm, s, e)]) = e.
Proof.
  induction l as [|[[nm' s'] e'] l IH]; intros lo nm s e; simpl; auto.
Qed.

Lemma spans_from_app l : forall lo nm s e,
  spans_from lo l -> last_end lo l < s -> s <= e ->
  spans_from lo (l ++ [(nm, s, e)]).
Proof.
  induction l as [|[[nm' s'] e'] l IH]; intros lo nm s e Hl Hs He; simpl in *.
  - auto.
  - destruct Hl as (H1 & H2 & H3). auto.
Qed.

Lemma spans_from_In l : forall lo nm s e,
  spans_from lo l -> In (nm, s, e) l -> lo < s /\ s <= e /\ e <= last_end lo l.
Proof.
  induction l as [|[[nm' s'] e'] l IH]; intros lo nm s e Hl Hin; simpl in *.
  - contradiction.
  - destruct Hl as (H1 & H2 & H3).
    assert (Hmono : forall l lo, spans_from lo l -> lo <= last_end lo l).
    { clear. induction l as [|[[nm s] e] l IH]; intros lo H; simpl in *.
      - lia.
      - destruct H as (H1 & H2 & H3). specialize (IH _ H3). lia. }
    destruct Hin as [Heq|Hin].
    + inversion Heq; subst. specialize (Hmono _ _ H3). lia.
    + specialize (IH _ _ _ _ H3 Hin). lia.
Qed.

Lemma find_step_inv pattern i st line :
  find_inv i st -> find_inv (S i) (find_step pattern st (i, line)).
Proof.
  intros [Hsp Hcur]. unfold find_step.
  set (st1 := if matches pattern line then _ else st).
  assert (H1 : spans_from 0 (functions st1) /\
               match current_function st1 with
               | None => last_end 0 (functions st1) <= i
               | Some (_, s, _) => last_end 0 (functions st1) < s /\ s <= S i
               end).
  { subst st1. destruct (matches pattern line).
    - destruct (current_function st) as [[[nm s] e]|] eqn:Ec; cbn [is_none].
      + rewrite andb_false_r. rewrite Ec. split; [assumption|]. lia.
      + destruct (contains "{" line); cbn [andb functions current_function].
        * split; [assumption|]. lia.
        * rewrite Ec. split; [assumption|lia].
    - destruct (current_function st) as [[[nm s] e]|]; split; auto; lia. }
  clearbody st1. destruct H1 as [Hsp1 Hcur1].
  destruct (current_function st1) as [[[nm s] e]|] eqn:Ec.
  - cbn [fst snd].
    destruct (brace_count st1 + net_braces line =? 0)%Z;
      unfold find_inv; cbn [functions current_function].
    + split.
      * apply spans_from_app; [assumption|lia|lia].
      * rewrite last_end_app. lia.
    + split; [assumption|lia].
  - unfold find_inv. rewrite Ec. split; [assumption|lia].
Qed.

Lemma find_run_inv pattern lines : forall n st,
  find_inv n st ->
  find_inv (n + List.length lines) (find_run pattern (enumerate_from n lines) st).
Proof.
  unfold find_run.
  induction lines as [|l ls IH]; intros n st H.
  - simpl. rewrite Nat.add_0_r. exact H.
  - rewrite enumerate_from_cons. cbn [fold_left List.length].
    rewrite Nat.add_succ_r. apply (IH (S n)). apply find_step_inv. exact H.
Qed.

Lemma find_functions_spans pattern lines nm s e :
  In (nm, s, e) (find_functions pattern lines) ->
  1 <= s /\ s <= e /\ e <= List.length lines.
Proof.
  intros Hin. unfold find_functions, enumerate in Hin.
  pose proof (find_run_inv pattern lines 0 find_init) as H.
  destruct H as [Hsp Hcur]; [split; simpl; auto|].
  pose proof (spans_from_In _ _ _ _ _ Hsp Hin) as (H1 & H2 & H3).
  destruct (current_function _) as [[[nm' s'] e']|]; simpl in Hcur; lia.
Qed.

(** C6. Every function found by [find_dart_functions] (and by
    [find_rust_functions]) starts at or before the line it ends on, both
    lines lie in the file, and the code-line count that
    [check_function_sizes] measures on its lines is at most the length of
    the span, end - start + 1. *)
Theorem function_record_bounds (lines : list string) (nm : string) (s e : nat) :
  In (nm, s, e) (find_dart_functions lines) \/
  In (nm, s, e) (find_rust_functions lines) ->
  s <= e /\
  count_code_lines (slice lines (s - 1) e) <= e - s + 1 /\
  1 <= s /\ e <= List.length lines.
Proof.
  intros H.
  assert (Hb : 1 <= s /\ s <= e /\ e <= List.length lines).
  { destruct H as [H|H]; eapply find_functions_spans; exact H. }
  destruct Hb as (H1 & H2 & H3).
  split; [assumption|]. split; [|split; assumption].
  pose proof (count_code_lines_le (slice lines (s - 1) e)) as Hc.
  rewrite slice_length in Hc by assumption. lia.
Qed.

Lemma function_record_bounds_witness :
  let lines := ["void f() {}"; ""; "int g() {"; "  // nothing"; "}}"] in
  find_dart_functions lines = [("void f() {}", 1, 1); ("int g() {", 3, 5)] /\
  3 <= 5 /\ count_code_lines (slice lines (3 - 1) 5) <= 5 - 3 + 1.
Proof.
  cbv zeta. split; [vm_compute; reflexivity|].
  pose proof (function_record_bounds
                ["void f() {}"; ""; "int g() {"; "  // nothing"; "}}"]
                "int g() {" 3 5) as H.
  destruct H as (H1 & H2 & _).
  - left. vm_compute. right. left. reflexivity.
  - split; assumption.
Defined.

End FindFunctions.

(* ===================================================================== *)
(** * The rankings of the report of verify_metrics.py *)
(* ===================================================================== *)

Section Rankings.
Context {A : Type} (key : A -> nat).

Let desc (a b : A) : Prop := key b <= key a.

Lemma insert_desc_perm x l : Permutation (insert_desc key x l) (x :: l).
Proof.
  induction l as [|y ys IH]; simpl; [reflexivity|].
  destruct (key y <=? key x)%nat; [reflexivity|].
  rewrite IH. apply perm_swap.
Qed.

Lemma sorted_reverse_perm l : Permutation (sorted_reverse key l) l.
Proof.
  induction l as [|x l IH]; simpl; [constructor|].
  rewrite insert_desc_perm. constructor. exact IH.
Qed.

Lemma insert_desc_sorted x l :
  Sorted desc l -> Sorted desc (insert_desc key x l).
Proof.
  induction 1 as [|y ys Hs IH Hhd]; simpl.
  - repeat constructor.
  - destruct (key y <=? key x)%nat eqn:E.
    + apply Nat.leb_le in E. repeat constructor; assumption.
    + apply Nat.leb_gt in E. constructor; [exact IH|].
      destruct ys as [|z zs]; simpl.
      * constructor. unfold desc. lia.
      * destruct (key z <=? key x)%nat.
        -- constructor. unfold desc. lia.
        -- inversion Hhd; subst. constructor. assumption.
Qed.

Lemma sorted_reverse_sorted l : StronglySorted desc (sorted_reverse key l).
Proof.
  apply Sorted_StronglySorted.
  - intros a b c Hab Hbc. unfold desc in *. lia.
  - induction l as [|x l IH]; simpl; [constructor|].
    apply insert_desc_sorted. exact IH.
Qed.

(** Stability: inserting passes over larger keys only. *)
Lemma insert_desc_filter k x l :
  filter (fun y => (key y =? k)%nat) (insert_desc key x l) =
  filter (fun y => (key y =? k)%nat) (x :: l).
Proof.
  induction l as [|y ys IH]; [reflexivity|].
  cbn [insert_desc].
  destruct (key y <=? key x)%nat eqn:E; [reflexivity|].
  apply Nat.leb_gt in E.
  cbn [filter] in *. rewrite IH.
  destruct (key x =? k)%nat eqn:Ex; destruct (key y =? k)%nat eqn:Ey;
    try reflexivity.
  apply Nat.eqb_eq in Ex, Ey. lia.
Qed.

Lemma sorted_reverse_filter k l :
  filter (fun y => (key y =? k)%nat) (sorted_reverse key l) =
  filter (fun y => (key y =? k)%nat) l.
Proof.
  induction l as [|x l IH]; [reflexivity|].
  cbn [sorted_reverse fold_right]. fold (sorted_reverse key l).
  rewrite insert_desc_filter. cbn [filter]. rewrite IH. reflexivity.
Qed.

Lemma strongly_sorted_app_inv (R : A -> A -> Prop) l1 : forall l2,
  StronglySorted R (l1 ++ l2) ->
  StronglySorted R l1 /\ forall a b, In a l1 -> In b l2 -> R a b.
Proof.
  induction l1 as [|x l1 IH]; intros l2 H; simpl in *.
  - split; [constructor | intros a b []].
  - inversion H as [|? ? Hs Hall]; subst.
    destruct (IH _ Hs) as [H1 H2]. split.
    + constructor; [exact H1|].
      rewrite Forall_forall in *. intros y Hy. apply Hall.
      apply in_or_app. now left.
    + intros a b [->|Ha] Hb.
      * rewrite Forall_forall in Hall. apply Hall. apply in_or_app. now right.
      * now apply H2.
Qed.

Lemma top_of_sorted_reverse n l :
  stable_top n key l (firstn n (sorted_reverse key l)).
Proof.
  pose proof (sorted_reverse_sorted l) as Hs.
  rewrite <- (firstn_skipn n (sorted_reverse key l)) in Hs.
  apply strongly_sorted_app_inv in Hs. destruct Hs as [Hs Hle].
  split; [exact Hs|]. split; [|split].
  - exists (skipn n (sorted_reverse key l)). split; [|exact Hle].
    rewrite firstn_skipn. apply sorted_reverse_perm.
  - intros k. exists (filter (fun x => (key x =? k)%nat)
                        (skipn n (sorted_reverse key l))).
    rewrite <- filter_app, firstn_skipn, sorted_reverse_filter. reflexivity.
  - rewrite length_firstn.
    rewrite (Permutation_length (sorted_reverse_perm l)). reflexivity.
Qed.

End Rankings.

Section Report.
Import VerifyMetrics.

Lemma map_snd_enumerate_from {X} (l : list X) : forall n,
  map snd (enumerate_from n l) = l.
Proof.
  induction l as [|x l IH]; intros n; [reflexivity|].
  unfold enumerate_from in *. cbn [List.length seq combine map snd].
  rewrite IH. reflexivity.
Qed.

(** C9. The two top-10 tables of [generate_report] list the first ten
    entries of the metrics sorted by code-line count in descending order
    with a stable sort: each table is in descending order of code lines,
    holds ten entries (all of them when there are fewer) none of which
    has fewer code lines than an entry left out, and entries with equal
    code-line counts appear in the order in which they were discovered,
    that is, appended to [file_metrics] and [function_metrics]. *)
Theorem rankings_stable_descending (self : MetricsAnalyzer) :
  stable_top 10 code_lines (file_metrics self) (largest_files self) /\
  stable_top 10 func_code_lines (function_metrics self) (largest_functions self) /\
  map (fun r : nat * bool * string * nat => let '(_, _, p, n) := r in (p, n))
      (largest_files_rows (generate_report self)) =
  map (fun m => (path m, code_lines m)) (largest_files self) /\
  map (fun r : nat * bool * string * nat * (string * nat) =>
         let '(_, _, nm, n, _) := r in (nm, n))
      (largest_functions_rows (generate_report self)) =
  map (fun fn => (name fn, func_code_lines fn)) (largest_functions self).
Proof.
  split; [apply top_of_sorted_reverse|].
  split; [apply top_of_sorted_reverse|].
  unfold generate_report; cbn [largest_files_rows largest_functions_rows].
  unfold enumerate1. split.
  - rewrite map_map.
    rewrite <- (map_snd_enumerate_from (largest_files self) 1) at 2.
    rewrite map_map. apply map_ext. intros [i m]. reflexivity.
  - rewrite map_map.
    rewrite <- (map_snd_enumerate_from (largest_functions self) 1) at 2.
    rewrite map_map. apply map_ext. intros [i m]. reflexivity.
Qed.

End Report.

(* ===================================================================== *)
(** * The function extractors of verify_metrics.py *)
(* ===================================================================== *)

Section Extractors.
Import VerifyMetrics.

Variable lines : list string.
Let len := List.length lines.

(** The arrow loop stops at the first line at or after [i] that holds a
    semicolon, or at the end of the file, and has collected the lines it
    passed. *)
Lemma arrow_while_spec : forall fuel i acc,
  i <= len -> len - i <= fuel ->
  let '(fl, i') := arrow_while fuel lines i acc in
  i <= i' /\ i' <= len /\ fl = acc ++ slice lines i i' /\
  (forall m, i <= m -> m < i' -> contains ";" (at_ lines m) = false) /\
  (i' < len -> contains ";" (at_ lines i') = true).
Proof.
  induction fuel as [|fuel IH]; intros i acc Hi Hf; cbn [arrow_while].
  - assert (i = len) by lia. subst i.
    rewrite slice_nil, app_nil_r. repeat split; try lia; try (intros; lia).
  - fold len. destruct (Nat.ltb_spec i len) as [Hlt|Hge]; cbn [andb].
    + destruct (contains ";" (at_ lines i)) eqn:E; cbn [negb].
      * rewrite slice_nil, app_nil_r. repeat split; try lia; try (intros; lia); auto.
      * specialize (IH (i + 1) (acc ++ [at_ lines i])).
        destruct (arrow_while fuel lines (i + 1) (acc ++ [at_ lines i]))
          as [fl i'].
        destruct IH as (H1 & H2 & H3 & H4 & H5); [lia|lia|].
        repeat split; try lia; auto.
        -- rewrite H3, <- app_assoc. unfold at_.
           rewrite (slice_cons EmptyString lines i i') by (fold len; lia).
           replace (i + 1) with (S i) by lia. reflexivity.
        -- intros m Hm1 Hm2. destruct (Nat.eq_dec m i) as [->|Hne]; [exact E|].
           apply H4; lia.
    + assert (i = len) by lia. subst i.
      rewrite slice_nil, app_nil_r. repeat split; try lia; try (intros; lia).
Qed.

(** The loop that looks for the opening brace, likewise. *)
Lemma open_while_spec : forall fuel i acc,
  i <= len -> len - i <= fuel ->
  let '(fl, i') := open_while fuel lines i acc in
  i <= i' /\ i' <= len /\ fl = acc ++ slice lines i i' /\
  (forall m, i <= m -> m < i' -> contains "{" (at_ lines m) = false) /\
  (i' < len -> contains "{" (at_ lines i') = true).
Proof.
  induction fuel as [|fuel IH]; intros i acc Hi Hf; cbn [open_while].
  - assert (i = len) by lia. subst i.
    rewrite slice_nil, app_nil_r. repeat split; try lia; try (intros; lia).
  - fold len. destruct (Nat.ltb_spec i len) as [Hlt|Hge]; cbn [andb].
    + destruct (contains "{" (at_ lines i)) eqn:E; cbn [negb].
      * rewrite slice_nil, app_nil_r. repeat split; try lia; try (intros; lia); auto.
      * specialize (IH (i + 1) (acc ++ [at_ lines i])).
        destruct (open_while fuel lines (i + 1) (acc ++ [at_ lines i]))
          as [fl i'].
        destruct IH as (H1 & H2 & H3 & H4 & H5); [lia|lia|].
        repeat split; try lia; auto.
        -- rewrite H3, <- app_assoc. unfold at_.
           rewrite (slice_cons EmptyString lines i i') by (fold len; lia).
           replace (i + 1) with (S i) by lia. reflexivity.
        -- intros m Hm1 Hm2. destruct (Nat.eq_dec m i) as [->|Hne]; [exact E|].
           apply H4; lia.
    + assert (i = len) by lia. subst i.
      rewrite slice_nil, app_nil_r. repeat split; try lia; try (intros; lia).
Qed.

(** The brace loop collects the lines between its start and the index it
    stops at. *)
Lemma brace_while_spec : forall fuel i acc bc,
  i <= len ->
  let '(fl, _, i') := brace_while fuel lines i acc bc in
  i <= i' /\ i' <= len /\ fl = acc ++ slice lines i i'.
Proof.
  induction fuel as [|fuel IH]; intros i acc bc Hi; cbn [brace_while].
  - rewrite slice_nil, app_nil_r. repeat split; lia.
  - fold len. destruct (Nat.ltb_spec i len) as [Hlt|Hge]; cbn [andb].
    + destruct (0 <? bc)%Z.
      * specialize (IH (i + 1) (acc ++ [at_ lines i])
                       (bc + net_braces (at_ lines i))%Z).
        destruct (brace_while fuel lines (i + 1) (acc ++ [at_ lines i])
                    (bc + net_braces (at_ lines i))%Z) as [[fl bc'] i'].
        destruct IH as (H1 & H2 & H3); [lia|].
        repeat split; try lia.
        rewrite H3, <- app_assoc. unfold at_.
        rewrite (slice_cons EmptyString lines i i') by (fold len; lia).
        replace (i + 1) with (S i) by lia. reflexivity.
      * rewrite slice_nil, app_nil_r. repeat split; lia.
    + rewrite slice_nil, app_nil_r. repeat split; lia.
Qed.

(** While the counter stays above zero the brace loop runs to the end of
    the file. *)
Lemma brace_while_to_eof j : forall fuel n acc,
  j + n + 1 <= len -> len - (j + n + 1) <= fuel ->
  (forall m, n <= m -> j + m < len -> (0 < depth lines j m)%Z) ->
  let '(fl, _, i') := brace_while fuel lines (j + n + 1) acc (depth lines j n) in
  i' = len /\ fl = acc ++ slice lines (j + n + 1) len.
Proof.
  induction fuel as [|fuel IH]; intros n acc Hn Hf Hpos; cbn [brace_while].
  - assert (j + n + 1 = len) as -> by lia.
    rewrite slice_nil, app_nil_r. split; reflexivity.
  - fold len. destruct (Nat.ltb_spec (j + n + 1) len) as [Hlt|Hge]; cbn [andb].
    + assert (Hd : (0 <? depth lines j n)%Z = true).
      { apply Z.ltb_lt. apply Hpos; lia. }
      rewrite Hd.
      specialize (IH (S n) (acc ++ [at_ lines (j + n + 1)])).
      replace (j + S n + 1) with (j + n + 1 + 1) in IH by lia.
      replace (depth lines j (S n))
        with (depth lines j n + net_braces (at_ lines (j + n + 1)))%Z in IH
        by (cbn [depth]; do 3 f_equal; lia).
      destruct (brace_while fuel lines (j + n + 1 + 1) _ _) as [[fl bc'] i'].
      destruct IH as [H1 H2]; [lia|lia|intros m Hm1 Hm2; apply Hpos; lia|].
      split; [exact H1|].
      rewrite H2, <- app_assoc. unfold at_.
      rewrite (slice_cons EmptyString lines (j + n + 1) len) by (fold len; lia).
      replace (j + n + 1 + 1) with (S (j + n + 1)) by lia. reflexivity.
    + assert (j + n + 1 = len) as -> by lia.
      rewrite slice_nil, app_nil_r. split; reflexivity.
Qed.

End Extractors.


(* ===================================================================== *)
(** * Unterminated and nested functions *)
(* ===================================================================== *)

Section OpenFunctions.
Import VerifyMetrics.

(** ** check_code_metrics.py: a function that stays open *)

Lemma find_step_open pattern st cf n line :
  CheckCodeMetrics.current_function st = Some cf ->
  let st' := CheckCodeMetrics.find_step pattern st (n, line) in
  CheckCodeMetrics.brace_count st' =
    (CheckCodeMetrics.brace_count st + net_braces line)%Z /\
  (CheckCodeMetrics.brace_count st' <> 0%Z ->
   CheckCodeMetrics.current_function st' = Some cf /\
   CheckCodeMetrics.functions st' = CheckCodeMetrics.functions st).
Proof.
  intros Hc. unfold CheckCodeMetrics.find_step.
  rewrite Hc. cbn [CheckCodeMetrics.is_none]. rewrite andb_false_r.
  assert (E : (if matches pattern line then st else st) = st)
    by (destruct (matches pattern line); reflexivity).
  rewrite E, Hc.
  destruct (CheckCodeMetrics.brace_count st + net_braces line =? 0)%Z eqn:Ez;
    cbn [CheckCodeMetrics.brace_count CheckCodeMetrics.current_function
         CheckCodeMetrics.functions].
  - apply Z.eqb_eq in Ez. split; [reflexivity|]. intros H. contradiction.
  - split; [reflexivity|]. intros _. split; reflexivity.
Qed.

Lemma find_run_stays_open pattern cf rest : forall n st,
  CheckCodeMetrics.current_function st = Some cf ->
  (forall k, 1 <= k -> k <= List.length rest ->
     CheckCodeMetrics.brace_count
       (CheckCodeMetrics.find_run pattern (enumerate_from n (firstn k rest)) st)
     <> 0%Z) ->
  CheckCodeMetrics.functions
    (CheckCodeMetrics.find_run pattern (enumerate_from n rest) st) =
  CheckCodeMetrics.functions st.
Proof.
  induction rest as [|l rest IH]; intros n st Hc Hnz; [reflexivity|].
  rewrite enumerate_from_cons. unfold CheckCodeMetrics.find_run.
  cbn [fold_left].
  fold (CheckCodeMetrics.find_run pattern (enumerate_from (S n) rest)
          (CheckCodeMetrics.find_step pattern st (n, l))).
  destruct (find_step_open pattern st cf n l Hc) as [_ Hopen].
  destruct Hopen as [Hc' Hf'].
  { apply (Hnz 1); [lia | simpl; lia]. }
  rewrite <- Hf'. apply IH; [exact Hc'|].
  intros k Hk1 Hk2.
  specialize (Hnz (S k)). cbn [firstn] in Hnz.
  rewrite enumerate_from_cons in Hnz. apply Hnz; simpl; lia.
Qed.

Lemma find_run_split pattern pre sig tl :
  CheckCodeMetrics.find_run pattern (enumerate (pre ++ sig :: tl))
    CheckCodeMetrics.find_init =
  CheckCodeMetrics.find_run pattern (enumerate_from (S (List.length pre)) tl)
    (CheckCodeMetrics.find_step pattern
       (CheckCodeMetrics.find_run pattern (enumerate pre)
          CheckCodeMetrics.find_init)
       (List.length pre, sig)).
Proof.
  unfold enumerate, CheckCodeMetrics.find_run.
  rewrite enumerate_from_app, fold_left_app, enumerate_from_cons.
  reflexivity.
Qed.

Lemma find_functions_unterminated pattern pre sig rest :
  CheckCodeMetrics.current_function
    (CheckCodeMetrics.find_run pattern (enumerate pre) CheckCodeMetrics.find_init)
  = None ->
  matches pattern sig = true ->
  contains "{" sig = true ->
  (forall k, k <= List.length rest ->
     CheckCodeMetrics.brace_count
       (CheckCodeMetrics.find_run pattern
          (enumerate (pre ++ sig :: firstn k rest)) CheckCodeMetrics.find_init)
     <> 0%Z) ->
  CheckCodeMetrics.find_functions pattern (pre ++ sig :: rest) =
  CheckCodeMetrics.find_functions pattern pre.
Proof.
  intros Hnone Hm Hb Hnz. unfold CheckCodeMetrics.find_functions.
  rewrite find_run_split.
  set (st0 := CheckCodeMetrics.find_run pattern (enumerate pre)
                CheckCodeMetrics.find_init) in *.
  set (st1 := CheckCodeMetrics.find_step pattern st0 (List.length pre, sig)).
  pose proof (Hnz 0 (Nat.le_0_l _)) as H0.
  cbn [firstn] in H0. rewrite find_run_split in H0.
  change (CheckCodeMetrics.brace_count st1 <> 0%Z) in H0.
  assert (Hst1 : exists cf,
             CheckCodeMetrics.current_function st1 = Some cf /\
             CheckCodeMetrics.functions st1 = CheckCodeMetrics.functions st0).
  { subst st1. revert H0. unfold CheckCodeMetrics.find_step.
    rewrite Hm, Hb, Hnone.
    cbn [CheckCodeMetrics.is_none andb CheckCodeMetrics.current_function
         CheckCodeMetrics.brace_count CheckCodeMetrics.functions].
    destruct (net_braces sig + net_braces sig =? 0)%Z eqn:Ez;
      cbn [CheckCodeMetrics.brace_count CheckCodeMetrics.current_function
           CheckCodeMetrics.functions]; intros H0.
    - apply Z.eqb_eq in Ez. contradiction.
    - eexists. split; reflexivity. }
  destruct Hst1 as (cf & Hc1 & Hf1).
  rewrite <- Hf1.
  apply (find_run_stays_open pattern cf rest _ st1 Hc1).
  intros k Hk1 Hk2. specialize (Hnz k Hk2).
  rewrite find_run_split in Hnz. exact Hnz.
Qed.

(** ** verify_metrics.py: the loops of the two extractors *)

Lemma rust_func_lines_to_eof lines i j :
  i <= j -> j < List.length lines ->
  (forall m, i <= m -> m < j -> contains "{" (at_ lines m) = false) ->
  contains "{" (at_ lines j) = true ->
  (forall n, j + n < List.length lines -> (0 < depth lines j n)%Z) ->
  rust_func_lines lines i =
    Some (slice lines i (List.length lines), List.length lines).
Proof.
  intros Hij Hj Hno Hbrace Hpos. unfold rust_func_lines.
  pose proof (open_while_spec lines (List.length lines - i) i []) as H.
  destruct (open_while _ lines i []) as [fl i1].
  destruct H as (H1 & H2 & H3 & H4 & H5); [lia|lia|].
  assert (i1 = j).
  { destruct (Nat.lt_trichotomy i1 j) as [Hlt|[Heq|Hgt]]; [|exact Heq|].
    - rewrite Hno in H5 by lia.
      assert (false = true) by (apply H5; lia). discriminate.
    - rewrite H4 in Hbrace by lia. discriminate. }
  subst i1.
  destruct (Nat.leb_spec (List.length lines) j) as [Hle|_]; [lia|].
  pose proof (brace_while_to_eof lines j (List.length lines - (j + 1)) 0
                (fl ++ [at_ lines j])) as Hw.
  replace (j + 0 + 1) with (j + 1) in Hw by lia.
  change (depth lines j 0) with (net_braces (at_ lines j)) in Hw.
  destruct (brace_while _ lines (j + 1) (fl ++ [at_ lines j]) _)
    as [[fl2 bc] i3].
  destruct Hw as [Hi3 Hfl2]; [lia|lia|intros m _ Hm; apply Hpos; exact Hm|].
  subst i3. f_equal. f_equal. rewrite Hfl2, H3. cbn [app]. unfold at_.
  rewrite <- (slice_snoc EmptyString lines i j) by lia.
  replace (j + 1) with (S j) by lia.
  apply slice_app; lia.
Qed.

Lemma rust_func_lines_no_brace lines i :
  i <= List.length lines ->
  (forall m, i <= m -> m < List.length lines ->
             contains "{" (at_ lines m) = false) ->
  rust_func_lines lines i = None.
Proof.
  intros Hi Hno. unfold rust_func_lines.
  pose proof (open_while_spec lines (List.length lines - i) i []) as H.
  destruct (open_while _ lines i []) as [fl i1].
  destruct H as (H1 & H2 & H3 & H4 & H5); [lia|lia|].
  destruct (Nat.leb_spec (List.length lines) i1) as [_|Hlt]; [reflexivity|].
  rewrite Hno in H5 by lia.
  assert (false = true) by (apply H5; lia). discriminate.
Qed.

Lemma dart_at_next fp lines i o i' :
  i < List.length lines -> dart_at fp lines i = (o, i') ->
  i < i' /\ i' <= List.length lines /\
  (forall fm, o = Some fm ->
     line_number fm = i + 1 /\
     (contains "=>" (at_ lines i) = false ->
      func_code_lines fm = count_func_code "dart" (slice lines i i'))).
Proof.
  intros Hi. unfold dart_at.
  assert (Hfl : forall fl j, dart_func_lines lines i = (fl, j) ->
            i < j /\ j <= List.length lines /\
            (contains "=>" (at_ lines i) = false -> fl = slice lines i j)).
  { intros fl j. unfold dart_func_lines.
    destruct (contains "=>" (at_ lines i)).
    - pose proof (arrow_while_spec lines (List.length lines - (i + 1)) (i + 1)
                    [at_ lines i]) as H.
      destruct (arrow_while _ lines (i + 1) [at_ lines i]) as [fl1 i2].
      destruct H as (H1 & H2 & _); [lia|lia|].
      destruct (i2 <? List.length lines)%nat; intros E; inversion E; subst;
        repeat split; try lia; discriminate.
    - pose proof (brace_while_spec lines (List.length lines - (i + 1)) (i + 1)
                    [at_ lines i] (net_braces (at_ lines i))) as H.
      destruct (brace_while _ lines (i + 1) [at_ lines i] _) as [[fl1 bc] i2].
      destruct H as (H1 & H2 & H3); [lia|].
      intros E; inversion E; subst. repeat split; try lia.
      intros _. cbn [app]. unfold at_.
      rewrite (slice_cons EmptyString lines i j) by lia.
      replace (i + 1) with (S i) by lia. reflexivity. }
  destruct (re_match dart_function_pattern (at_ lines i)) as [g|].
  - destruct (dart_func_lines lines i) as [fl j] eqn:E.
    destruct (Hfl fl j eq_refl) as (H1 & H2 & H3).
    intros Eq; inversion Eq; subst. repeat split; try lia.
    + inversion H; subst. reflexivity.
    + intros Harrow. inversion H; subst. cbn [func_code_lines].
      rewrite (H3 Harrow). reflexivity.
  - intros Eq; inversion Eq; subst. repeat split; try lia; discriminate.
Qed.

(** Every record the loop appends from index [i] on starts after line [i]. *)
Lemma dart_loop_lower fp lines : forall fuel i functions g,
  In g (dart_loop fuel fp lines i functions) ->
  In g functions \/ i < line_number g.
Proof.
  induction fuel as [|fuel IH]; intros i functions g Hin; cbn [dart_loop] in Hin.
  - now left.
  - destruct (Nat.ltb_spec i (List.length lines)) as [Hlt|Hge]; [|now left].
    destruct (dart_at fp lines i) as [o i'] eqn:E.
    destruct (dart_at_next fp lines i o i' Hlt E) as (H1 & H2 & H3).
    destruct o as [fm|].
    + apply IH in Hin. destruct Hin as [Hin|Hin]; [|right; lia].
      apply in_app_or in Hin. destruct Hin as [Hin|[<-|[]]]; [now left|].
      right. destruct (H3 fm eq_refl) as [-> _]. lia.
    + apply IH in Hin. destruct Hin as [Hin|Hin]; [now left|right; lia].
Qed.

(** The loop only appends to the list it is given. *)
Lemma dart_loop_keeps fp lines : forall fuel i functions g,
  In g functions -> In g (dart_loop fuel fp lines i functions).
Proof.
  induction fuel as [|fuel IH]; intros i functions g Hin; cbn [dart_loop].
  - exact Hin.
  - destruct (i <? List.length lines)%nat; [|exact Hin].
    destruct (dart_at fp lines i) as [[fm|] i']; apply IH; [|exact Hin].
    apply in_or_app. now left.
Qed.

(** Fuel beyond the number of lines ahead changes nothing: the loops end
    because the index reaches the end of the file. *)
Lemma dart_loop_fuel fp lines : forall fuel1 fuel2 i functions,
  List.length lines - i <= fuel1 -> List.length lines - i <= fuel2 ->
  dart_loop fuel1 fp lines i functions = dart_loop fuel2 fp lines i functions.
Proof.
  induction fuel1 as [|fuel1 IH]; intros fuel2 i functions H1 H2.
  - destruct fuel2; cbn [dart_loop]; [reflexivity|].
    destruct (Nat.ltb_spec i (List.length lines)); [lia|reflexivity].
  - destruct fuel2 as [|fuel2]; cbn [dart_loop].
    + destruct (Nat.ltb_spec i (List.length lines)); [lia|reflexivity].
    + destruct (Nat.ltb_spec i (List.length lines)) as [Hlt|Hge]; [|reflexivity].
      destruct (dart_at fp lines i) as [o i'] eqn:E.
      destruct (dart_at_next fp lines i o i' Hlt E) as (Hn & _).
      destruct o; apply IH; lia.
Qed.

Lemma rust_at_next fp lines i :
  i < List.length lines ->
  match rust_at fp lines i with
  | NoMatch i' => i < i'
  | Break => True
  | Extracted fm i' => i < i' /\ line_number fm = i + 1
  end.
Proof.
  intros Hi. unfold rust_at.
  destruct (re_match rust_function_pattern (at_ lines i)); [|lia].
  unfold rust_func_lines.
  pose proof (open_while_spec lines (List.length lines - i) i []) as H.
  destruct (open_while _ lines i []) as [fl i1].
  destruct H as (H1 & H2 & _); [lia|lia|].
  destruct (Nat.leb_spec (List.length lines) i1) as [_|Hlt]; [exact I|].
  pose proof (brace_while_spec lines (List.length lines - (i1 + 1)) (i1 + 1)
                (fl ++ [at_ lines i1]) (net_braces (at_ lines i1))) as Hw.
  destruct (brace_while _ lines (i1 + 1) _ _) as [[fl2 bc] i3].
  destruct Hw as (H3 & _); [lia|].
  split; [lia|reflexivity].
Qed.

Lemma rust_loop_fuel fp lines : forall fuel1 fuel2 i functions,
  List.length lines - i <= fuel1 -> List.length lines - i <= fuel2 ->
  rust_loop fuel1 fp lines i functions = rust_loop fuel2 fp lines i functions.
Proof.
  induction fuel1 as [|fuel1 IH]; intros fuel2 i functions H1 H2.
  - destruct fuel2; cbn [rust_loop]; [reflexivity|].
    destruct (Nat.ltb_spec i (List.length lines)); [lia|reflexivity].
  - destruct fuel2 as [|fuel2]; cbn [rust_loop].
    + destruct (Nat.ltb_spec i (List.length lines)); [lia|reflexivity].
    + destruct (Nat.ltb_spec i (List.length lines)) as [Hlt|Hge]; [|reflexivity].
      pose proof (rust_at_next fp lines i Hlt) as Hn.
      destruct (rust_at fp lines i) as [i'| |fm i'];
        [apply IH; lia | reflexivity | apply IH; lia].
Qed.

(** C4 (as amended). Once an extraction has started and the brace
    counter never gets back to the value that ends it, the extractor
    returns without an error and records nothing from the lines that
    follow.  In check_code_metrics.py the extraction ends when the
    counter equals zero: if it never does, the result is the list of
    functions found before the signature line.  In verify_metrics.py the
    brace loop runs while the counter is above zero: if it stays above
    zero to the end of the file, the function is recorded with all
    remaining lines and is the last record; if no opening brace follows
    the signature, nothing is recorded and the scan stops. *)
Theorem unterminated_function_ends_extraction :
  (forall pre sig rest,
      CheckCodeMetrics.current_function
        (CheckCodeMetrics.find_run CheckCodeMetrics.dart_pattern
           (enumerate pre) CheckCodeMetrics.find_init) = None ->
      matches CheckCodeMetrics.dart_pattern sig = true ->
      contains "{" sig = true ->
      (forall k, k <= List.length rest ->
         CheckCodeMetrics.brace_count
           (CheckCodeMetrics.find_run CheckCodeMetrics.dart_pattern
              (enumerate (pre ++ sig :: firstn k rest))
              CheckCodeMetrics.find_init) <> 0%Z) ->
      CheckCodeMetrics.find_dart_functions (pre ++ sig :: rest) =
      CheckCodeMetrics.find_dart_functions pre) /\
  (forall fp lines i j g fuel functions,
      i <= j -> j < List.length lines ->
      re_match rust_function_pattern (at_ lines i) = Some g ->
      (forall m, i <= m -> m < j -> contains "{" (at_ lines m) = false) ->
      contains "{" (at_ lines j) = true ->
      (forall n, j + n < List.length lines -> (0 < depth lines j n)%Z) ->
      rust_loop (S fuel) fp lines i functions =
      functions ++
      [{| name := group1 g; file_path := fp; line_number := i + 1;
          func_code_lines :=
            count_func_code "rust" (slice lines i (List.length lines)) |}]) /\
  (forall fp lines i g fuel functions,
      i < List.length lines ->
      re_match rust_function_pattern (at_ lines i) = Some g ->
      (forall m, i <= m -> m < List.length lines ->
                 contains "{" (at_ lines m) = false) ->
      rust_loop (S fuel) fp lines i functions = functions).
Proof.
  split; [|split].
  - intros pre sig rest. apply find_functions_unterminated.
  - intros fp lines i j g fuel functions Hij Hj Hm Hno Hb Hpos.
    cbn [rust_loop].
    destruct (Nat.ltb_spec i (List.length lines)) as [_|Hge]; [|lia].
    unfold rust_at. rewrite Hm.
    rewrite (rust_func_lines_to_eof lines i j Hij Hj Hno Hb Hpos).
    destruct fuel as [|fuel]; cbn [rust_loop]; [reflexivity|].
    rewrite Nat.ltb_irrefl. reflexivity.
  - intros fp lines i g fuel functions Hi Hm Hno.
    cbn [rust_loop].
    destruct (Nat.ltb_spec i (List.length lines)) as [_|Hge]; [|lia].
    unfold rust_at. rewrite Hm.
    rewrite (rust_func_lines_no_brace lines i) by (try lia; exact Hno).
    reflexivity.
Qed.

(** C4 as stated fails in [extract_rust_functions]: on the first line
    below the counter drops to -1 and is never zero again, yet the
    extraction of f ends on that line and g is recorded from the
    remainder of the file. *)
Lemma counter_below_zero_counterexample :
  let lines := ["fn f() }}{"; "fn g() {}"] in
  let file :=
    mkFile (mkPath "rust/src/a.rs" ".rs" "a.rs" "a.rs")
           (Readable "fn f() }}{
fn g() {}") in
  re_match rust_function_pattern (at_ lines 0) = Some (Some "f") /\
  contains "{" (at_ lines 0) = true /\
  (forall n, 0 + n < List.length lines -> depth lines 0 n <> 0%Z) /\
  fst (extract_rust_functions [] file) =
    [{| name := "f"; file_path := "rust/src/a.rs"; line_number := 1;
        func_code_lines := 1 |};
     {| name := "g"; file_path := "rust/src/a.rs"; line_number := 2;
        func_code_lines := 1 |}] /\
  ~ (forall fp lines i g0,
        i < List.length lines ->
        re_match rust_function_pattern (at_ lines i) = Some g0 ->
        contains "{" (at_ lines i) = true ->
        (forall n, i + n < List.length lines -> depth lines i n <> 0%Z) ->
        forall fuel g, In g (rust_loop (S fuel) fp lines i []) ->
                       line_number g <= i + 1).
Proof.
  cbv zeta.
  assert (Hd : forall n, 0 + n < List.length ["fn f() }}{"; "fn g() {}"] ->
                         depth ["fn f() }}{"; "fn g() {}"] 0 n <> 0%Z).
  { intros n Hn. destruct n as [|[|n]]; [vm_compute; discriminate .. |].
    simpl in Hn. lia. }
  split; [vm_compute; reflexivity|]. split; [vm_compute; reflexivity|].
  split; [exact Hd|]. split; [vm_compute; reflexivity|].
  intros H.
  specialize (H "rust/src/a.rs" ["fn f() }}{"; "fn g() {}"] 0 (Some "f")).
  assert (Hle : 2 <= 0 + 1).
  { apply (H ltac:(simpl; lia) ltac:(vm_compute; reflexivity)
             ltac:(vm_compute; reflexivity) Hd 1
             {| name := "g"; file_path := "rust/src/a.rs"; line_number := 2;
                func_code_lines := 1 |}).
    vm_compute. right. left. reflexivity. }
  lia.
Qed.

Lemma unterminated_function_ends_extraction_witness :
  CheckCodeMetrics.find_dart_functions ([] ++ "void f() {" :: ["  g();"; "}"]) = [] /\
  rust_loop 2 "a.rs" ["fn f() {"; "  let x = 1;"] 0 [] =
    [{| name := "f"; file_path := "a.rs"; line_number := 1;
        func_code_lines := 2 |}] /\
  rust_loop 2 "a.rs" ["fn f<T>()"; "  where T: X"] 0 [] = [].
Proof.
  destruct unterminated_function_ends_extraction as (HA & HB & HC).
  split; [|split].
  - rewrite HA.
    + vm_compute. reflexivity.
    + reflexivity.
    + vm_compute. reflexivity.
    + vm_compute. reflexivity.
    + intros k Hk. destruct k as [|[|[|k]]]; [vm_compute; discriminate .. |].
      simpl in Hk. lia.
  - rewrite (HB "a.rs" ["fn f() {"; "  let x = 1;"] 0 0 (Some "f") 1 []).
    + vm_compute. reflexivity.
    + lia.
    + simpl. lia.
    + vm_compute. reflexivity.
    + intros m Hm1 Hm2. lia.
    + vm_compute. reflexivity.
    + intros n Hn. destruct n as [|[|n]]; [vm_compute; reflexivity .. |].
      simpl in Hn. lia.
  - apply (HC "a.rs" ["fn f<T>()"; "  where T: X"] 0 (Some "f") 1 []).
    + simpl. lia.
    + vm_compute. reflexivity.
    + intros m Hm1 Hm2. destruct m as [|[|m]]; [vm_compute; reflexivity .. |].
      simpl in Hm2. lia.
Defined.

(** C5 as stated fails: the signature of inner matches the pattern and
    lies among the lines collected for outer, but no record is made for
    it, neither by [extract_dart_functions] nor by
    [find_dart_functions]. *)
Lemma nested_function_counterexample :
  let lines := ["void outer() {"; "  int inner() {"; "    return 1;"; "  }"; "}"] in
  let file :=
    mkFile (mkPath "lib/a.dart" ".dart" "a.dart" "a.dart")
           (Readable "void outer() {
  int inner() {
    return 1;
  }
}") in
  let lines2 := ["void outer() {"; "  int inner() { return 1; }"; "}}"] in
  re_match dart_function_pattern (at_ lines 1) = Some (Some "inner") /\
  dart_func_lines lines 0 = (lines, 5) /\
  fst (extract_dart_functions [] file) =
    [{| name := "outer"; file_path := "lib/a.dart"; line_number := 1;
        func_code_lines := 5 |}] /\
  matches CheckCodeMetrics.dart_pattern (at_ lines2 1) = true /\
  CheckCodeMetrics.find_dart_functions lines2 = [("void outer() {", 1, 3)] /\
  ~ (forall fp lines i fm j m g0,
        dart_at fp lines i = (Some fm, j) -> i < m -> m < j ->
        re_match dart_function_pattern (at_ lines m) = Some g0 ->
        exists g, In g (dart_loop (List.length lines) fp lines 0 []) /\
                  line_number g = m + 1).
Proof.
  cbv zeta.
  repeat (split; [vm_compute; reflexivity|]).
  intros H.
  destruct (H "lib/a.dart"
              ["void outer() {"; "  int inner() {"; "    return 1;"; "  }"; "}"]
              0 {| name := "outer"; file_path := "lib/a.dart"; line_number := 1;
                   func_code_lines := 5 |} 5 1 (Some "inner"))
    as (g & Hin & Hl); [vm_compute; reflexivity | lia | lia
                       | vm_compute; reflexivity |].
  vm_compute in Hin. destruct Hin as [<-|[]]. simpl in Hl. lia.
Qed.

End OpenFunctions.

(* ===================================================================== *)
(** * Scanning: unreadable files and independence of earlier state *)
(* ===================================================================== *)

Section Scanning.
Import VerifyMetrics.

Lemma count_file_lines_out out f lang :
  count_file_lines out f lang =
  (fst (count_file_lines [] f lang), out ++ snd (count_file_lines [] f lang)).
Proof.
  unfold count_file_lines. destruct (content f); cbn [fst snd app].
  - reflexivity.
  - rewrite app_nil_r. reflexivity.
Qed.

Lemma extract_dart_out out f :
  extract_dart_functions out f =
  (fst (extract_dart_functions [] f), out ++ snd (extract_dart_functions [] f)).
Proof.
  unfold extract_dart_functions. destruct (content f); cbn [fst snd app].
  - reflexivity.
  - rewrite app_nil_r. reflexivity.
Qed.

Lemma extract_rust_out out f :
  extract_rust_functions out f =
  (fst (extract_rust_functions [] f), out ++ snd (extract_rust_functions [] f)).
Proof.
  unfold extract_rust_functions. destruct (content f); cbn [fst snd app].
  - reflexivity.
  - rewrite app_nil_r. reflexivity.
Qed.

Lemma analyze_fold_frame fns : forall v fms,
  fold_left analyze_func_step fns (v, fms) =
  (fst (fold_left analyze_func_step fns (v, [])),
   fms ++ snd (fold_left analyze_func_step fns (v, []))).
Proof.
  induction fns as [|fn fns IH]; intros v fms; cbn [fold_left].
  - cbn [fst snd]. rewrite app_nil_r. reflexivity.
  - unfold analyze_func_step at 2 4 6. cbn [app].
    rewrite (IH _ (fms ++ [fn])), (IH _ [fn]). cbn [fst snd].
    rewrite <- app_assoc. reflexivity.
Qed.

(** What [analyze_file] returns and appends does not depend on what the
    analyzer and the output held before. *)
Lemma analyze_file_frame self out f lang :
  analyze_file self out f lang =
  let '(m, a0, o0) := analyze_file (init None (project_root self)) [] f lang in
  (m, extend self a0, out ++ o0).
Proof.
  unfold analyze_file.
  rewrite (count_file_lines_out out).
  destruct (count_file_lines [] f lang) as [[[[total code] comments] blanks] o1].
  cbn [fst snd app].
  set (ex := fun o : list Event =>
               if String.eqb lang "dart" then extract_dart_functions o f
               else if String.eqb lang "rust" then extract_rust_functions o f
               else ([], o)).
  change (if String.eqb lang "dart" then extract_dart_functions (out ++ o1) f
          else if String.eqb lang "rust" then extract_rust_functions (out ++ o1) f
          else ([], out ++ o1)) with (ex (out ++ o1)).
  change (if String.eqb lang "dart" then extract_dart_functions o1 f
          else if String.eqb lang "rust" then extract_rust_functions o1 f
          else ([], o1)) with (ex o1).
  assert (Hex : forall o, ex o = (fst (ex []), o ++ snd (ex []))).
  { intros o. unfold ex.
    destruct (String.eqb lang "dart"); [apply extract_dart_out|].
    destruct (String.eqb lang "rust"); [apply extract_rust_out|].
    cbn [fst snd]. rewrite app_nil_r. reflexivity. }
  rewrite (Hex (out ++ o1)), (Hex o1).
  destruct (ex []) as [functions o2]. cbn [fst snd init function_metrics].
  rewrite analyze_fold_frame.
  destruct (fold_left analyze_func_step functions _) as [viols fms].
  cbn [fst snd]. unfold extend.
  cbn [project_root file_metrics function_metrics].
  rewrite app_nil_r, app_assoc. reflexivity.
Qed.





Lemma analyze_file_keeps_files self out f lang :
  file_metrics (snd (fst (analyze_file self out f lang))) = file_metrics self.
Proof.
  rewrite analyze_file_frame.
  destruct (analyze_file (init None (project_root self)) [] f lang)
    as [[m a0] o0] eqn:E.
  cbn [fst snd]. unfold extend. cbn [file_metrics].
  assert (H0 : file_metrics a0 = []).
  { revert E. unfold analyze_file.
    destruct (count_file_lines [] f lang) as [[[[total code] comments] blanks] o1].
    destruct (if String.eqb lang "dart" then _ else _) as [functions o2].
    destruct (fold_left analyze_func_step functions _) as [viols fms].
    intros E; inversion E; subst. reflexivity. }
  rewrite H0, app_nil_r. reflexivity.
Qed.

Lemma scan_directory_file_count lang found : forall self out,
  List.length (file_metrics (fst (scan_directory self out found lang))) =
  List.length (file_metrics self) +
  List.length (filter (fun x => negb (skipped x)) found).
Proof.
  unfold scan_directory.
  induction found as [|f found IH]; intros self out; cbn [fold_left filter].
  - simpl. lia.
  - destruct (scan_file lang (self, out) f) as [a1 o1] eqn:E.
    rewrite IH.
    revert E. unfold scan_file, skipped.
    destruct (existsb _ SKIP_MARKERS); cbn [negb].
    + intros E; inversion E; subst. reflexivity.
    + pose proof (analyze_file_keeps_files self out f lang) as Hk.
      destruct (analyze_file self out f lang) as [[m s1] o2].
      cbn [fst snd] in Hk.
      intros E; inversion E; subst. cbn [file_metrics List.length].
      rewrite length_app, Hk. simpl. lia.
Qed.

(** C7. A file that cannot be read gets a record with all counts zero and
    no violations, a warning is printed for each failed read, the
    analyzer is otherwise unchanged, and the scan goes on with the files
    that follow: after a scan every file that is not excluded, readable
    or not, has its record.  In check_code_metrics.py the two checks of
    such a file print a warning, change nothing and return True. *)
Theorem unreadable_file_is_zero_metric
        (self : MetricsAnalyzer) (out : list Event) (f : File) (lang e : string) :
  content f = Unreadable e ->
  let warnings :=
    ErrorReading (location f) e ::
    (if String.eqb lang "dart" || String.eqb lang "rust"
     then [ErrorReading (location f) e] else []) in
  analyze_file self out f lang = (zero_metrics f, self, out ++ warnings) /\
  scan_file lang (self, out) f =
    (if skipped f then (self, out)
     else ({| project_root := project_root self;
              file_metrics := file_metrics self ++ [zero_metrics f];
              function_metrics := function_metrics self |}, out ++ warnings)) /\
  (forall before after,
      scan_directory self out (before ++ f :: after) lang =
      let '(a1, o1) := scan_directory self out before lang in
      let '(a2, o2) := scan_file lang (a1, o1) f in
      scan_directory a2 o2 after lang) /\
  (forall found,
      List.length (file_metrics (fst (scan_directory self out found lang))) =
      List.length (file_metrics self) +
      List.length (filter (fun x => negb (skipped x)) found)) /\
  (forall cm,
      CheckCodeMetrics.check_file_size cm out f =
        (true, cm, out ++ [ErrorChecking (location f) e]) /\
      CheckCodeMetrics.check_function_sizes cm out f =
        (true, cm, out ++ [ErrorCheckingFunctions (location f) e])).
Proof.
  intros Hc warnings.
  assert (Ha : analyze_file self out f lang = (zero_metrics f, self, out ++ warnings)).
  { unfold analyze_file, count_file_lines. rewrite Hc.
    cbn [Nat.ltb Nat.leb MAX_FILE_LINES].
    unfold extract_dart_functions, extract_rust_functions. rewrite Hc.
    subst warnings. unfold zero_metrics.
    destruct (String.eqb lang "dart"); cbn [orb fold_left].
    - destruct self; cbn [function_metrics file_metrics project_root].
      rewrite <- app_assoc. reflexivity.
    - destruct (String.eqb lang "rust"); cbn [fold_left];
        destruct self; cbn [function_metrics file_metrics project_root];
        [rewrite <- app_assoc|]; reflexivity. }
  split; [exact Ha|]. split; [|split; [|split]].
  - unfold scan_file, skipped. destruct (existsb _ SKIP_MARKERS); [reflexivity|].
    rewrite Ha. reflexivity.
  - intros before after. unfold scan_directory.
    rewrite fold_left_app. cbn [fold_left].
    destruct (fold_left (scan_file lang) before (self, out)) as [a1 o1].
    destruct (scan_file lang (a1, o1) f) as [a2 o2]. reflexivity.
  - intros found. apply scan_directory_file_count.
  - intros cm. unfold CheckCodeMetrics.check_file_size,
      CheckCodeMetrics.check_function_sizes. rewrite Hc. split; reflexivity.
Qed.

Lemma unreadable_file_is_zero_metric_witness :
  let f := mkFile (mkPath "lib/a.dart" ".dart" "a.dart" "a.dart")
                  (Unreadable "Permission denied") in
  analyze_file (init None "/repo") [] f "dart" =
    (zero_metrics f, init None "/repo",
     [ErrorReading (location f) "Permission denied";
      ErrorReading (location f) "Permission denied"]).
Proof.
  cbv zeta.
  exact (proj1 (unreadable_file_is_zero_metric (init None "/repo") []
           (mkFile (mkPath "lib/a.dart" ".dart" "a.dart" "a.dart")
                   (Unreadable "Permission denied"))
           "dart" "Permission denied" eq_refl)).
Defined.

End Scanning.

(* ===================================================================== *)
(** * More on the line counters *)
(* ===================================================================== *)

Section LineCounters.
Import VerifyMetrics.

Lemma count_code_step_blank st line :
  blank line = true -> CheckCodeMetrics.count_code_step st line = st.
Proof.
  intros H. destruct st as [n b]. unfold CheckCodeMetrics.count_code_step.
  unfold blank in H. rewrite H. reflexivity.
Qed.

Lemma count_code_run_filter lines : forall st,
  CheckCodeMetrics.count_code_run (filter (fun l => negb (blank l)) lines) st =
  CheckCodeMetrics.count_code_run lines st.
Proof.
  unfold CheckCodeMetrics.count_code_run.
  induction lines as [|l ls IH]; intros st; cbn [filter fold_left];
    [reflexivity|].
  destruct (blank l) eqn:E; cbn [negb fold_left].
  - rewrite count_code_step_blank by exact E. apply IH.
  - apply IH.
Qed.

(** X1. Blank lines never matter to [count_code_lines]: they are not
    counted and they do not touch the block-comment flag, so removing
    them leaves the count of every file unchanged. *)
Theorem blank_lines_do_not_count (lines : list string) :
  CheckCodeMetrics.count_code_lines (filter (fun l => negb (blank l)) lines) =
  CheckCodeMetrics.count_code_lines lines.
Proof.
  unfold CheckCodeMetrics.count_code_lines.
  rewrite count_code_run_filter. reflexivity.
Qed.

Lemma count_code_step_in_block n line :
  contains "*/" (strip line) = false ->
  CheckCodeMetrics.count_code_step (n, true) line = (n, true).
Proof.
  intros H. unfold CheckCodeMetrics.count_code_step.
  destruct (is_empty (strip line)); [reflexivity|].
  rewrite H. destruct (contains "/*" (strip line)); reflexivity.
Qed.

Lemma count_code_run_in_block rest : forall n,
  (forall l, In l rest -> contains "*/" (strip l) = false) ->
  CheckCodeMetrics.count_code_run rest (n, true) = (n, true).
Proof.
  unfold CheckCodeMetrics.count_code_run.
  induction rest as [|l ls IH]; intros n H; cbn [fold_left]; [reflexivity|].
  rewrite count_code_step_in_block by (apply H; now left).
  apply IH. intros l' Hl'. apply H. now right.
Qed.

(** X2. A block comment that is opened and never closed hides the rest
    of the file from [count_code_lines]: after a line with the open
    marker and no close marker, as long as no later line holds the close
    marker, nothing more is counted. *)
Theorem unclosed_block_comment_hides_rest (before rest : list string)
        (opener : string) :
  contains "/*" (strip opener) = true ->
  contains "*/" (strip opener) = false ->
  (forall l, In l rest -> contains "*/" (strip l) = false) ->
  CheckCodeMetrics.count_code_lines (before ++ opener :: rest) =
  CheckCodeMetrics.count_code_lines before.
Proof.
  intros Ho Hc Hrest. unfold CheckCodeMetrics.count_code_lines.
  rewrite count_code_run_app.
  destruct (CheckCodeMetrics.count_code_run before (0, false)) as [n b].
  unfold CheckCodeMetrics.count_code_run at 1. cbn [fold_left].
  assert (Hstep : CheckCodeMetrics.count_code_step (n, b) opener = (n, true)).
  { unfold CheckCodeMetrics.count_code_step.
    rewrite (contains_nonempty "/*" _ eq_refl Ho), Ho, Hc. reflexivity. }
  rewrite Hstep.
  fold (CheckCodeMetrics.count_code_run rest (n, true)).
  rewrite count_code_run_in_block by exact Hrest. reflexivity.
Qed.

Lemma unclosed_block_comment_hides_rest_witness :
  CheckCodeMetrics.count_code_lines
    (["int a = 1;"] ++ "/* notes" :: ["int b = 2;"; ""; "int c = 3;"]) = 1.
Proof.
  rewrite unclosed_block_comment_hides_rest.
  - reflexivity.
  - reflexivity.
  - reflexivity.
  - intros l [<-|[<-|[<-|[]]]]; reflexivity.
Defined.

Lemma is_blank_line_blank line : is_blank_line line = blank line.
Proof. unfold is_blank_line, blank. symmetry. apply is_empty_length. Qed.

Lemma count_file_step_in_block lang st line :
  in_block_comment st = true ->
  contains "*/" (strip line) = false ->
  let st' := count_file_step lang st line in
  in_block_comment st' = true /\ n_code st' = n_code st /\
  n_comment st' = n_comment st + (if blank line then 0 else 1) /\
  n_blank st' = n_blank st + (if blank line then 1 else 0).
Proof.
  intros Hb Hc. unfold count_file_step. rewrite is_blank_line_blank.
  destruct (blank line); cbn [in_block_comment n_code n_comment n_blank].
  - repeat split; auto; lia.
  - destruct (contains "/*" (strip line));
      [|rewrite Hb]; rewrite Hc;
      cbn [in_block_comment n_code n_comment n_blank]; repeat split; lia.
Qed.

Lemma count_file_fold_in_block lang rest : forall st,
  in_block_comment st = true ->
  (forall l, In l rest -> contains "*/" (strip l) = false) ->
  let st' := fold_left (count_file_step lang) rest st in
  n_code st' = n_code st /\
  n_comment st' =
    n_comment st + List.length (filter (fun l => negb (blank l)) rest) /\
  n_blank st' = n_blank st + List.length (filter blank rest).
Proof.
  induction rest as [|l ls IH]; intros st Hb H; cbn [fold_left filter].
  - simpl. repeat split; lia.
  - destruct (count_file_step_in_block lang st l Hb) as (H1 & H2 & H3 & H4).
    { apply H. now left. }
    destruct (IH (count_file_step lang st l) H1) as (H5 & H6 & H7).
    { intros l' Hl'. apply H. now right. }
    cbv zeta in *. rewrite H5, H6, H7, H2, H3, H4.
    destruct (blank l); cbn [negb List.length]; repeat split; lia.
Qed.

(** X3. In [count_file_lines] too an unclosed block comment runs to the
    end of the file: after the line that opens it, while no line holds
    the close marker, every line that is not blank is counted as a
    comment and the code count stays where it was. *)
Theorem unclosed_block_comment_is_all_comment (lang : string)
        (before rest : list string) (opener : string) :
  contains "/*" (strip opener) = true ->
  contains "*/" (strip opener) = false ->
  (forall l, In l rest -> contains "*/" (strip l) = false) ->
  let st := classify lang before in
  let st' := classify lang (before ++ opener :: rest) in
  n_code st' = n_code st /\
  n_comment st' =
    n_comment st + 1 + List.length (filter (fun l => negb (blank l)) rest) /\
  n_blank st' = n_blank st + List.length (filter blank rest).
Proof.
  intros Ho Hc Hrest. unfold classify.
  rewrite fold_left_app. cbn [fold_left].
  set (st := fold_left (count_file_step lang) before counts_init).
  assert (Hne : blank opener = false).
  { unfold blank. apply (contains_nonempty "/*" _ eq_refl Ho). }
  assert (Hst : in_block_comment (count_file_step lang st opener) = true /\
                n_code (count_file_step lang st opener) = n_code st /\
                n_comment (count_file_step lang st opener) = n_comment st + 1 /\
                n_blank (count_file_step lang st opener) = n_blank st).
  { unfold count_file_step. rewrite is_blank_line_blank, Hne, Ho, Hc.
    cbn [in_block_comment n_code n_comment n_blank]. repeat split. }
  destruct Hst as (H1 & H2 & H3 & H4).
  destruct (count_file_fold_in_block lang rest _ H1 Hrest) as (H5 & H6 & H7).
  cbv zeta in *. rewrite H5, H6, H7, H2, H3, H4. repeat split; lia.
Qed.

Lemma unclosed_block_comment_is_all_comment_witness :
  let st' := classify "dart" (["int a = 1;"] ++ "/* notes" ::
                              ["int b = 2;"; ""; "int c = 3;"]) in
  n_code st' = 1 /\ n_comment st' = 3 /\ n_blank st' = 1.
Proof.
  cbv zeta.
  destruct (unclosed_block_comment_is_all_comment "dart" ["int a = 1;"]
              ["int b = 2;"; ""; "int c = 3;"] "/* notes") as (H1 & H2 & H3).
  - reflexivity.
  - reflexivity.
  - intros l [<-|[<-|[<-|[]]]]; reflexivity.
  - rewrite H1, H2, H3. repeat split.
Defined.

Lemma func_code_step_agrees lang st line :
  func_code_step lang (n_code st, in_block_comment st) line =
  (n_code (count_file_step lang st line),
   in_block_comment (count_file_step lang st line)).
Proof.
  unfold func_code_step, count_file_step.
  destruct (is_blank_line line); [reflexivity|].
  destruct (contains "/*" (strip line)); [reflexivity|].
  destruct (in_block_comment st); [reflexivity|].
  destruct (is_comment_line line lang); reflexivity.
Qed.

Lemma func_code_fold_agrees lang lines : forall st,
  fold_left (func_code_step lang) lines (n_code st, in_block_comment st) =
  (n_code (fold_left (count_file_step lang) lines st),
   in_block_comment (fold_left (count_file_step lang) lines st)).
Proof.
  induction lines as [|l ls IH]; intros st; cbn [fold_left]; [reflexivity|].
  rewrite func_code_step_agrees. apply IH.
Qed.

(** X5. The code-line count of a function, written out again inside
    [extract_dart_functions] and [extract_rust_functions], is the code
    count that the loop of [count_file_lines] gives for the same lines:
    the three copies of the classifier in verify_metrics.py agree. *)
Theorem function_counter_agrees_with_file_counter (lang : string)
        (lines : list string) :
  count_func_code lang lines = n_code (classify lang lines).
Proof.
  unfold count_func_code, classify.
  exact (f_equal fst (func_code_fold_agrees lang lines counts_init)).
Qed.

Lemma startswith_contains p s : startswith p s = true -> contains p s = true.
Proof.
  unfold startswith. destruct s; simpl; intros ->; reflexivity.
Qed.

Lemma counters_step_flag lang n st line :
  snd (CheckCodeMetrics.count_code_step (n, in_block_comment st) line) =
  in_block_comment (count_file_step lang st line).
Proof.
  unfold CheckCodeMetrics.count_code_step, count_file_step.
  rewrite is_blank_line_blank. unfold blank.
  destruct (is_empty (strip line)); [reflexivity|].
  destruct (contains "/*" (strip line)), (contains "*/" (strip line)),
    (in_block_comment st) eqn:Eb; cbn [snd in_block_comment]; try reflexivity;
    try (rewrite Eb; reflexivity).
  all: destruct (startswith "//" (strip line) || startswith "#" (strip line));
    destruct (is_comment_line line lang);
    cbn [snd in_block_comment]; rewrite ?Eb; reflexivity.
Qed.

Lemma counters_step_count lang n st line :
  startswith "*" (strip line) = false ->
  n <= n_code st ->
  fst (CheckCodeMetrics.count_code_step (n, in_block_comment st) line) <=
  n_code (count_file_step lang st line).
Proof.
  intros Hstar Hn.
  unfold CheckCodeMetrics.count_code_step, count_file_step.
  rewrite is_blank_line_blank. unfold blank.
  destruct (is_empty (strip line)); [exact Hn|].
  destruct (contains "/*" (strip line)) eqn:Eo.
  - destruct (contains "*/" (strip line)); cbn [fst n_code]; exact Hn.
  - destruct (contains "*/" (strip line)).
    + cbn [fst]. destruct (in_block_comment st); cbn [n_code]; [exact Hn|].
      destruct (is_comment_line line lang); cbn [n_code]; lia.
    + destruct (in_block_comment st); cbn [fst n_code]; [exact Hn|].
      destruct (startswith "//" (strip line)) eqn:Es; cbn [orb fst].
      * destruct (is_comment_line line lang); cbn [n_code]; lia.
      * destruct (startswith "#" (strip line)); cbn [fst].
        -- destruct (is_comment_line line lang); cbn [n_code]; lia.
        -- assert (Hc : is_comment_line line lang = false).
           { unfold is_comment_line. rewrite Es, Hstar.
             destruct (startswith "/*" (strip line)) eqn:E2.
             - apply startswith_contains in E2. congruence.
             - destruct (String.eqb lang "dart"); [reflexivity|].
               destruct (String.eqb lang "rust"); reflexivity. }
           rewrite Hc. cbn [n_code]. lia.
Qed.

Lemma counters_fold lang lines : forall n st,
  snd (CheckCodeMetrics.count_code_run lines (n, in_block_comment st)) =
    in_block_comment (fold_left (count_file_step lang) lines st) /\
  ((forall l, In l lines -> startswith "*" (strip l) = false) ->
   n <= n_code st ->
   fst (CheckCodeMetrics.count_code_run lines (n, in_block_comment st)) <=
   n_code (fold_left (count_file_step lang) lines st)).
Proof.
  unfold CheckCodeMetrics.count_code_run.
  induction lines as [|l ls IH]; intros n st; cbn [fold_left].
  - split; [reflexivity|]. intros _ H. exact H.
  - pose proof (counters_step_flag lang n st l) as Hf.
    pose proof (counters_step_count lang n st l) as Hc.
    destruct (CheckCodeMetrics.count_code_step (n, in_block_comment st) l)
      as [n1 b1].
    cbn [fst snd] in Hf, Hc. subst b1.
    destruct (IH n1 (count_file_step lang st l)) as [IH1 IH2].
    split; [exact IH1|].
    intros Hstar Hn. apply IH2.
    + intros l' Hl'. apply Hstar. now right.
    + apply Hc; [apply Hstar; now left | exact Hn].
Qed.

(** X4. The two scripts delimit block comments alike: after any lines,
    the block-comment flag of [count_code_lines] (check_code_metrics.py)
    equals that of [count_file_lines] (verify_metrics.py).  They differ
    in the line comments they know, and when no stripped line starts
    with a star, every line that check_code_metrics.py counts as code is
    counted by verify_metrics.py too, so its count is not larger. *)
Theorem counters_of_the_two_scripts (lang : string) (lines : list string) :
  snd (CheckCodeMetrics.count_code_run lines (0, false)) =
    in_block_comment (classify lang lines) /\
  ((forall l, In l lines -> startswith "*" (strip l) = false) ->
   CheckCodeMetrics.count_code_lines lines <= n_code (classify lang lines)).
Proof.
  destruct (counters_fold lang lines 0 counts_init) as [H1 H2].
  split; [exact H1|].
  intros Hstar. apply H2; [exact Hstar|]. simpl. lia.
Qed.

Lemma counters_of_the_two_scripts_witness :
  CheckCodeMetrics.count_code_lines
    ["# note"; "int x = a */ b;"; "int y = 2;"] <=
  n_code (classify "dart" ["# note"; "int x = a */ b;"; "int y = 2;"]).
Proof.
  apply (proj2 (counters_of_the_two_scripts "dart"
                  ["# note"; "int x = a */ b;"; "int y = 2;"])).
  intros l [<-|[<-|[<-|[]]]]; reflexivity.
Defined.

End LineCounters.

(* ===================================================================== *)
(** * The scan of check_code_metrics.py *)
(* ===================================================================== *)

Section CheckScan.
Import CheckCodeMetrics.

Lemma check_file_size_violations self out f :
  violations (snd (fst (check_file_size self out f))) =
  violations self ++
  match content f with
  | Unreadable _ => []
  | Readable text =>
      if (MAX_FILE_LINES <? count_code_lines (readlines text))%nat
      then [file_size (path_str (location f))
              (count_code_lines (readlines text)) MAX_FILE_LINES]
      else []
  end.
Proof.
  unfold check_file_size. destruct (content f) as [e|text]; cbn [fst snd].
  - rewrite app_nil_r. reflexivity.
  - cbv zeta.
    destruct (MAX_FILE_LINES <? count_code_lines (readlines text))%nat;
      cbn [fst snd violations]; [|rewrite app_nil_r]; reflexivity.
Qed.

Lemma check_function_sizes_violations self out f :
  violations (snd (fst (check_function_sizes self out f))) =
  violations self ++
  match content f with
  | Unreadable _ => []
  | Readable text =>
      flat_map (function_violation (location f) (readlines text))
        (found_functions (location f) (readlines text))
  end.
Proof.
  unfold check_function_sizes, found_functions.
  destruct (content f) as [e|text]; cbn [fst snd].
  - rewrite app_nil_r. reflexivity.
  - cbv zeta.
    destruct (mem (path_suffix (location f)) DART_EXTENSIONS).
    { pose proof (check_function_fold_violations (location f) (readlines text)
                    (find_dart_functions (readlines text)) true self) as H.
      destruct (fold_left _ _ _) as [ap s']. exact H. }
    destruct (mem (path_suffix (location f)) RUST_EXTENSIONS).
    { pose proof (check_function_fold_violations (location f) (readlines text)
                    (find_rust_functions (readlines text)) true self) as H.
      destruct (fold_left _ _ _) as [ap s']. exact H. }
    cbn [fst snd]. rewrite app_nil_r. reflexivity.
Qed.

Lemma scan_file_violations self out f :
  violations (fst (scan_file (self, out) f)) =
  violations self ++
  (if should_skip (location f) then [] else violations_of_file f).
Proof.
  unfold scan_file.
  destruct (should_skip (location f)); cbn [fst].
  - rewrite app_nil_r. reflexivity.
  - pose proof (check_file_size_violations self out f) as H1.
    destruct (check_file_size self out f) as [[ok1 self1] out1].
    pose proof (check_function_sizes_violations self1 out1 f) as H2.
    destruct (check_function_sizes self1 out1 f) as [[ok2 self2] out2].
    cbn [fst snd] in *. rewrite H2, H1, <- app_assoc.
    unfold violations_of_file. destruct (content f); reflexivity.
Qed.

Lemma scan_files_violations files : forall self out,
  violations (fst (fold_left scan_file files (self, out))) =
  violations self ++
  flat_map violations_of_file
    (filter (fun f => negb (should_skip (location f))) files).
Proof.
  induction files as [|f files IH]; intros self out; cbn [fold_left filter].
  - simpl. rewrite app_nil_r. reflexivity.
  - pose proof (scan_file_violations self out f) as H.
    destruct (scan_file (self, out) f) as [self1 out1]. cbn [fst] in H.
    rewrite IH, H.
    destruct (should_skip (location f)); cbn [negb flat_map].
    + rewrite app_nil_r. reflexivity.
    + rewrite <- app_assoc. reflexivity.
Qed.

Lemma scan_directory_unfold self out rglob :
  scan_directory self out rglob =
  fold_left scan_file (rglob "*.dart" ++ rglob "*.rs") (self, out).
Proof.
  unfold scan_directory. cbn [DART_EXTENSIONS RUST_EXTENSIONS app fold_left].
  rewrite fold_left_app. reflexivity.
Qed.

(** X6. The violations that [CodeMetrics.scan_directory] adds are, file
    by file in the order of the scan (Dart files first, then Rust files),
    the file violation followed by the function violations of that file;
    a skipped file and a file that cannot be read add nothing. *)
Theorem scan_violations_are_per_file (self : CodeMetrics) (out : list Event)
        (rglob : string -> list File) :
  violations (fst (scan_directory self out rglob)) =
  violations self ++ flat_map violations_of_file (checked_files rglob).
Proof.
  rewrite scan_directory_unfold. apply scan_files_violations.
Qed.

Lemma violation_ok_mono st st' v :
  max_file_size st <= max_file_size st' ->
  max_function_size st <= max_function_size st' ->
  violation_ok st v -> violation_ok st' v.
Proof.
  intros H1 H2. destruct v; simpl; intros (Ha & Hb & Hc); repeat split; lia.
Qed.

Lemma check_file_size_inv self out f :
  stats_inv self -> stats_inv (snd (fst (check_file_size self out f))).
Proof.
  intros Hinv. unfold check_file_size.
  destruct (content f) as [e|text]; cbn [fst snd]; [exact Hinv|].
  cbv zeta. destruct Hinv as (H1 & H2 & H3 & H4 & H5 & H6 & H7).
  cbv zeta in *.
  destruct (Nat.ltb_spec MAX_FILE_LINES (count_code_lines (readlines text)))
    as [Hlt|Hge]; unfold MAX_FILE_LINES in *; cbn [fst snd];
    unfold stats_inv;
    cbn [stats violations total_files total_functions oversized_files
         oversized_functions max_file_size max_function_size].
  - rewrite !filter_app, !length_app. cbn [filter is_file_size negb List.length].
    repeat split; try lia.
    apply Forall_app. split.
    + eapply Forall_impl; [|exact H5]. intros v Hv.
      eapply violation_ok_mono; [| |exact Hv]; cbn [max_file_size max_function_size]; lia.
    + constructor; [|constructor]. simpl. repeat split; lia.
  - repeat split; try lia.
    eapply Forall_impl; [|exact H5]. intros v Hv.
    eapply violation_ok_mono; [| |exact Hv]; cbn [max_file_size max_function_size]; lia.
Qed.

Lemma check_function_step_inv p lines all_pass self fn :
  stats_inv self ->
  stats_inv (snd (check_function_step p lines (all_pass, self) fn)).
Proof.
  intros Hinv. destruct fn as [[nm s] e]. unfold check_function_step.
  destruct Hinv as (H1 & H2 & H3 & H4 & H5 & H6 & H7). cbv zeta in *.
  destruct (Nat.ltb_spec MAX_FUNCTION_LINES
              (count_code_lines (slice lines (s - 1) e))) as [Hlt|Hge];
    unfold MAX_FUNCTION_LINES in *; cbn [fst snd];
    unfold stats_inv;
    cbn [stats violations total_files total_functions oversized_files
         oversized_functions max_file_size max_function_size].
  - rewrite !filter_app, !length_app. cbn [filter is_file_size negb List.length].
    repeat split; try lia.
    apply Forall_app. split.
    + eapply Forall_impl; [|exact H5]. intros v Hv.
      eapply violation_ok_mono; [| |exact Hv]; cbn [max_file_size max_function_size]; lia.
    + constructor; [|constructor]. simpl. repeat split; lia.
  - repeat split; try lia.
    eapply Forall_impl; [|exact H5]. intros v Hv.
    eapply violation_ok_mono; [| |exact Hv]; cbn [max_file_size max_function_size]; lia.
Qed.

Lemma check_function_fold_inv p lines fns : forall all_pass self,
  stats_inv self ->
  stats_inv (snd (fold_left (check_function_step p lines) fns (all_pass, self))).
Proof.
  induction fns as [|fn fns IH]; intros all_pass self H; cbn [fold_left];
    [exact H|].
  pose proof (check_function_step_inv p lines all_pass self fn H) as H1.
  destruct (check_function_step p lines (all_pass, self) fn) as [b self1].
  apply IH. exact H1.
Qed.

Lemma check_function_sizes_inv self out f :
  stats_inv self -> stats_inv (snd (fst (check_function_sizes self out f))).
Proof.
  intros Hinv. unfold check_function_sizes.
  destruct (content f) as [e|text]; cbn [fst snd]; [exact Hinv|].
  cbv zeta.
  destruct (mem (path_suffix (location f)) DART_EXTENSIONS).
  { pose proof (check_function_fold_inv (location f) (readlines text)
                  (find_dart_functions (readlines text)) true self Hinv) as H.
    destruct (fold_left _ _ _) as [ap s']. exact H. }
  destruct (mem (path_suffix (location f)) RUST_EXTENSIONS).
  { pose proof (check_function_fold_inv (location f) (readlines text)
                  (find_rust_functions (readlines text)) true self Hinv) as H.
    destruct (fold_left _ _ _) as [ap s']. exact H. }
  exact Hinv.
Qed.

Lemma scan_files_inv files : forall self out,
  stats_inv self -> stats_inv (fst (fold_left scan_file files (self, out))).
Proof.
  induction files as [|f files IH]; intros self out H; cbn [fold_left];
    [exact H|].
  assert (H1 : stats_inv (fst (scan_file (self, out) f))).
  { unfold scan_file. destruct (should_skip (location f)); [exact H|].
    pose proof (check_file_size_inv self out f H) as Ha.
    destruct (check_file_size self out f) as [[ok1 self1] out1].
    pose proof (check_function_sizes_inv self1 out1 f Ha) as Hb.
    destruct (check_function_sizes self1 out1 f) as [[ok2 self2] out2].
    exact Hb. }
  destruct (scan_file (self, out) f) as [self1 out1]. apply IH. exact H1.
Qed.

(** X7. The statistics of a [CodeMetrics] object stay in step with its
    violations through every scan: the counters of oversized files and
    functions are the numbers of violations of the two kinds and do not
    exceed the numbers of files and functions seen, each violation holds
    a count above its limit (500 or 50) and at most the recorded
    maximum, and a counter of oversized items is zero exactly when the
    recorded maximum is within the limit.  A new object has the
    property. *)
Theorem stats_match_violations (self : CodeMetrics) (out : list Event)
        (rglob : string -> list File) :
  stats_inv (init None) /\
  (stats_inv self -> stats_inv (fst (scan_directory self out rglob))).
Proof.
  split.
  - unfold stats_inv. simpl. repeat split; try lia. constructor.
  - intros H. rewrite scan_directory_unfold. apply scan_files_inv. exact H.
Qed.

Lemma stats_match_violations_witness :
  let f := mkFile (mkPath "lib/a.dart" ".dart" "a.dart" "a.dart")
                  (Readable (text_of 501 "x = 1;")) in
  let rglob := fun pat : string => if String.eqb pat "*.dart" then [f] else [] in
  stats_inv (fst (scan_directory (init None) [] rglob)).
Proof.
  cbv zeta.
  destruct (stats_match_violations (init None) []
    (fun pat : string =>
       if String.eqb pat "*.dart"
       then [mkFile (mkPath "lib/a.dart" ".dart" "a.dart" "a.dart")
                    (Readable (text_of 501 "x = 1;"))]
       else [])) as [H0 H].
  apply H. exact H0.
Defined.

Lemma check_function_fold_pass p lines fns : forall all_pass self,
  fst (fold_left (check_function_step p lines) fns (all_pass, self)) =
  all_pass && is_nil (flat_map (function_violation p lines) fns).
Proof.
  induction fns as [|fn fns IH]; intros all_pass self; cbn [fold_left flat_map].
  - cbn [is_nil fst]. rewrite andb_true_r. reflexivity.
  - destruct fn as [[nm s] e].
    unfold check_function_step at 2. unfold function_violation at 1.
    destruct (MAX_FUNCTION_LINES <? count_code_lines (slice lines (s - 1) e))%nat;
      rewrite IH; cbn [app is_nil].
    + rewrite andb_false_r. reflexivity.
    + reflexivity.
Qed.

(** X8. The boolean that a check returns tells whether the check added a
    violation: [check_file_size] and [check_function_sizes] return True
    exactly when they leave the list of violations as it was. *)
Theorem check_result_tells_violation (self : CodeMetrics) (out : list Event)
        (f : File) :
  (let '(ok, self', _) := check_file_size self out f in
   ok = true <-> violations self' = violations self) /\
  (let '(ok, self', _) := check_function_sizes self out f in
   ok = true <-> violations self' = violations self).
Proof.
  assert (Hnil : forall (l x : list Violation), l ++ x = l <-> x = []).
  { intros l x. split; [|intros ->; apply app_nil_r].
    intros H. apply (app_inv_head l). rewrite app_nil_r. exact H. }
  split.
  - unfold check_file_size. destruct (content f) as [e|text].
    + split; reflexivity.
    + cbv zeta.
      destruct (MAX_FILE_LINES <? count_code_lines (readlines text))%nat;
        cbn [violations].
      * rewrite Hnil. split; discriminate.
      * split; reflexivity.
  - unfold check_function_sizes. destruct (content f) as [e|text].
    + split; reflexivity.
    + cbv zeta.
      assert (Hfold : forall fns,
        let '(ap, s') := fold_left (check_function_step (location f)
                                      (readlines text)) fns (true, self) in
        ap = true <-> violations s' = violations self).
      { intros fns.
        pose proof (check_function_fold_pass (location f) (readlines text)
                      fns true self) as Hp.
        pose proof (check_function_fold_violations (location f) (readlines text)
                      fns true self) as Hv.
        destruct (fold_left _ _ _) as [ap s']. cbn [fst snd] in *.
        rewrite Hv, Hnil, Hp. cbn [andb].
        destruct (flat_map _ fns); cbn [is_nil]; split;
          try reflexivity; discriminate. }
      destruct (mem (path_suffix (location f)) DART_EXTENSIONS).
      { specialize (Hfold (find_dart_functions (readlines text))).
        destruct (fold_left _ _ _) as [ap s']. exact Hfold. }
      destruct (mem (path_suffix (location f)) RUST_EXTENSIONS).
      { specialize (Hfold (find_rust_functions (readlines text))).
        destruct (fold_left _ _ _) as [ap s']. exact Hfold. }
      split; reflexivity.
Qed.

Lemma flat_map_nil {X Y} (g : X -> list Y) (l : list X) :
  flat_map g l = [] <-> forall x, In x l -> g x = [].
Proof.
  induction l as [|x l IH]; cbn [flat_map].
  - split; [intros _ x []|reflexivity].
  - split.
    + intros H. apply app_eq_nil in H. destruct H as [H1 H2].
      intros y [<-|Hy]; [exact H1|]. apply IH; assumption.
    + intros H. rewrite (H x (or_introl eq_refl)).
      cbn [app]. apply IH. intros y Hy. apply H. now right.
Qed.

Lemma violations_of_file_nil f :
  violations_of_file f = [] <->
  (forall text, content f = Readable text ->
     count_code_lines (readlines text) <= 500 /\
     forall nm s e,
       In (nm, s, e) (found_functions (location f) (readlines text)) ->
       count_code_lines (slice (readlines text) (s - 1) e) <= 50).
Proof.
  unfold violations_of_file. destruct (content f) as [e|text].
  - split; [intros _ text H; discriminate|reflexivity].
  - cbv zeta. split.
    + intros H text' Ht. inversion Ht; subst text'.
      apply app_eq_nil in H. destruct H as [H1 H2]. split.
      * destruct (Nat.ltb_spec MAX_FILE_LINES (count_code_lines (readlines text)))
          as [Hlt|Hge]; [discriminate|exact Hge].
      * intros nm s e Hin.
        rewrite flat_map_nil in H2. specialize (H2 _ Hin).
        unfold function_violation in H2.
        destruct (Nat.ltb_spec MAX_FUNCTION_LINES
                    (count_code_lines (slice (readlines text) (s - 1) e)))
          as [Hlt|Hge]; [discriminate|exact Hge].
    + intros H. destruct (H text eq_refl) as [H1 H2].
      destruct (Nat.ltb_spec MAX_FILE_LINES (count_code_lines (readlines text)))
        as [Hlt|Hge]; [unfold MAX_FILE_LINES in Hlt; lia|].
      cbn [app]. apply flat_map_nil. intros [[nm s] e] Hin.
      specialize (H2 nm s e Hin). unfold function_violation.
      destruct (Nat.ltb_spec MAX_FUNCTION_LINES
                  (count_code_lines (slice (readlines text) (s - 1) e)))
        as [Hlt2|Hge2]; [unfold MAX_FUNCTION_LINES in Hlt2; lia|reflexivity].
Qed.

(** X11. A run of check_code_metrics.py reports compliance, and its
    [main] returns 0, exactly when every checked file that can be read
    has at most 500 code lines and each function found in it at most 50;
    the number of violations it reports is the number the checked files
    give rise to. *)
Theorem compliance_iff_within_limits (rglob : string -> list File) :
  let r := fst (run rglob) in
  (check_exit_code r = 0 <->
   forall f text,
     In f (checked_files rglob) -> content f = Readable text ->
     count_code_lines (readlines text) <= 500 /\
     forall nm s e,
       In (nm, s, e) (found_functions (location f) (readlines text)) ->
       count_code_lines (slice (readlines text) (s - 1) e) <= 50) /\
  total_violations r =
    List.length (flat_map violations_of_file (checked_files rglob)).
Proof.
  cbv zeta. unfold run.
  pose proof (scan_files_violations (rglob "*.dart" ++ rglob "*.rs")
                (init None) []) as Hv.
  rewrite <- scan_directory_unfold in Hv.
  destruct (scan_directory (init None) [] rglob) as [m out].
  cbn [fst violations init app] in Hv. cbn [fst].
  fold (checked_files rglob) in Hv.
  unfold check_exit_code, generate_report. cbn [compliance total_violations].
  rewrite Hv. split; [|reflexivity].
  destruct (flat_map violations_of_file (checked_files rglob)) as [|v vs] eqn:E.
  - cbn [List.length Nat.eqb]. split; [intros _|reflexivity].
    rewrite flat_map_nil in E. intros f text Hin Ht.
    apply (proj1 (violations_of_file_nil f) (E f Hin) text Ht).
  - cbn [List.length Nat.eqb]. split; [discriminate|].
    intros H. exfalso.
    assert (Hnil : flat_map violations_of_file (checked_files rglob) = []).
    { apply flat_map_nil. intros f Hin. apply violations_of_file_nil.
      intros text Ht. apply (H f text Hin Ht). }
    rewrite Hnil in E. discriminate.
Qed.

End CheckScan.

(* ===================================================================== *)
(** * What find_dart_functions and find_rust_functions return *)
(* ===================================================================== *)

Section FoundFunctions.
Import CheckCodeMetrics.

Lemma dcount_app pre l i : forall k,
  i + k < List.length pre -> dcount (pre ++ [l]) i k = dcount pre i k.
Proof.
  induction k as [|k IH]; intros H; cbn [dcount].
  - rewrite app_nth1 by lia. reflexivity.
  - rewrite IH by lia. rewrite app_nth1 by lia. reflexivity.
Qed.

Lemma found_ok_app pattern pre l fn :
  found_ok pattern pre fn -> found_ok pattern (pre ++ [l]) fn.
Proof.
  destruct fn as [[nm s] e]. unfold found_ok.
  intros (H1 & H2 & H3 & H4 & H5 & H6 & H7 & H8).
  rewrite length_app. cbn [List.length].
  rewrite app_nth1 by lia.
  repeat split; try assumption; try lia.
  - rewrite dcount_app by lia. exact H7.
  - intros k Hk. rewrite dcount_app by lia. apply H8. exact Hk.
Qed.

Lemma find_run_snoc pattern pre l :
  find_run pattern (enumerate (pre ++ [l])) find_init =
  find_step pattern (find_run pattern (enumerate pre) find_init)
    (List.length pre, l).
Proof.
  unfold find_run, enumerate.
  rewrite enumerate_from_app, fold_left_app. reflexivity.
Qed.

Lemma find_step_found pattern pre l st :
  Forall (found_ok pattern pre) (functions st) -> open_ok pattern pre st ->
  let st' := find_step pattern st (List.length pre, l) in
  Forall (found_ok pattern (pre ++ [l])) (functions st') /\
  open_ok pattern (pre ++ [l]) st'.
Proof.
  intros Hf Ho.
  assert (Hf' : Forall (found_ok pattern (pre ++ [l])) (functions st)).
  { eapply Forall_impl; [|exact Hf]. intros fn. apply found_ok_app. }
  assert (Hl : nth (List.length pre) (pre ++ [l]) EmptyString = l).
  { rewrite app_nth2 by lia. rewrite Nat.sub_diag. reflexivity. }
  assert (Hlen : List.length (pre ++ [l]) = List.length pre + 1).
  { rewrite length_app. reflexivity. }
  unfold find_step, open_ok in *.
  destruct (current_function st) as [[[nm s] z]|] eqn:Ec.
  - (* a function is open: the line cannot start another one *)
    cbn [is_none]. rewrite andb_false_r.
    assert (E : (if matches pattern l then st else st) = st)
      by (destruct (matches pattern l); reflexivity).
    rewrite E, Ec. cbn [fst snd].
    destruct Ho as (H1 & H2 & H3 & H4 & H5 & H6 & H7).
    assert (Hd : (brace_count st + net_braces l)%Z =
                 dcount (pre ++ [l]) (s - 1) (List.length pre + 1 - s)).
    { replace (List.length pre + 1 - s) with (S (List.length pre - s)) by lia.
      cbn [dcount]. rewrite dcount_app by lia.
      replace (s - 1 + S (List.length pre - s)) with (List.length pre) by lia.
      rewrite Hl, H6. reflexivity. }
    destruct (brace_count st + net_braces l =? 0)%Z eqn:Ez;
      cbn [functions current_function brace_count].
    + apply Z.eqb_eq in Ez. split; [|exact I].
      apply Forall_app. split; [exact Hf'|]. constructor; [|constructor].
      unfold found_ok. rewrite Hlen, app_nth1 by lia.
      replace (List.length pre + 1 - s) with (S (List.length pre - s)) in * by lia.
      repeat split; try assumption; try lia.
      intros k Hk. rewrite dcount_app by lia. apply H7. lia.
    + apply Z.eqb_neq in Ez. split; [exact Hf'|].
      rewrite Hlen, app_nth1 by lia.
      repeat split; try assumption; try lia.
      intros k Hk.
      destruct (Nat.eq_dec k (List.length pre + 1 - s)) as [->|Hne].
      * rewrite <- Hd. exact Ez.
      * rewrite dcount_app by lia. apply H7. lia.
  - (* no function is open *)
    cbn [is_none]. rewrite andb_true_r.
    destruct (matches pattern l && contains "{" l) eqn:Em.
    + apply andb_prop in Em. destruct Em as [Em1 Em2].
      rewrite Em1, Em2.
      cbn [functions current_function brace_count fst snd].
      assert (Hd : (net_braces l + net_braces l)%Z =
                   dcount (pre ++ [l]) (List.length pre) 0).
      { cbn [dcount]. rewrite Hl. lia. }
      destruct (net_braces l + net_braces l =? 0)%Z eqn:Ez;
        cbn [functions current_function brace_count].
      * apply Z.eqb_eq in Ez. split; [|exact I].
        apply Forall_app. split; [exact Hf'|]. constructor; [|constructor].
        unfold found_ok. rewrite Hlen.
        replace (List.length pre + 1 - 1) with (List.length pre) by lia.
        rewrite Nat.sub_diag, Hl, <- Hd.
        repeat split; try assumption; try lia.
      * apply Z.eqb_neq in Ez. split; [exact Hf'|].
        rewrite Hlen.
        replace (List.length pre + 1 - 1) with (List.length pre) by lia.
        replace (List.length pre + 1 - (List.length pre + 1)) with 0 by lia.
        rewrite Hl, <- Hd.
        repeat split; try assumption; try lia.
        intros k Hk. assert (k = 0) as -> by lia. rewrite <- Hd. exact Ez.
    + assert (E : (if matches pattern l
                   then if contains "{" l
                        then {| functions := functions st;
                                current_function :=
                                  Some (strip l, List.length pre + 1, 0);
                                brace_count := net_braces l |}
                        else st
                   else st) = st).
      { destruct (matches pattern l); [|reflexivity].
        destruct (contains "{" l); [discriminate|reflexivity]. }
      rewrite E, Ec. rewrite Ec. split; [exact Hf'|exact I].
Qed.

Lemma find_run_found pattern lines :
  Forall (found_ok pattern lines)
    (functions (find_run pattern (enumerate lines) find_init)) /\
  open_ok pattern lines (find_run pattern (enumerate lines) find_init).
Proof.
  induction lines as [|l pre IH] using rev_ind.
  - split; [constructor|exact I].
  - rewrite find_run_snoc. destruct IH as [H1 H2].
    apply find_step_found; assumption.
Qed.

(** X9. Every function that [find_dart_functions] or
    [find_rust_functions] returns lies in the file, starts on a line that
    matches the pattern and holds an opening brace, carries that line,
    stripped, as its name, and ends on the first line at which the brace
    counter is zero - a counter in which the braces of the signature line
    are counted twice. *)
Theorem found_functions_are_well_formed (lines : list string) :
  Forall (found_ok dart_pattern lines) (find_dart_functions lines) /\
  Forall (found_ok rust_pattern lines) (find_rust_functions lines).
Proof.
  split; apply find_run_found.
Qed.

Lemma find_run_balanced pattern cf rest : forall n st c,
  current_function st = Some cf ->
  brace_count st = c ->
  (forall k, 1 <= k -> k <= List.length rest ->
             (c + net_sum (firstn k rest) <> 0)%Z) ->
  functions (find_run pattern (enumerate_from n rest) st) = functions st.
Proof.
  induction rest as [|l rest IH]; intros n st c Hc Hb Hnz; [reflexivity|].
  rewrite enumerate_from_cons. unfold find_run. cbn [fold_left].
  fold (find_run pattern (enumerate_from (S n) rest)
          (find_step pattern st (n, l))).
  destruct (find_step_open pattern st cf n l Hc) as [Hbc Hopen].
  cbv zeta in Hbc, Hopen.
  assert (Hne : brace_count (find_step pattern st (n, l)) <> 0%Z).
  { rewrite Hbc, Hb. specialize (Hnz 1). cbn [firstn net_sum fold_right] in Hnz.
    cbn [List.length] in Hnz.
    intros E. apply Hnz; [lia|lia|]. lia. }
  destruct (Hopen Hne) as [Hc' Hf'].
  rewrite <- Hf'.
  apply (IH (S n) _ (c + net_braces l)%Z Hc').
  - rewrite Hbc, Hb. reflexivity.
  - intros k Hk1 Hk2. specialize (Hnz (S k)).
    cbn [firstn net_sum fold_right List.length] in Hnz.
    fold (net_sum (firstn k rest)) in Hnz.
    intros E. apply Hnz; [lia|lia|]. lia.
Qed.

(** X10. Because the braces of the signature line are counted twice, a
    function whose signature line opens one brace more than it closes is
    not reported when the braces that follow are balanced: if no function
    is open when the signature line is read, and from the signature line
    on the lines never close more than that one brace, then the counter
    stays above zero, and neither this function nor anything after it is
    returned - the result is what was found before the signature. *)
Theorem balanced_function_is_not_found (pattern : re)
        (pre rest : list string) (sig : string) :
  current_function (find_run pattern (enumerate pre) find_init) = None ->
  matches pattern sig = true ->
  contains "{" sig = true ->
  net_braces sig = 1%Z ->
  (forall k, k <= List.length rest -> (-1 <= net_sum (firstn k rest))%Z) ->
  find_functions pattern (pre ++ sig :: rest) = find_functions pattern pre.
Proof.
  intros Hnone Hm Hb Hnet Hbal. unfold find_functions.
  rewrite find_run_split.
  set (st0 := find_run pattern (enumerate pre) find_init) in *.
  assert (Hst1 : find_step pattern st0 (List.length pre, sig) =
                 {| functions := functions st0;
                    current_function :=
                      Some (strip sig, List.length pre + 1, 0);
                    brace_count := 2 |}).
  { unfold find_step. rewrite Hm, Hb, Hnone.
    cbn [is_none andb current_function brace_count functions fst snd].
    rewrite Hnet. reflexivity. }
  rewrite Hst1.
  rewrite (find_run_balanced pattern (strip sig, List.length pre + 1, 0)
             rest _ _ 2%Z); [reflexivity|reflexivity|reflexivity|].
  intros k Hk1 Hk2. specialize (Hbal k Hk2). lia.
Qed.

Lemma balanced_function_is_not_found_witness :
  find_dart_functions
    ([] ++ "void f() {" :: ["  g();"; "}"; "int h() {"; "  return 1;"; "}"]) = [].
Proof.
  unfold find_dart_functions.
  rewrite balanced_function_is_not_found.
  - reflexivity.
  - reflexivity.
  - vm_compute. reflexivity.
  - vm_compute. reflexivity.
  - vm_compute. reflexivity.
  - intros k Hk.
    do 6 (destruct k as [|k]; [vm_compute; discriminate|]).
    simpl in Hk. lia.
Defined.

End FoundFunctions.

(* ===================================================================== *)
(** * More on the extractors of verify_metrics.py *)
(* ===================================================================== *)

Section VerifyExtraction.
Import VerifyMetrics.

Lemma func_code_fold_le lang l : forall c b,
  fst (fold_left (func_code_step lang) l (c, b)) <= c + List.length l.
Proof.
  induction l as [|x l IH]; intros c b; cbn [fold_left List.length].
  - simpl. lia.
  - assert (H : exists c' b', func_code_step lang (c, b) x = (c', b') /\
                              c' <= c + 1).
    { unfold func_code_step.
      repeat match goal with
             | |- context [if ?t then _ else _] => destruct t
             end; eexists; eexists; (split; [reflexivity|lia]). }
    destruct H as (c' & b' & -> & Hc). specialize (IH c' b'). lia.
Qed.

Lemma count_func_code_le lang l : count_func_code lang l <= List.length l.
Proof. unfold count_func_code. apply (func_code_fold_le lang l 0 false). Qed.

Lemma dart_func_lines_length lines i :
  i < List.length lines ->
  List.length (fst (dart_func_lines lines i)) <= List.length lines - i.
Proof.
  intros Hi. unfold dart_func_lines.
  destruct (contains "=>" (at_ lines i)).
  - pose proof (arrow_while_spec lines (List.length lines - (i + 1)) (i + 1)
                  [at_ lines i]) as H.
    destruct (arrow_while _ lines (i + 1) [at_ lines i]) as [fl i2].
    destruct H as (H1 & H2 & H3 & _); [lia|lia|].
    subst fl.
    destruct (Nat.ltb_spec i2 (List.length lines)); cbn [fst];
      rewrite ?length_app, slice_length by lia; cbn [List.length]; lia.
  - pose proof (brace_while_spec lines (List.length lines - (i + 1)) (i + 1)
                  [at_ lines i] (net_braces (at_ lines i))) as H.
    destruct (brace_while _ lines (i + 1) [at_ lines i] _) as [[fl bc] i2].
    destruct H as (H1 & H2 & H3); [lia|]. subst fl. cbn [fst].
    rewrite length_app, slice_length by lia. cbn [List.length]. lia.
Qed.

Lemma dart_at_bound fp lines i fm i' :
  i < List.length lines -> dart_at fp lines i = (Some fm, i') ->
  func_code_lines fm <= List.length lines - i.
Proof.
  intros Hi. unfold dart_at.
  destruct (re_match dart_function_pattern (at_ lines i)); [|discriminate].
  pose proof (dart_func_lines_length lines i Hi) as Hl.
  destruct (dart_func_lines lines i) as [fl j]. cbn [fst] in Hl.
  intros E; inversion E; subst. cbn [func_code_lines].
  pose proof (count_func_code_le "dart" fl). lia.
Qed.

Lemma rust_func_lines_spec lines i fl i3 :
  i < List.length lines -> rust_func_lines lines i = Some (fl, i3) ->
  i < i3 /\ i3 <= List.length lines /\ fl = slice lines i i3.
Proof.
  intros Hi. unfold rust_func_lines.
  pose proof (open_while_spec lines (List.length lines - i) i []) as H.
  destruct (open_while _ lines i []) as [fl1 i1].
  destruct H as (H1 & H2 & H3 & _); [lia|lia|].
  destruct (Nat.leb_spec (List.length lines) i1) as [_|Hlt]; [discriminate|].
  pose proof (brace_while_spec lines (List.length lines - (i1 + 1)) (i1 + 1)
                (fl1 ++ [at_ lines i1]) (net_braces (at_ lines i1))) as Hw.
  destruct (brace_while _ lines (i1 + 1) _ _) as [[fl2 bc] i4].
  destruct Hw as (H4 & H5 & H6); [lia|].
  intros E; inversion E; subst. repeat split; try lia.
  cbn [app]. unfold at_.
  rewrite <- (slice_snoc EmptyString lines i i1) by lia.
  replace (i1 + 1) with (S i1) by lia.
  apply slice_app; lia.
Qed.

Lemma rust_at_bound fp lines i fm i' :
  i < List.length lines -> rust_at fp lines i = Extracted fm i' ->
  func_code_lines fm <= List.length lines - i.
Proof.
  intros Hi. unfold rust_at.
  destruct (re_match rust_function_pattern (at_ lines i)); [|discriminate].
  destruct (rust_func_lines lines i) as [[fl j]|] eqn:E; [|discriminate].
  destruct (rust_func_lines_spec lines i fl j Hi E) as (H1 & H2 & H3).
  intros Eq; inversion Eq; subst. cbn [func_code_lines].
  pose proof (count_func_code_le "rust" (slice lines i i')) as Hc.
  rewrite slice_length in Hc by lia. lia.
Qed.

Lemma dart_loop_acc fp lines : forall fuel i functions,
  dart_loop fuel fp lines i functions =
  functions ++ dart_loop fuel fp lines i [].
Proof.
  induction fuel as [|fuel IH]; intros i functions; cbn [dart_loop].
  - rewrite app_nil_r. reflexivity.
  - destruct (i <? List.length lines)%nat; [|rewrite app_nil_r; reflexivity].
    destruct (dart_at fp lines i) as [[fm|] i'].
    + rewrite (IH i' (functions ++ [fm])), (IH i' ([] ++ [fm])).
      rewrite <- app_assoc. reflexivity.
    + apply IH.
Qed.

Lemma rust_loop_acc fp lines : forall fuel i functions,
  rust_loop fuel fp lines i functions =
  functions ++ rust_loop fuel fp lines i [].
Proof.
  induction fuel as [|fuel IH]; intros i functions; cbn [rust_loop].
  - rewrite app_nil_r. reflexivity.
  - destruct (i <? List.length lines)%nat; [|rewrite app_nil_r; reflexivity].
    destruct (rust_at fp lines i) as [i'| |fm i'].
    + apply IH.
    + rewrite app_nil_r. reflexivity.
    + rewrite (IH i' (functions ++ [fm])), (IH i' ([] ++ [fm])).
      rewrite <- app_assoc. reflexivity.
Qed.

Lemma lines_from_mono l : forall lo lo',
  lo' <= lo -> lines_from lo l -> lines_from lo' l.
Proof.
  destruct l as [|g l]; intros lo lo' H; cbn [lines_from]; [auto|].
  intros [H1 H2]. split; [lia|exact H2].
Qed.

Lemma dart_loop_sorted fp lines : forall fuel i,
  lines_from i (dart_loop fuel fp lines i []) /\
  Forall (record_in_file (List.length lines)) (dart_loop fuel fp lines i []).
Proof.
  induction fuel as [|fuel IH]; intros i; cbn [dart_loop].
  - split; [exact I|constructor].
  - destruct (Nat.ltb_spec i (List.length lines)) as [Hlt|Hge];
      [|split; [exact I|constructor]].
    destruct (dart_at fp lines i) as [o i'] eqn:E.
    destruct (dart_at_next fp lines i o i' Hlt E) as (H1 & H2 & H3).
    destruct (IH i') as [IH1 IH2].
    destruct o as [fm|].
    + rewrite dart_loop_acc. cbn [app lines_from].
      destruct (H3 fm eq_refl) as [Hn _].
      pose proof (dart_at_bound fp lines i fm i' Hlt E) as Hb.
      split.
      * split; [lia|]. eapply lines_from_mono; [|exact IH1]. lia.
      * constructor; [|exact IH2]. unfold record_in_file. lia.
    + split; [|exact IH2]. eapply lines_from_mono; [|exact IH1]. lia.
Qed.

Lemma rust_loop_sorted fp lines : forall fuel i,
  lines_from i (rust_loop fuel fp lines i []) /\
  Forall (record_in_file (List.length lines)) (rust_loop fuel fp lines i []).
Proof.
  induction fuel as [|fuel IH]; intros i; cbn [rust_loop].
  - split; [exact I|constructor].
  - destruct (Nat.ltb_spec i (List.length lines)) as [Hlt|Hge];
      [|split; [exact I|constructor]].
    pose proof (rust_at_next fp lines i Hlt) as Hn.
    pose proof (rust_at_bound fp lines i) as Hb.
    destruct (rust_at fp lines i) as [i'| |fm i'].
    + destruct (IH i') as [IH1 IH2].
      split; [|exact IH2]. eapply lines_from_mono; [|exact IH1]. lia.
    + split; [exact I|constructor].
    + destruct (IH i') as [IH1 IH2]. destruct Hn as [Hn1 Hn2].
      specialize (Hb fm i' Hlt eq_refl).
      rewrite rust_loop_acc. cbn [app lines_from]. split.
      * split; [lia|]. eapply lines_from_mono; [|exact IH1]. lia.
      * constructor; [|exact IH2]. unfold record_in_file. lia.
Qed.

(** X12. The records that [extract_dart_functions] and
    [extract_rust_functions] return are in strictly increasing order of
    line number, each starts on a line of the file, and none counts more
    code lines than the file has lines from its start on.  A file that
    cannot be read gives no record. *)
Theorem extracted_records_are_ordered (out : list Event) (f : File) :
  let len := match content f with
             | Readable text => List.length (split_lines text)
             | Unreadable _ => 0
             end in
  (lines_from 0 (fst (extract_dart_functions out f)) /\
   Forall (record_in_file len) (fst (extract_dart_functions out f))) /\
  (lines_from 0 (fst (extract_rust_functions out f)) /\
   Forall (record_in_file len) (fst (extract_rust_functions out f))).
Proof.
  cbv zeta. unfold extract_dart_functions, extract_rust_functions.
  destruct (content f) as [e|text]; cbn [fst].
  - repeat split; constructor.
  - split; [apply dart_loop_sorted | apply rust_loop_sorted].
Qed.

(** X13. The outer loops of the two extractors end because the index
    moves forward on every pass: once the loop may make as many passes as
    the file has lines, allowing it more changes nothing. *)
Theorem extractor_loops_end (fp : string) (lines : list string) (fuel : nat) :
  List.length lines <= fuel ->
  dart_loop fuel fp lines 0 [] = dart_loop (List.length lines) fp lines 0 [] /\
  rust_loop fuel fp lines 0 [] = rust_loop (List.length lines) fp lines 0 [].
Proof.
  intros H. split; [apply dart_loop_fuel | apply rust_loop_fuel]; lia.
Qed.

Lemma extractor_loops_end_witness :
  dart_loop 7 "a.dart" ["void f() {"; "}"; "int g() => 1;"] 0 [] =
  dart_loop 3 "a.dart" ["void f() {"; "}"; "int g() => 1;"] 0 [].
Proof.
  apply (proj1 (extractor_loops_end "a.dart"
                  ["void f() {"; "}"; "int g() => 1;"] 7 ltac:(simpl; lia))).
Defined.

(** The brace loop stops right after the first line at which the counter
    is no longer above zero. *)
Lemma brace_while_stops lines j k : forall d n fuel acc,
  d = k - (j + n) -> j + n <= k -> k < List.length lines ->
  List.length lines - (j + n + 1) <= fuel ->
  (forall m, n <= m -> m < k - j -> (0 < depth lines j m)%Z) ->
  (depth lines j (k - j) <= 0)%Z ->
  brace_while fuel lines (j + n + 1) acc (depth lines j n) =
  (acc ++ slice lines (j + n + 1) (k + 1), depth lines j (k - j), k + 1).
Proof.
  induction d as [|d IH]; intros n fuel acc Hd Hn Hk Hf Hpos Hle.
  - assert (n = k - j) by lia. subst n.
    replace (j + (k - j) + 1) with (k + 1) by lia.
    rewrite slice_nil, app_nil_r.
    destruct fuel as [|fuel]; cbn [brace_while]; [reflexivity|].
    assert (E : (0 <? depth lines j (k - j))%Z = false)
      by (apply Z.ltb_ge; exact Hle).
    rewrite E, andb_false_r. reflexivity.
  - destruct fuel as [|fuel]; [lia|]. cbn [brace_while].
    destruct (Nat.ltb_spec (j + n + 1) (List.length lines)) as [_|Hge]; [|lia].
    assert (E : (0 <? depth lines j n)%Z = true)
      by (apply Z.ltb_lt; apply Hpos; lia).
    rewrite E. cbn [andb].
    specialize (IH (S n) fuel (acc ++ [at_ lines (j + n + 1)])).
    replace (j + S n + 1) with (j + n + 1 + 1) in IH by lia.
    replace (depth lines j (S n))
      with (depth lines j n + net_braces (at_ lines (j + n + 1)))%Z in IH
      by (cbn [depth]; do 3 f_equal; lia).
    rewrite IH; try lia; try assumption.
    + f_equal. f_equal. rewrite <- app_assoc. f_equal. unfold at_.
      rewrite (slice_cons EmptyString lines (j + n + 1) (k + 1)) by lia.
      replace (j + n + 1 + 1) with (S (j + n + 1)) by lia. reflexivity.
    + intros m Hm1 Hm2. apply Hpos; lia.
Qed.

(** X15. The arrow branch looks for the semicolon only on the lines
    after the signature, and it resumes the scan on the line with the
    semicolon, not after it.  So an arrow function always takes the next
    line with it, even when its own line ends the statement; and when
    that next line holds a semicolon and is a signature itself, it is
    counted in the first record and then starts a record of its own. *)
Theorem arrow_function_takes_next_line (fp : string) (lines : list string)
        (i : nat) (g : option string) :
  i + 1 < List.length lines ->
  re_match dart_function_pattern (at_ lines i) = Some g ->
  contains "=>" (at_ lines i) = true ->
  contains ";" (at_ lines (i + 1)) = true ->
  let first :=
    {| name := group1 g; file_path := fp; line_number := i + 1;
       func_code_lines :=
         count_func_code "dart" [at_ lines i; at_ lines (i + 1)] |} in
  dart_at fp lines i = (Some first, i + 1) /\
  (forall second j fuel functions,
      dart_at fp lines (i + 1) = (Some second, j) ->
      line_number second = i + 2 /\
      dart_loop (S (S fuel)) fp lines i functions =
      dart_loop fuel fp lines j (functions ++ [first; second])).
Proof.
  intros Hi Hm Harrow Hsemi first.
  assert (Hat : dart_at fp lines i = (Some first, i + 1)).
  { unfold dart_at, dart_func_lines. rewrite Hm, Harrow.
    pose proof (arrow_while_spec lines (List.length lines - (i + 1)) (i + 1)
                  [at_ lines i]) as H.
    destruct (arrow_while _ lines (i + 1) [at_ lines i]) as [fl i2].
    destruct H as (H1 & H2 & H3 & H4 & H5); [lia|lia|].
    assert (i2 = i + 1).
    { destruct (Nat.eq_dec i2 (i + 1)) as [E|Hne]; [exact E|].
      rewrite (H4 (i + 1)) in Hsemi by lia. discriminate. }
    subst i2. rewrite slice_nil, app_nil_r in H3. subst fl.
    destruct (Nat.ltb_spec (i + 1) (List.length lines)) as [_|Hge]; [|lia].
    reflexivity. }
  split; [exact Hat|].
  intros second j fuel functions Hsecond.
  destruct (dart_at_next fp lines (i + 1) (Some second) j Hi Hsecond)
    as (_ & _ & H3).
  destruct (H3 second eq_refl) as [Hn _].
  split; [lia|].
  cbn [dart_loop].
  destruct (Nat.ltb_spec i (List.length lines)) as [_|Hge]; [|lia].
  rewrite Hat.
  destruct (Nat.ltb_spec (i + 1) (List.length lines)) as [_|Hge]; [|lia].
  rewrite Hsecond, <- app_assoc. reflexivity.
Qed.

Lemma arrow_function_takes_next_line_witness :
  fst (extract_dart_functions []
         (mkFile (mkPath "lib/a.dart" ".dart" "a.dart" "a.dart")
                 (Readable "int one() => 1;
int two() => 2;
int three() => 3;"))) =
  [{| name := "one"; file_path := "lib/a.dart"; line_number := 1;
      func_code_lines := 2 |};
   {| name := "two"; file_path := "lib/a.dart"; line_number := 2;
      func_code_lines := 2 |};
   {| name := "three"; file_path := "lib/a.dart"; line_number := 3;
      func_code_lines := 1 |}].
Proof.
  unfold extract_dart_functions. cbn [content fst location path_str].
  change (split_lines "int one() => 1;
int two() => 2;
int three() => 3;")
    with ["int one() => 1;"; "int two() => 2;"; "int three() => 3;"].
  cbn [List.length].
  destruct (arrow_function_takes_next_line "lib/a.dart"
              ["int one() => 1;"; "int two() => 2;"; "int three() => 3;"]
              0 (Some "one")) as [_ H].
  - simpl. lia.
  - vm_compute. reflexivity.
  - vm_compute. reflexivity.
  - vm_compute. reflexivity.
  - destruct (H {| name := "two"; file_path := "lib/a.dart"; line_number := 2;
                   func_code_lines := 2 |} 2 1 []) as [_ H2].
    + vm_compute. reflexivity.
    + rewrite H2. vm_compute. reflexivity.
Defined.

End VerifyExtraction.

(* ===================================================================== *)
(** * The scan and the report of verify_metrics.py *)
(* ===================================================================== *)

Section VerifyScan.
Import VerifyMetrics.

Lemma analyze_fold_messages fns : forall v fms,
  fst (fold_left analyze_func_step fns (v, fms)) =
  v ++ flat_map function_message fns.
Proof.
  induction fns as [|fn fns IH]; intros v fms; cbn [fold_left flat_map].
  - cbn [fst]. rewrite app_nil_r. reflexivity.
  - unfold analyze_func_step at 2. rewrite IH. unfold function_message at 2.
    destruct (MAX_FUNCTION_LINES <? func_code_lines fn)%nat.
    + rewrite <- app_assoc. reflexivity.
    + reflexivity.
Qed.

Lemma count_file_lines_sum out f lang :
  let '((total, code, comments, blanks), _) := count_file_lines out f lang in
  blanks + comments + code = total.
Proof.
  unfold count_file_lines. destruct (content f) as [e|text]; [reflexivity|].
  apply (count_file_fold_labelled lang (readlines text) counts_init).
Qed.

Lemma analyze_file_ok self out f lang :
  let m := fst (fst (analyze_file self out f lang)) in
  file_ok m /\ path m = path_rel (location f).
Proof.
  cbv zeta. unfold analyze_file.
  pose proof (count_file_lines_sum out f lang) as Hsum.
  destruct (count_file_lines out f lang)
    as [[[[total code] comments] blanks] o1].
  destruct (if String.eqb lang "dart" then _ else _) as [functions o2].
  pose proof (analyze_fold_messages functions
                (if (MAX_FILE_LINES <? code)%nat
                 then [FileExceeds MAX_FILE_LINES code] else [])
                (function_metrics self)) as Hv.
  destruct (fold_left analyze_func_step functions _) as [viols fms].
  cbn [fst] in Hv. cbn [fst path]. split; [|reflexivity].
  unfold file_ok.
  cbn [blank_lines comment_lines code_lines total_lines violations].
  subst viols. split; [exact Hsum|].
  assert (Hfun : Forall (message_ok code) (flat_map function_message functions)).
  { apply Forall_forall. intros v Hin. apply in_flat_map in Hin.
    destruct Hin as (fn & _ & Hin). unfold function_message in Hin.
    destruct (Nat.ltb_spec MAX_FUNCTION_LINES (func_code_lines fn)) as [Hlt|_];
      [|destruct Hin].
    destruct Hin as [<-|[]]. unfold MAX_FUNCTION_LINES in *. simpl. lia. }
  assert (Hnot : ~ In (FileExceeds 500 code)
                      (flat_map function_message functions)).
  { intros Hin. apply in_flat_map in Hin. destruct Hin as (fn & _ & Hin).
    unfold function_message in Hin.
    destruct (MAX_FUNCTION_LINES <? func_code_lines fn)%nat;
      [destruct Hin as [E|[]]; discriminate|destruct Hin]. }
  destruct (Nat.ltb_spec MAX_FILE_LINES code) as [Hlt|Hge];
    unfold MAX_FILE_LINES in *; cbn [app].
  - split.
    + constructor; [simpl; lia|exact Hfun].
    + split; [intros _; now left|intros _; exact Hlt].
  - split; [exact Hfun|].
    split; [lia|intros Hin; contradiction].
Qed.

Lemma scan_file_records lang self out f :
  let self' := fst (scan_file lang (self, out) f) in
  map path (file_metrics self') =
    map path (file_metrics self) ++
    (if skipped f then [] else [path_rel (location f)]) /\
  (Forall file_ok (file_metrics self) -> Forall file_ok (file_metrics self')).
Proof.
  cbv zeta. unfold scan_file, skipped.
  destruct (existsb _ SKIP_MARKERS); cbn [fst].
  - rewrite app_nil_r. split; [reflexivity|auto].
  - pose proof (analyze_file_ok self out f lang) as Hok.
    pose proof (analyze_file_keeps_files self out f lang) as Hk.
    destruct (analyze_file self out f lang) as [[m self1] o1].
    cbn [fst snd file_metrics] in *. destruct Hok as [Hok Hp].
    rewrite Hk, map_app. cbn [map]. rewrite Hp. split; [reflexivity|].
    intros H. apply Forall_app. split; [exact H|]. constructor; [exact Hok|].
    constructor.
Qed.

Lemma scan_directory_records lang found : forall self out,
  let self' := fst (scan_directory self out found lang) in
  map path (file_metrics self') =
    map path (file_metrics self) ++
    map (fun f => path_rel (location f))
        (filter (fun f => negb (skipped f)) found) /\
  (Forall file_ok (file_metrics self) -> Forall file_ok (file_metrics self')).
Proof.
  unfold scan_directory.
  induction found as [|f found IH]; intros self out; cbn [fold_left filter].
  - cbn [map]. rewrite app_nil_r. split; [reflexivity|auto].
  - pose proof (scan_file_records lang self out f) as Hf.
    destruct (scan_file lang (self, out) f) as [self1 out1].
    cbv zeta in *. cbn [fst] in Hf. destruct Hf as [Hf1 Hf2].
    destruct (IH self1 out1) as [IH1 IH2].
    rewrite IH1, Hf1. split.
    + destruct (skipped f); cbn [negb map app].
      * rewrite app_nil_r. reflexivity.
      * rewrite <- app_assoc. reflexivity.
    + intros H. apply IH2, Hf2, H.
Qed.

Lemma scan_directory_skips lang found : forall self out,
  scan_directory self out found lang =
  scan_directory self out (filter (fun f => negb (skipped f)) found) lang.
Proof.
  unfold scan_directory.
  induction found as [|f found IH]; intros self out; cbn [fold_left filter];
    [reflexivity|].
  destruct (skipped f) eqn:E; cbn [negb fold_left].
  - assert (Hs : scan_file lang (self, out) f = (self, out)).
    { unfold scan_file. unfold skipped in E. rewrite E. reflexivity. }
    rewrite Hs. apply IH.
  - destruct (scan_file lang (self, out) f) as [self1 out1]. apply IH.
Qed.

(** X16. [scan_directory] of verify_metrics.py makes one file record for
    each file that is not excluded, in the order in which the files are
    found, under the file's path relative to the project root; an
    excluded file leaves no trace at all: the scan gives what it gives
    without the excluded files. *)
Theorem scan_makes_one_record_per_file (self : MetricsAnalyzer)
        (out : list Event) (found : list File) (lang : string) :
  map path (file_metrics (fst (scan_directory self out found lang))) =
    map path (file_metrics self) ++
    map (fun f => path_rel (location f))
        (filter (fun f => negb (skipped f)) found) /\
  scan_directory self out found lang =
  scan_directory self out (filter (fun f => negb (skipped f)) found) lang.
Proof.
  split; [apply scan_directory_records | apply scan_directory_skips].
Qed.

(** X17. Every file record that a scan adds is sound: its blank, comment
    and code counts add up to its total, every message in its violations
    holds a count above the limit it names (500 for the file, 50 for a
    function), and it holds the file message exactly when its code-line
    count is above 500.  A scan keeps the records it finds sound. *)
Theorem scanned_records_are_sound (self : MetricsAnalyzer) (out : list Event)
        (found : list File) (lang : string) :
  Forall file_ok (file_metrics self) ->
  Forall file_ok (file_metrics (fst (scan_directory self out found lang))).
Proof.
  apply scan_directory_records.
Qed.

Lemma scanned_records_are_sound_witness :
  let f := mkFile (mkPath "lib/a.dart" ".dart" "a.dart" "a.dart")
                  (Readable (text_of 501 "x = 1;")) in
  Forall file_ok
    (file_metrics (fst (scan_directory (init None "/repo") [] [f] "dart"))).
Proof.
  cbv zeta. apply scanned_records_are_sound. constructor.
Defined.

Lemma list_sum_zero l : list_sum l = 0 <-> forall n, In n l -> n = 0.
Proof.
  induction l as [|x l IH]; cbn [list_sum fold_right].
  - split; [intros _ n []|reflexivity].
  - fold (list_sum l). split.
    + intros H n [<-|Hn]; [lia|]. apply IH; [lia|exact Hn].
    + intros H. rewrite (H x (or_introl eq_refl)).
      apply IH. intros n Hn. apply H. now right.
Qed.

Lemma total_violations_zero (l : list FileMetrics) :
  list_sum (map (fun f => List.length (violations f)) l) = 0 <->
  forall m, In m l -> violations m = [].
Proof.
  rewrite list_sum_zero. split.
  - intros H m Hm. apply length_zero_iff_nil. apply H.
    apply in_map_iff. exists m. split; [reflexivity|exact Hm].
  - intros H n Hn. apply in_map_iff in Hn. destruct Hn as (m & <- & Hm).
    rewrite (H m Hm). reflexivity.
Qed.

Lemma files_with_violations_le (l : list FileMetrics) :
  List.length (filter has_violations l) <=
  list_sum (map (fun f => List.length (violations f)) l).
Proof.
  induction l as [|m l IH]; [simpl; lia|].
  cbn [filter map list_sum fold_right].
  fold (list_sum (map (fun f => List.length (violations f)) l)).
  unfold has_violations at 1.
  destruct (violations m); cbn [is_nil negb List.length]; lia.
Qed.

Lemma filter_permutation {X} (p : X -> bool) (l l' : list X) :
  Permutation l l' -> Permutation (filter p l) (filter p l').
Proof.
  induction 1 as [|x l l' H IH|x y l|l l' l'' H1 IH1 H2 IH2]; cbn [filter].
  - constructor.
  - destruct (p x); [constructor|]; exact IH.
  - destruct (p x), (p y); try apply perm_swap; reflexivity.
  - etransitivity; eassumption.
Qed.

Lemma filter_strongly_sorted {X} (R : X -> X -> Prop) (p : X -> bool) l :
  StronglySorted R l -> StronglySorted R (filter p l).
Proof.
  induction 1 as [|x l Hs IH Hall]; cbn [filter]; [constructor|].
  destruct (p x); [|exact IH].
  constructor; [exact IH|].
  rewrite Forall_forall in *. intros y Hy. apply filter_In in Hy.
  apply Hall. apply Hy.
Qed.

Lemma map_fst_enumerate_from {X} (l : list X) : forall n,
  map fst (enumerate_from n l) = seq n (List.length l).
Proof.
  induction l as [|x l IH]; intros n; [reflexivity|].
  unfold enumerate_from in *. cbn [List.length seq combine map fst].
  rewrite IH. reflexivity.
Qed.

(** X18. The report of verify_metrics.py is consistent with the file
    records it is made from: the listing of violations is left out
    exactly when the total is zero, which is exactly when no record has a
    violation and [main] returns 0; the number of files with violations
    is at most the number of files and at most the number of violations;
    the listing holds exactly the records that have violations, the ones
    with more violations first; and the rows of the table of largest
    files are numbered 1, 2, ... up to ten. *)
Theorem report_is_consistent (self : MetricsAnalyzer) :
  let r := generate_report self in
  (summary_total_violations r = 0 <-> violation_listing r = None) /\
  (summary_total_violations r = 0 <->
   forall m, In m (file_metrics self) -> violations m = []) /\
  (verify_exit_code self = 0 <-> summary_total_violations r = 0) /\
  summary_files_with_violations r <= summary_total_files r /\
  summary_files_with_violations r <= summary_total_violations r /\
  (forall rows, violation_listing r = Some rows ->
     exists l,
       rows = map (fun m => (path m, code_lines m, violations m)) l /\
       Permutation l (filter has_violations (file_metrics self)) /\
       StronglySorted
         (fun a b => List.length (violations b) <= List.length (violations a))
         l) /\
  map (fun row : nat * bool * string * nat => fst (fst (fst row)))
      (largest_files_rows r) =
    seq 1 (Nat.min 10 (List.length (file_metrics self))).
Proof.
  cbv zeta. unfold generate_report, verify_exit_code.
  cbn [summary_total_violations violation_listing summary_files_with_violations
       summary_total_files largest_files_rows].
  set (total := list_sum (map (fun f => List.length (violations f))
                            (file_metrics self))).
  split; [|split; [|split; [|split; [|split; [|split]]]]].
  - destruct (Nat.ltb_spec 0 total); split; try lia; try discriminate;
      reflexivity.
  - apply total_violations_zero.
  - destruct (Nat.ltb_spec 0 total); split; try lia; discriminate.
  - apply filter_length_le.
  - apply files_with_violations_le.
  - intros rows. destruct (0 <? total)%nat; [|discriminate].
    intros E; inversion E; subst rows.
    exists (filter has_violations
              (sorted_reverse (fun x => List.length (violations x))
                 (file_metrics self))).
    split; [reflexivity|]. split.
    + apply filter_permutation. apply sorted_reverse_perm.
    + apply filter_strongly_sorted. apply sorted_reverse_sorted.
  - assert (Hlen : List.length (largest_files self) =
                   Nat.min 10 (List.length (file_metrics self))).
    { apply (top_of_sorted_reverse code_lines 10 (file_metrics self)). }
    rewrite <- Hlen, <- (map_fst_enumerate_from (largest_files self) 1).
    rewrite map_map. unfold enumerate1.
    apply map_ext. intros [i m]. reflexivity.
Qed.

End VerifyScan.

(* ===================================================================== *)
(** * What the extractors return for the signatures their scan reaches *)
(* ===================================================================== *)

Section ReachedSignatures.
Import VerifyMetrics.

Lemma extract_dart_readable out f text :
  content f = Readable text ->
  fst (extract_dart_functions out f) =
  dart_loop (List.length (split_lines text)) (path_str (location f))
    (split_lines text) 0 [].
Proof. intros H. unfold extract_dart_functions. rewrite H. reflexivity. Qed.

Lemma extract_rust_readable out f text :
  content f = Readable text ->
  fst (extract_rust_functions out f) =
  rust_loop (List.length (split_lines text)) (path_str (location f))
    (split_lines text) 0 [].
Proof. intros H. unfold extract_rust_functions. rewrite H. reflexivity. Qed.

Lemma dart_from_step fp lines i o j :
  i < List.length lines -> dart_at fp lines i = (o, j) ->
  dart_loop (List.length lines) fp lines i [] =
  match o with Some fm => [fm] | None => [] end ++
  dart_loop (List.length lines) fp lines j [].
Proof.
  intros Hi E.
  destruct (dart_at_next fp lines i o j Hi E) as (Hij & Hj & _).
  rewrite (dart_loop_fuel fp lines (List.length lines)
             (S (List.length lines)) i []) by lia.
  cbn [dart_loop].
  destruct (Nat.ltb_spec i (List.length lines)) as [_|Hge]; [|lia].
  rewrite E. destruct o as [fm|].
  - rewrite dart_loop_acc. reflexivity.
  - reflexivity.
Qed.

Lemma dart_reached_split fp lines i :
  dart_reached fp lines i ->
  exists pre,
    dart_loop (List.length lines) fp lines 0 [] =
      pre ++ dart_loop (List.length lines) fp lines i [] /\
    Forall (fun g => line_number g <= i) pre.
Proof.
  induction 1 as [|i Hr IH Hi].
  - exists []. split; [reflexivity|constructor].
  - destruct IH as (pre & Hpre & Hall).
    destruct (dart_at fp lines i) as [o j] eqn:E. cbn [snd].
    destruct (dart_at_next fp lines i o j Hi E) as (Hij & Hj & Hrec).
    exists (pre ++ match o with Some fm => [fm] | None => [] end).
    split.
    + rewrite Hpre, (dart_from_step fp lines i o j Hi E), app_assoc.
      reflexivity.
    + apply Forall_app. split.
      * eapply Forall_impl; [|exact Hall]. simpl. intros g Hg. lia.
      * destruct o as [fm|]; [|constructor].
        constructor; [|constructor].
        destruct (Hrec fm eq_refl) as [Hn _]. lia.
Qed.

(** The record made at a reached line is in the result, and no other
    record starts between that line and the index where the scan goes
    on. *)
Lemma dart_record_at fp lines i fm j :
  dart_reached fp lines i -> i < List.length lines ->
  dart_at fp lines i = (Some fm, j) ->
  In fm (dart_loop (List.length lines) fp lines 0 []) /\
  forall g, In g (dart_loop (List.length lines) fp lines 0 []) ->
            line_number g <= i \/ g = fm \/ j < line_number g.
Proof.
  intros Hr Hi E.
  destruct (dart_reached_split fp lines i Hr) as (pre & Hpre & Hall).
  rewrite Hpre, (dart_from_step fp lines i (Some fm) j Hi E). split.
  - apply in_or_app. right. now left.
  - intros g Hin. apply in_app_or in Hin. destruct Hin as [Hin|Hin].
    + left. rewrite Forall_forall in Hall. apply Hall. exact Hin.
    + destruct Hin as [<-|Hin]; [right; now left|].
      apply dart_loop_lower in Hin. destruct Hin as [[]|Hin].
      right. right. exact Hin.
Qed.


Lemma lines_from_lower l : forall lo g,
  lines_from lo l -> In g l -> lo < line_number g.
Proof.
  induction l as [|x l IH]; intros lo g Hl Hin; [destruct Hin|].
  cbn [lines_from] in Hl. destruct Hl as [H1 H2].
  destruct Hin as [<-|Hin]; [exact H1|].
  specialize (IH _ _ H2 Hin). lia.
Qed.

Lemma rust_from_step fp lines i :
  i < List.length lines ->
  rust_loop (List.length lines) fp lines i [] =
  match rust_at fp lines i with
  | NoMatch j => rust_loop (List.length lines) fp lines j []
  | Break => []
  | Extracted fm j => fm :: rust_loop (List.length lines) fp lines j []
  end.
Proof.
  intros Hi. pose proof (rust_at_next fp lines i Hi) as Hn.
  rewrite (rust_loop_fuel fp lines (List.length lines)
             (S (List.length lines)) i []) by lia.
  cbn [rust_loop].
  destruct (Nat.ltb_spec i (List.length lines)) as [_|Hge]; [|lia].
  destruct (rust_at fp lines i) as [j| |fm j].
  - reflexivity.
  - reflexivity.
  - rewrite rust_loop_acc. reflexivity.
Qed.

Lemma rust_reached_split fp lines i :
  rust_reached fp lines i ->
  exists pre,
    rust_loop (List.length lines) fp lines 0 [] =
      pre ++ rust_loop (List.length lines) fp lines i [] /\
    Forall (fun g => line_number g <= i) pre.
Proof.
  induction 1 as [|i j Hr IH Hi E|i fm j Hr IH Hi E].
  - exists []. split; [reflexivity|constructor].
  - destruct IH as (pre & Hpre & Hall).
    pose proof (rust_at_next fp lines i Hi) as Hn. rewrite E in Hn.
    exists pre. split.
    + rewrite Hpre, (rust_from_step fp lines i Hi), E. reflexivity.
    + eapply Forall_impl; [|exact Hall]. simpl. intros g Hg. lia.
  - destruct IH as (pre & Hpre & Hall).
    pose proof (rust_at_next fp lines i Hi) as Hn. rewrite E in Hn.
    destruct Hn as [Hij Hln].
    exists (pre ++ [fm]). split.
    + rewrite Hpre, (rust_from_step fp lines i Hi), E, <- app_assoc.
      reflexivity.
    + apply Forall_app. split.
      * eapply Forall_impl; [|exact Hall]. simpl. intros g Hg. lia.
      * constructor; [lia|constructor].
Qed.

Lemma rust_record_at fp lines i fm j :
  rust_reached fp lines i -> i < List.length lines ->
  rust_at fp lines i = Extracted fm j ->
  In fm (rust_loop (List.length lines) fp lines 0 []) /\
  forall g, In g (rust_loop (List.length lines) fp lines 0 []) ->
            line_number g <= i \/ g = fm \/ j < line_number g.
Proof.
  intros Hr Hi E.
  destruct (rust_reached_split fp lines i Hr) as (pre & Hpre & Hall).
  rewrite Hpre, (rust_from_step fp lines i Hi), E. split.
  - apply in_or_app. right. now left.
  - intros g Hin. apply in_app_or in Hin. destruct Hin as [Hin|Hin].
    + left. rewrite Forall_forall in Hall. apply Hall. exact Hin.
    + destruct Hin as [<-|Hin]; [right; now left|].
      right. right.
      destruct (rust_loop_sorted fp lines (List.length lines) j) as [Hs _].
      apply (lines_from_lower _ _ _ Hs Hin).
Qed.

(** The lines an extraction at index [i] collects, by the index at which
    the scan goes on: up to that index for a brace function, up to and
    including it (the line with the semicolon) for an arrow function. *)
Lemma dart_func_lines_span lines i :
  i < List.length lines ->
  fst (dart_func_lines lines i) =
  if contains "=>" (at_ lines i)
  then slice lines i (Nat.min (snd (dart_func_lines lines i) + 1)
                               (List.length lines))
  else slice lines i (snd (dart_func_lines lines i)).
Proof.
  intros Hi. unfold dart_func_lines.
  destruct (contains "=>" (at_ lines i)).
  - pose proof (arrow_while_spec lines (List.length lines - (i + 1)) (i + 1)
                  [at_ lines i]) as H.
    destruct (arrow_while _ lines (i + 1) [at_ lines i]) as [fl i2].
    destruct H as (H1 & H2 & H3 & _); [lia|lia|]. subst fl.
    destruct (Nat.ltb_spec i2 (List.length lines)) as [Hlt|Hge]; cbn [fst snd].
    + rewrite Nat.min_l by lia. cbn [app]. unfold at_.
      replace (i2 + 1) with (S i2) by lia.
      rewrite (slice_cons EmptyString lines i (S i2)) by lia.
      replace (i + 1) with (S i) by lia.
      rewrite (slice_snoc EmptyString lines (S i) i2) by lia. reflexivity.
    + rewrite Nat.min_r by lia. cbn [app]. unfold at_.
      assert (i2 = List.length lines) as -> by lia.
      rewrite (slice_cons EmptyString lines i (List.length lines)) by lia.
      replace (i + 1) with (S i) by lia. reflexivity.
  - pose proof (brace_while_spec lines (List.length lines - (i + 1)) (i + 1)
                  [at_ lines i] (net_braces (at_ lines i))) as H.
    destruct (brace_while _ lines (i + 1) [at_ lines i] _) as [[fl bc] i2].
    destruct H as (H1 & H2 & H3); [lia|]. subst fl. cbn [fst snd app].
    unfold at_. rewrite (slice_cons EmptyString lines i i2) by lia.
    replace (i + 1) with (S i) by lia. reflexivity.
Qed.




(** C5 (as amended). A signature match strictly inside the lines that an
    extraction has consumed starts no record of its own.  In
    [extract_dart_functions], when the scan reaches a signature line,
    extracts a function there and goes on at index [j], the record is in
    the result and no record starts on the lines after the signature up
    to line [j].  For a brace function these are all the lines it
    collected, so every later record starts after them; for an arrow
    function they are the collected lines except the one with the
    semicolon, on which the scan goes on, so that this line alone can
    both be counted in the function and start a record of its own.  In
    check_code_metrics.py a function is only started while none is open,
    so the found functions follow one another without overlap. *)
Theorem nested_signature_starts_no_record :
  (forall out f text i fm j,
      let lines := split_lines text in
      let fp := path_str (location f) in
      content f = Readable text ->
      dart_reached fp lines i -> i < List.length lines ->
      dart_at fp lines i = (Some fm, j) ->
      i < j /\ line_number fm = i + 1 /\
      fst (dart_func_lines lines i) =
        (if contains "=>" (at_ lines i)
         then slice lines i (Nat.min (j + 1) (List.length lines))
         else slice lines i j) /\
      func_code_lines fm =
        count_func_code "dart" (fst (dart_func_lines lines i)) /\
      In fm (fst (extract_dart_functions out f)) /\
      forall g, In g (fst (extract_dart_functions out f)) ->
                line_number g <= i \/ g = fm \/ j < line_number g) /\
  (forall lines,
      spans_from 0 (CheckCodeMetrics.find_dart_functions lines) /\
      spans_from 0 (CheckCodeMetrics.find_rust_functions lines)).
Proof.
  split.
  - intros out f text i fm j lines fp Hc Hreach Hi Hat.
    destruct (dart_at_next fp lines i (Some fm) j Hi Hat) as (H1 & H2 & H3).
    destruct (H3 fm eq_refl) as [H4 _].
    assert (Hj : j = snd (dart_func_lines lines i) /\
                 func_code_lines fm =
                   count_func_code "dart" (fst (dart_func_lines lines i))).
    { revert Hat. unfold dart_at.
      destruct (re_match dart_function_pattern (at_ lines i)); [|discriminate].
      destruct (dart_func_lines lines i) as [fl j']. cbn [fst snd].
      intros E; inversion E; subst. split; reflexivity. }
    destruct Hj as [Hj Hcount].
    rewrite (extract_dart_readable out f text Hc).
    destruct (dart_record_at fp lines i fm j Hreach Hi Hat) as [Hin Hothers].
    split; [exact H1|]. split; [exact H4|]. split; [|split; [exact Hcount|]].
    + rewrite (dart_func_lines_span lines i Hi), <- Hj. reflexivity.
    + split; [exact Hin|exact Hothers].
  - intros lines.
    assert (H : forall pattern,
               spans_from 0 (CheckCodeMetrics.find_functions pattern lines)).
    { intros pattern. unfold CheckCodeMetrics.find_functions, enumerate.
      apply (find_run_inv pattern lines 0 CheckCodeMetrics.find_init).
      split; simpl; auto. }
    split; apply H.
Qed.

Lemma nested_signature_starts_no_record_witness :
  let file :=
    mkFile (mkPath "lib/a.dart" ".dart" "a.dart" "a.dart")
           (Readable "void outer() {
  int inner() {
    return 1;
  }
}
int last() { return 2; }") in
  let outer := {| name := "outer"; file_path := "lib/a.dart"; line_number := 1;
                  func_code_lines := 5 |} in
  (forall g, In g (fst (extract_dart_functions [] file)) ->
             line_number g <= 0 \/ g = outer \/ 5 < line_number g) /\
  spans_from 0 (CheckCodeMetrics.find_dart_functions
                  ["void f() {}"; "int g() {"; "}}"]).
Proof.
  cbv zeta. destruct nested_signature_starts_no_record as [HA HB]. split.
  - destruct (HA []
      (mkFile (mkPath "lib/a.dart" ".dart" "a.dart" "a.dart")
           (Readable "void outer() {
  int inner() {
    return 1;
  }
}
int last() { return 2; }"))
      "void outer() {
  int inner() {
    return 1;
  }
}
int last() { return 2; }" 0
      {| name := "outer"; file_path := "lib/a.dart"; line_number := 1;
         func_code_lines := 5 |} 5)
      as (_ & _ & _ & _ & _ & H).
    + reflexivity.
    + constructor.
    + vm_compute. lia.
    + vm_compute. reflexivity.
    + exact H.
  - apply HB.
Defined.

(** X14. A brace-delimited function whose signature line the scan
    reaches is extracted up to the line that closes it: when the brace
    counter, started on the line with the first opening brace, stays
    above zero on the lines before line [k] and is zero or less after
    line [k], the result holds a record for the signature counted on the
    lines from the signature to line [k], the scan goes on with the line
    after [k], and no other record starts on these lines.  For
    [extract_dart_functions] the signature line must not contain the
    arrow marker and the counting starts on it; for
    [extract_rust_functions] the counting starts on the first line, at
    or after the signature, that holds an opening brace. *)
Theorem brace_function_span (out : list Event) (f : File) (text : string)
        (i j k : nat) (g : option string) :
  let lines := split_lines text in
  let fp := path_str (location f) in
  content f = Readable text ->
  i <= j -> j <= k -> k < List.length lines ->
  (forall m, m < k - j -> (0 < depth lines j m)%Z) ->
  (depth lines j (k - j) <= 0)%Z ->
  (j = i ->
   dart_reached fp lines i ->
   re_match dart_function_pattern (at_ lines i) = Some g ->
   contains "=>" (at_ lines i) = false ->
   let record :=
     {| name := group1 g; file_path := fp; line_number := i + 1;
        func_code_lines := count_func_code "dart" (slice lines i (k + 1)) |} in
   dart_at fp lines i = (Some record, k + 1) /\
   In record (fst (extract_dart_functions out f)) /\
   forall r, In r (fst (extract_dart_functions out f)) ->
             line_number r <= i \/ r = record \/ k + 1 < line_number r) /\
  (rust_reached fp lines i ->
   re_match rust_function_pattern (at_ lines i) = Some g ->
   (forall m, i <= m -> m < j -> contains "{" (at_ lines m) = false) ->
   contains "{" (at_ lines j) = true ->
   let record :=
     {| name := group1 g; file_path := fp; line_number := i + 1;
        func_code_lines := count_func_code "rust" (slice lines i (k + 1)) |} in
   rust_at fp lines i = Extracted record (k + 1) /\
   In record (fst (extract_rust_functions out f)) /\
   forall r, In r (fst (extract_rust_functions out f)) ->
             line_number r <= i \/ r = record \/ k + 1 < line_number r).
Proof.
  intros lines fp Hc Hij Hjk Hk Hpos Hle.
  pose proof (fun acc =>
    brace_while_stops lines j k (k - j) 0 (List.length lines - (j + 1)) acc)
    as Hw.
  replace (j + 0 + 1) with (j + 1) in Hw by lia.
  change (depth lines j 0) with (net_braces (at_ lines j)) in Hw.
  split.
  - intros -> Hreach Hm Harrow record.
    assert (Hat : dart_at fp lines i = (Some record, k + 1)).
    { unfold dart_at, dart_func_lines. rewrite Hm, Harrow.
      rewrite Hw; try lia; try assumption;
        [|intros m _ Hm2; apply Hpos; exact Hm2].
      subst record. do 3 f_equal. cbn [app]. unfold at_.
      rewrite (slice_cons EmptyString lines i (k + 1)) by lia.
      replace (i + 1) with (S i) by lia. reflexivity. }
    split; [exact Hat|].
    rewrite (extract_dart_readable out f text Hc).
    apply (dart_record_at fp lines i record (k + 1) Hreach ltac:(lia) Hat).
  - intros Hreach Hm Hno Hb record.
    assert (Hat : rust_at fp lines i = Extracted record (k + 1)).
    { unfold rust_at, rust_func_lines. rewrite Hm.
      pose proof (open_while_spec lines (List.length lines - i) i []) as H.
      destruct (open_while _ lines i []) as [fl i1].
      destruct H as (H1 & H2 & H3 & H4 & H5); [lia|lia|].
      assert (i1 = j).
      { destruct (Nat.lt_trichotomy i1 j) as [Hlt|[Heq|Hgt]]; [|exact Heq|].
        - rewrite Hno in H5 by lia.
          assert (false = true) by (apply H5; lia). discriminate.
        - rewrite H4 in Hb by lia. discriminate. }
      subst i1.
      destruct (Nat.leb_spec (List.length lines) j) as [Hge|_]; [lia|].
      rewrite Hw; try lia; try assumption;
        [|intros m _ Hm2; apply Hpos; exact Hm2].
      subst record. do 3 f_equal. rewrite H3. cbn [app]. unfold at_.
      rewrite <- (slice_snoc EmptyString lines i j) by lia.
      replace (j + 1) with (S j) by lia.
      apply slice_app; lia. }
    split; [exact Hat|].
    rewrite (extract_rust_readable out f text Hc).
    apply (rust_record_at fp lines i record (k + 1) Hreach ltac:(lia) Hat).
Qed.

Lemma brace_function_span_witness :
  In {| name := "area"; file_path := "src/a.rs"; line_number := 1;
        func_code_lines := 4 |}
     (fst (extract_rust_functions []
             (mkFile (mkPath "src/a.rs" ".rs" "a.rs" "a.rs")
                     (Readable "fn area(w: u32, h: u32) -> u32
{
    w * h
}
fn next() {}")))) /\
  In {| name := "one"; file_path := "lib/a.dart"; line_number := 1;
        func_code_lines := 1 |}
     (fst (extract_dart_functions []
             (mkFile (mkPath "lib/a.dart" ".dart" "a.dart" "a.dart")
                     (Readable "int one() { return 1; }
int two() {")))).
Proof.
  split.
  - destruct (brace_function_span []
      (mkFile (mkPath "src/a.rs" ".rs" "a.rs" "a.rs")
              (Readable "fn area(w: u32, h: u32) -> u32
{
    w * h
}
fn next() {}"))
      "fn area(w: u32, h: u32) -> u32
{
    w * h
}
fn next() {}" 0 1 3 (Some "area")) as [_ H].
    + reflexivity.
    + lia.
    + lia.
    + vm_compute. lia.
    + intros m Hm. destruct m as [|[|m]]; [vm_compute; reflexivity .. |].
      simpl in Hm. lia.
    + vm_compute. discriminate.
    + destruct H as (_ & H & _).
      * constructor.
      * vm_compute. reflexivity.
      * intros m Hm1 Hm2. assert (m = 0) as -> by lia. vm_compute. reflexivity.
      * vm_compute. reflexivity.
      * exact H.
  - destruct (brace_function_span []
      (mkFile (mkPath "lib/a.dart" ".dart" "a.dart" "a.dart")
              (Readable "int one() { return 1; }
int two() {"))
      "int one() { return 1; }
int two() {" 0 0 0 (Some "one")) as [H _].
    + reflexivity.
    + lia.
    + lia.
    + vm_compute. lia.
    + intros m Hm. simpl in Hm. lia.
    + vm_compute. discriminate.
    + destruct H as (_ & H & _).
      * reflexivity.
      * constructor.
      * vm_compute. reflexivity.
      * vm_compute. reflexivity.
      * exact H.
Defined.

End ReachedSignatures.

(* ===================================================================== *)
(** * What a scan adds, and what an analyzer carries from scan to scan *)
(* ===================================================================== *)

Section RepeatedScans.
Import VerifyMetrics.




End RepeatedScans.
